(** * video_social: the comment and user controllers

    A shallow embedding of [src/controllers/comentController.js] and
    [src/controllers/userController.js].  The controllers are
    request handlers: each one reads a request, talks to the document
    store through the ORM models ([User], [Video], [Comment], [Like]),
    and either answers with a response or throws.  A handler is modelled
    as a computation in a state-and-exception monad over the store; a
    thrown exception keeps the store changes made before it, as in the
    source (there are no transactions).

    What the source imports from elsewhere (the ORM, the token library,
    the image host) is modelled once, in the first part of the file; the
    handlers that follow are transcriptions of the two source files. *)

From Stdlib Require Import List String Ascii ZArith Bool Arith Lia Sorted Permutation.
Import ListNotations.
Open Scope string_scope.

(** ** JavaScript values *)

(** Identifiers of stored documents.  Two identifiers have the same
    [toString()] exactly when they are equal, so the source's comparisons
    of [x.toString()] with [y.toString()] are comparisons of identifiers. *)
Definition ObjectId := nat.

#[local] Unset Elimination Schemes.
Inductive Value : Type :=
| VUndefined
| VNull
| VBool (b : bool)
| VNum (z : Z)
| VStr (s : string)
| VId (i : ObjectId)
| VArr (l : list Value)
| VDoc (fs : list (string * Value)).
#[local] Set Elimination Schemes.

Module Js.

(** [!!v] *)
Definition truthy (v : Value) : bool :=
  match v with
  | VUndefined | VNull => false
  | VBool b => b
  | VNum z => negb (z =? 0)%Z
  | VStr s => negb (s =? "")
  | VId _ | VArr _ | VDoc _ => true
  end.

(** [a || b] *)
Definition or (a b : Value) : Value := if truthy a then a else b.

(** [o.k] on a plain object: [undefined] when the key is absent. *)
Fixpoint get_field (k : string) (fs : list (string * Value)) : option Value :=
  match fs with
  | [] => None
  | (k', v) :: r => if k' =? k then Some v else get_field k r
  end.

Definition prop (o : list (string * Value)) (k : string) : Value :=
  match get_field k o with Some v => v | None => VUndefined end.

(** Destructuring [const {k} = v]: a property read on the object. *)
Definition destructure (v : Value) (k : string) : Value :=
  match v with VDoc fs => prop fs k | _ => VUndefined end.

(** [const { k = d } = o]: the default applies to [undefined] only. *)
Definition prop_default (o : list (string * Value)) (k : string) (d : Value) : Value :=
  match prop o k with VUndefined => d | v => v end.

Definition is_space (c : ascii) : bool :=
  let n := nat_of_ascii c in ((n =? 32) || ((9 <=? n) && (n <=? 13)))%nat.

(** Strings are held in UTF-8.  [space_prefix s] is what follows the
    white space or line terminator that [s] starts with, when it starts
    with one: U+0009 to U+000D and U+0020 (one byte), U+00A0 (C2 A0),
    U+1680 (E1 9A 80), U+2000 to U+200A, U+2028, U+2029 and U+202F
    (E2 80 ..), U+205F (E2 81 9F), U+3000 (E3 80 80), U+FEFF
    (EF BB BF). *)
Definition space_prefix (s : string) : option string :=
  match s with
  | EmptyString => None
  | String c r =>
      if is_space c then Some r
      else
        let n := nat_of_ascii c in
        match r with
        | String d r1 =>
            let m := nat_of_ascii d in
            if ((n =? 194) && (m =? 160))%nat then Some r1
            else
              match r1 with
              | String e r2 =>
                  let k := nat_of_ascii e in
                  if (((n =? 225) && (m =? 154) && (k =? 128))
                      || ((n =? 226) && (m =? 128)
                          && (((128 <=? k) && (k <=? 138))
                              || (k =? 168) || (k =? 169) || (k =? 175)))
                      || ((n =? 226) && (m =? 129) && (k =? 159))
                      || ((n =? 227) && (m =? 128) && (k =? 128))
                      || ((n =? 239) && (m =? 187) && (k =? 191)))%nat
                  then Some r2 else None
              | EmptyString => None
              end
        | EmptyString => None
        end
  end.

Fixpoint trimStart_within (fuel : nat) (s : string) : string :=
  match fuel with
  | O => s
  | S fuel' =>
      match space_prefix s with
      | Some r => trimStart_within fuel' r
      | None => s
      end
  end.

Definition trimStart (s : string) : string := trimStart_within (String.length s) s.

(** A string is dropped from the end back to its last code point that
    is no white space: a suffix goes when it is white space throughout. *)
Fixpoint trimEnd (s : string) : string :=
  match s with
  | EmptyString => EmptyString
  | String c r => if trimStart s =? "" then EmptyString else String c (trimEnd r)
  end.

(** [String.prototype.trim] *)
Definition trim (s : string) : string := trimEnd (trimStart s).

Definition is_ascii (s : string) : bool :=
  forallb (fun c => (nat_of_ascii c <? 128)%nat) (list_ascii_of_string s).

Definition lower (c : ascii) : ascii :=
  let n := nat_of_ascii c in
  if ((65 <=? n) && (n <=? 90))%nat then ascii_of_nat (n + 32) else c.

(** [String.prototype.toLowerCase], which on an ASCII string lowers the
    letters A to Z; the mappings of the letters beyond ASCII are not
    part of the model, and a statement that names the lowered form of a
    string is about an ASCII string. *)
Fixpoint toLowerCase (s : string) : string :=
  match s with
  | EmptyString => EmptyString
  | String c r => String (lower c) (toLowerCase r)
  end.

Definition digit (c : ascii) : option Z :=
  let n := nat_of_ascii c in
  if ((48 <=? n) && (n <=? 57))%nat then Some (Z.of_nat (n - 48)) else None.

(** The longest run of decimal digits at the head of [s], read with
    the accumulator [acc]; [seen] tells whether a digit was read. *)
Fixpoint digits (s : string) (seen : bool) (acc : Z) : option Z :=
  match s with
  | EmptyString => if seen then Some acc else None
  | String c r =>
      match digit c with
      | Some d => digits r true (10 * acc + d)
      | None => if seen then Some acc else None
      end
  end.

Definition parseInt_string (s : string) : option Z :=
  match trimStart s with
  | String "-" r => option_map Z.opp (digits r false 0)
  | String "+" r => digits r false 0
  | t => digits t false 0
  end.

(** [parseInt(v, 10)]; [None] is [NaN].  A number is taken as the
    integer it is (the model has no fractions); any other value has a
    string form that starts with no digit. *)
Definition parseInt (v : Value) : option Z :=
  match v with
  | VStr s => parseInt_string s
  | VNum z => Some z
  | _ => None
  end.

(** Equality of values, as the database compares scalars and as [===]
    compares primitives. *)
Fixpoint eqb (a b : Value) {struct a} : bool :=
  match a, b with
  | VUndefined, VUndefined => true
  | VNull, VNull => true
  | VBool x, VBool y => Bool.eqb x y
  | VNum x, VNum y => (x =? y)%Z
  | VStr x, VStr y => (x =? y)
  | VId x, VId y => (x =? y)%nat
  | VArr l1, VArr l2 =>
      (fix go (l1 l2 : list Value) : bool :=
         match l1, l2 with
         | [], [] => true
         | x :: r1, y :: r2 => eqb x y && go r1 r2
         | _, _ => false
         end) l1 l2
  | VDoc f1, VDoc f2 =>
      (fix go (f1 f2 : list (string * Value)) : bool :=
         match f1, f2 with
         | [], [] => true
         | (k1, x) :: r1, (k2, y) :: r2 => (k1 =? k2) && eqb x y && go r1 r2
         | _, _ => false
         end) f1 f2
  | _, _ => false
  end.

(** [a != b] where it is used in the source: between two token
    values.  [null] and [undefined] are loosely equal to each other;
    values of one type compare as [eqb]; the numeric coercions between
    values of different types are not part of the model. *)
Definition loose_neq (a b : Value) : bool :=
  match a, b with
  | (VUndefined | VNull), (VUndefined | VNull) => false
  | _, _ => negb (eqb a b)
  end.

End Js.

(** ** Exceptions *)

(** [ApiError] is the typed HTTP-status exception of [utils/ApiError.js];
    the others are what the runtime and the libraries throw. *)
Inductive Exn : Type :=
| ApiError (statusCode : nat) (message : string)
| TypeError (message : string)
| ReferenceError (message : string)
| MongoError (message : string)
| LibraryError (message : string).

Definition exn_message (e : Exn) : string :=
  match e with
  | ApiError _ m | TypeError m | ReferenceError m | MongoError m | LibraryError m => m
  end.

(** ** Stored documents *)

Record UserDoc : Type := mkUser {
  user_id : ObjectId;
  username : string;
  email : Value;
  fullName : Value;
  password : Value;
  avatar : Value;
  coverImage : Value;
  refreshToken : Value
}.

Record VideoDoc : Type := mkVideo { video_id : ObjectId }.

Record CommentDoc : Type := mkComment {
  comment_id : ObjectId;
  content : Value;
  video : ObjectId;
  owner : option ObjectId;
  createdAt : Z
}.

Record LikeDoc : Type := mkLike {
  like_id : ObjectId;
  like_comment : option ObjectId;
  likedBy : ObjectId
}.

Inductive LogArg : Type :=
| LogValue (v : Value)
| LogError (e : Exn).

(** The store, and the two things outside it that a handler can change:
    the image host (the local paths handed to it so far) and the console.
    Subscriptions are kept as raw documents: the source only reads them,
    through an aggregation. *)
Record World : Type := mkWorld {
  users : list UserDoc;
  videos : list VideoDoc;
  comments : list CommentDoc;
  likes : list LikeDoc;
  subscriptions : list Value;
  uploaded : list Value;
  console : list (list LogArg)
}.

Definition set_users (us : list UserDoc) (w : World) : World :=
  mkWorld us (videos w) (comments w) (likes w) (subscriptions w) (uploaded w) (console w).
Definition set_comments (cs : list CommentDoc) (w : World) : World :=
  mkWorld (users w) (videos w) cs (likes w) (subscriptions w) (uploaded w) (console w).
Definition set_likes (ls : list LikeDoc) (w : World) : World :=
  mkWorld (users w) (videos w) (comments w) ls (subscriptions w) (uploaded w) (console w).
Definition set_uploaded (ps : list Value) (w : World) : World :=
  mkWorld (users w) (videos w) (comments w) (likes w) (subscriptions w) ps (console w).
Definition set_console (c : list (list LogArg)) (w : World) : World :=
  mkWorld (users w) (videos w) (comments w) (likes w) (subscriptions w) (uploaded w) c.

(** Documents as the database and the JSON serialiser see them. *)
Definition opt_id_field (k : string) (o : option ObjectId) : list (string * Value) :=
  match o with Some i => [(k, VId i)] | None => [] end.

Definition user_value (u : UserDoc) : Value :=
  VDoc [("_id", VId (user_id u)); ("username", VStr (username u));
        ("email", email u); ("fullName", fullName u); ("password", password u);
        ("avatar", avatar u); ("coverImage", coverImage u);
        ("refreshToken", refreshToken u)].

(** [.select("-password -refreshToken")] *)
Definition user_public_value (u : UserDoc) : Value :=
  VDoc [("_id", VId (user_id u)); ("username", VStr (username u));
        ("email", email u); ("fullName", fullName u);
        ("avatar", avatar u); ("coverImage", coverImage u)].

Definition comment_value (c : CommentDoc) : Value :=
  VDoc ([("_id", VId (comment_id c)); ("content", content c); ("video", VId (video c))]
        ++ opt_id_field "owner" (owner c)
        ++ [("createdAt", VNum (createdAt c))]).

Definition like_value (l : LikeDoc) : Value :=
  VDoc ([("_id", VId (like_id l))]
        ++ opt_id_field "comment" (like_comment l)
        ++ [("likedBy", VId (likedBy l))]).

Definition video_value (v : VideoDoc) : Value := VDoc [("_id", VId (video_id v))].

(** ** The handler monad *)

Definition M (A : Type) : Type := World -> World * (Exn + A).

Definition ret {A} (a : A) : M A := fun w => (w, inr a).

Definition bind {A B} (c : M A) (k : A -> M B) : M B :=
  fun w => match c w with
           | (w', inl e) => (w', inl e)
           | (w', inr a) => k a w'
           end.

Definition throw {A} (e : Exn) : M A := fun w => (w, inl e).

(** [try { c } catch (error) { h error }] *)
Definition try_catch {A} (c : M A) (h : Exn -> M A) : M A :=
  fun w => match c w with
           | (w', inl e) => h e w'
           | r => r
           end.

Definition gets {A} (f : World -> A) : M A := fun w => (w, inr (f w)).
Definition modify (f : World -> World) : M unit := fun w => (f w, inr tt).

Declare Scope handler_scope.
Delimit Scope handler_scope with handler.
Notation "x <- c ;; k" := (bind c (fun x => k))
  (at level 61, c at next level, right associativity) : handler_scope.
Notation "c ;;; k" := (bind c (fun _ => k))
  (at level 61, right associativity) : handler_scope.
Open Scope handler_scope.

Definition console_log (args : list LogArg) : M unit :=
  modify (fun w => set_console (console w ++ [args]) w).

(** ** Requests and responses *)

Record FileInfo : Type := mkFile { path : string }.

Record Request : Type := mkRequest {
  params : list (string * Value);
  query : list (string * Value);
  body : list (string * Value);
  cookies : list (string * Value);
  user : option UserDoc;
  files : option (list (string * list FileInfo))
}.

(** [req.user?._id] *)
Definition user__id (req : Request) : Value :=
  match user req with Some u => VId (user_id u) | None => VUndefined end.

Record CookieOptions : Type := mkOptions { httpOnly : bool; secure : bool }.

Inductive CookieOp : Type :=
| SetCookie (name : string) (value : Value) (options : CookieOptions)
| ClearCookie (name : string) (options : CookieOptions).

(** The response envelope of [utils/ApiResponse.js], as it is built. *)
Module ApiResponse.
Record t : Type := new { statusCode : nat; data : Value; message : string }.
End ApiResponse.

Record Response : Type := mkResponse {
  status_code : nat;
  cookie_ops : list CookieOp;
  sent : option ApiResponse.t
}.

Definition res : Response := mkResponse 200 [] None.

Definition status (n : nat) (r : Response) : Response :=
  mkResponse n (cookie_ops r) (sent r).
Definition cookie (name : string) (v : Value) (o : CookieOptions) (r : Response) : Response :=
  mkResponse (status_code r) (cookie_ops r ++ [SetCookie name v o]) (sent r).
Definition clearCookie (name : string) (o : CookieOptions) (r : Response) : Response :=
  mkResponse (status_code r) (cookie_ops r ++ [ClearCookie name o]) (sent r).
Definition json (b : ApiResponse.t) (r : Response) : Response :=
  mkResponse (status_code r) (cookie_ops r) (Some b).

Notation "r '.>' f" := (f r) (at level 45, left associativity, only parsing).

(** ** What the controllers import *)

(** The behaviour of what lies outside the two files.
    - [uploadOnCloudinary] ([utils/cloudinary.js]): the upload result for
      a local path, [null] when the upload fails.
    - [jwt_verify]: the outcome of evaluating [jwt.verify(token, secret)].
      The user controller never imports [jwt], so unless the host defines
      it globally the evaluation throws a [ReferenceError].
    - [generateAccessToken], [generateRefreshToken], [isPasswordCorrect]:
      the methods of the user model.
    - [Like_deleteMany_throws]: whether evaluating [Like.deleteMany(...)]
      throws.  The comment controller never imports [Like].
    - [match_operand]: what the database does with a [$match] stage whose
      operand is not a document: [None] when it rejects the pipeline,
      otherwise the filter it applies.
    - [paginate_other]: the page number and page size the paginate
      plugin settles on when [page] and [limit] are not both positive
      integers (or its failure).
    - [now]: the clock that stamps [createdAt].

    The methods of the user model are read here as functions of their
    arguments: what a handler does when one of them throws, or when the
    store cannot be reached, is outside the model, and the statements
    about a handler's outcomes are about the outcomes that its own code
    decides. *)
Record Env : Type := mkEnv {
  uploadOnCloudinary : Value -> Value;
  jwt_verify : Value -> Exn + Value;
  generateAccessToken : UserDoc -> string;
  generateRefreshToken : UserDoc -> string;
  isPasswordCorrect : UserDoc -> Value -> bool;
  Like_deleteMany_throws : option Exn;
  match_operand : Value -> option (Value -> bool);
  paginate_other : option Z -> option Z -> Exn + (nat * nat);
  now : Z
}.

(** ** The ORM models *)

Definition hex_digit (c : ascii) : option nat :=
  let n := nat_of_ascii c in
  if ((48 <=? n) && (n <=? 57))%nat then Some (n - 48)
  else if ((97 <=? n) && (n <=? 102))%nat then Some (n - 87)
  else if ((65 <=? n) && (n <=? 70))%nat then Some (n - 55)
  else None.

Fixpoint hex_value (s : string) (acc : nat) : option nat :=
  match s with
  | EmptyString => Some acc
  | String c r =>
      match hex_digit c with
      | Some d => hex_value r (16 * acc + d)
      | None => None
      end
  end.

(** An identifier as a route parameter or a token payload carries it:
    twenty-four hexadecimal digits. *)
Definition ObjectId_of_string (s : string) : option ObjectId :=
  if (String.length s =? 24)%nat then hex_value s 0 else None.

(** The cast the ORM applies where a schema or [findById] expects an
    identifier: an identifier is itself, a string is read as one.  An
    aggregation pipeline is not cast. *)
Definition as_id (v : Value) : option ObjectId :=
  match v with
  | VId i => Some i
  | VStr s => ObjectId_of_string s
  | _ => None
  end.

Definition fresh_id (used : list ObjectId) : ObjectId := S (fold_right Nat.max 0 used).

Fixpoint update_first {A} (p : A -> bool) (f : A -> A) (l : list A) : list A :=
  match l with
  | [] => []
  | x :: r => if p x then f x :: r else x :: update_first p f r
  end.

Fixpoint remove_first {A} (p : A -> bool) (l : list A) : list A :=
  match l with
  | [] => []
  | x :: r => if p x then r else x :: remove_first p r
  end.

(** A query value against a stored one: a missing field and [null] are
    the same to the database. *)
Definition nullish (v : Value) : Value :=
  match v with VUndefined => VNull | _ => v end.

Definition query_eq (stored q : Value) : bool := Js.eqb (nullish stored) (nullish q).

Definition has_id {A} (key : A -> ObjectId) (v : Value) (x : A) : bool :=
  match as_id v with Some i => (key x =? i)%nat | None => false end.

Module Video.
Definition findById (id : Value) : M (option VideoDoc) :=
  gets (fun w => find (has_id video_id id) (videos w)).
End Video.

(** ** Aggregation pipelines *)

(** A pipeline is data that the controller builds and the database runs.
    [Stage] and [Expr] are the stages and operators the two controllers
    write; [run] is the database's reading of them. *)
Module Aggregate.

Inductive Expr : Type :=
| Lit (v : Value)
| Path (p : string)                (* "$a.b", without the dollar *)
| Size (e : Expr)
| First (e : Expr)
| In_ (x arr : Expr)
| Cond (if_ then_ else_ : Expr).

#[local] Unset Elimination Schemes.
Inductive Proj : Type :=
| Include                          (* k: 1 *)
| Fields (fs : list (string * Proj)).
#[local] Set Elimination Schemes.

Inductive Stage : Type :=
| Match (operand : Value)
| Lookup (from localField foreignField as_ : string)
| AddFields (fs : list (string * Expr))
| Sort (field : string) (direction : Z)
| Project (spec : list (string * Proj)).

Definition Pipeline := list Stage.

Fixpoint split_dots_from (s cur : string) : list string :=
  match s with
  | EmptyString => [cur]
  | String c r =>
      if Ascii.eqb c "." then cur :: split_dots_from r ""
      else split_dots_from r (cur ++ String c "")
  end.

Definition split_dots (s : string) : list string := split_dots_from s "".

Definition get (k : string) (d : Value) : option Value :=
  match d with VDoc fs => Js.get_field k fs | _ => None end.

Fixpoint omap {A B} (f : A -> option B) (l : list A) : list B :=
  match l with
  | [] => []
  | x :: r => match f x with Some y => y :: omap f r | None => omap f r end
  end.

(** A field path read on a document; [None] is the missing value.  On
    an array of documents the path is read on each element and the
    values found are collected. *)
Fixpoint get_path (p : list string) (v : Value) : option Value :=
  match p with
  | [] => Some v
  | k :: rest =>
      match v with
      | VDoc fs =>
          match Js.get_field k fs with
          | Some x => get_path rest x
          | None => None
          end
      | VArr l =>
          Some (VArr (omap (fun e => match get k e with
                                     | Some x => get_path rest x
                                     | None => None
                                     end) l))
      | _ => None
      end
  end.

(** Replace the field where it stands, append it when it is new, drop
    it when the new value is the missing value. *)
Fixpoint set_field (k : string) (v : option Value) (fs : list (string * Value))
  : list (string * Value) :=
  match fs with
  | [] => match v with Some x => [(k, x)] | None => [] end
  | (k', y) :: r =>
      if k' =? k then match v with Some x => (k, x) :: r | None => r end
      else (k', y) :: set_field k v r
  end.

Definition set (k : string) (v : option Value) (d : Value) : Value :=
  match d with VDoc fs => VDoc (set_field k v fs) | _ => d end.

Definition or_null (v : option Value) : Value :=
  match v with Some x => nullish x | None => VNull end.

(** Truth of an aggregation expression: [false], [null], [0] and the
    missing value are false. *)
Definition cond_true (v : option Value) : bool :=
  match v with
  | None | Some VUndefined | Some VNull | Some (VBool false) => false
  | Some (VNum z) => negb (z =? 0)%Z
  | Some _ => true
  end.

Fixpoint eval (d : Value) (e : Expr) : Exn + option Value :=
  match e with
  | Lit v => inr (Some v)
  | Path p => inr (get_path (split_dots p) d)
  | Size a =>
      match eval d a with
      | inl x => inl x
      | inr (Some (VArr l)) => inr (Some (VNum (Z.of_nat (List.length l))))
      | inr _ => inl (MongoError "The argument to $size must be an array")
      end
  | First a =>
      match eval d a with
      | inl x => inl x
      | inr (Some (VArr l)) => inr (hd_error l)
      | inr (None | Some VNull | Some VUndefined) => inr (Some VNull)
      | inr _ => inl (MongoError "$first's argument must be an array")
      end
  | In_ x arr =>
      match eval d x, eval d arr with
      | inl e, _ => inl e
      | _, inl e => inl e
      | inr vx, inr (Some (VArr l)) => inr (Some (VBool (existsb (Js.eqb (or_null vx)) l)))
      | _, _ => inl (MongoError "$in requires an array as a second argument")
      end
  | Cond c t f =>
      match eval d c with
      | inl x => inl x
      | inr vc => if cond_true vc then eval d t else eval d f
      end
  end.

(** Every expression of an [$addFields] stage reads the incoming
    document. *)
Fixpoint eval_fields (d : Value) (fs : list (string * Expr))
  : Exn + list (string * option Value) :=
  match fs with
  | [] => inr []
  | (k, e) :: r =>
      match eval d e, eval_fields d r with
      | inl x, _ => inl x
      | _, inl x => inl x
      | inr v, inr vs => inr ((k, v) :: vs)
      end
  end.

Definition add_fields (fs : list (string * Expr)) (d : Value) : Exn + Value :=
  match eval_fields d fs with
  | inl x => inl x
  | inr vs => inr (fold_left (fun acc kv => set (fst kv) (snd kv) acc) vs d)
  end.

Fixpoint map_err {A B} (f : A -> Exn + B) (l : list A) : Exn + list B :=
  match l with
  | [] => inr []
  | x :: r =>
      match f x, map_err f r with
      | inl e, _ => inl e
      | _, inl e => inl e
      | inr y, inr ys => inr (y :: ys)
      end
  end.

(** A [$match] on a document of field equalities. *)
Definition matches (fs : list (string * Value)) (d : Value) : bool :=
  forallb (fun kv => query_eq (or_null (get (fst kv) d)) (snd kv)) fs.

Definition lookup (foreign : list Value) (localField foreignField as_ : string)
  (d : Value) : Value :=
  let local := or_null (get_path (split_dots localField) d) in
  set as_ (Some (VArr (filter (fun f =>
      Js.eqb (or_null (get_path (split_dots foreignField) f)) local) foreign))) d.

(** Sorting compares numbers (dates are their timestamps); missing and
    [null] come before every number, values of other types after. *)
Definition sort_key (field : string) (d : Value) : Z * Z :=
  match get_path (split_dots field) d with
  | None | Some VUndefined | Some VNull => (0, 0)%Z
  | Some (VNum z) => (1, z)%Z
  | Some _ => (2, 0)%Z
  end.

Definition key_leb (a b : Z * Z) : bool :=
  ((fst a <? fst b) || ((fst a =? fst b) && (snd a <=? snd b)))%Z.

Fixpoint insert {A} (le : A -> A -> bool) (x : A) (l : list A) : list A :=
  match l with
  | [] => [x]
  | y :: r => if le x y then x :: y :: r else y :: insert le x r
  end.

(** A stable sort: equal keys keep the order of the input. *)
Fixpoint sort_by {A} (le : A -> A -> bool) (l : list A) : list A :=
  match l with
  | [] => []
  | x :: r => insert le x (sort_by le r)
  end.

Definition doc_le (field : string) (direction : Z) (a b : Value) : bool :=
  if (direction <? 0)%Z then key_leb (sort_key field b) (sort_key field a)
  else key_leb (sort_key field a) (sort_key field b).

(** The paths an inclusion projection keeps; a key may itself be a
    dotted path. *)
Fixpoint proj_paths (p : Proj) : list (list string) :=
  match p with
  | Include => [[]]
  | Fields fs =>
      (fix go (fs : list (string * Proj)) : list (list string) :=
         match fs with
         | [] => []
         | (k, q) :: r =>
             (map (fun t => split_dots k ++ t) (proj_paths q) ++ go r)%list
         end) fs
  end.

Definition paths_of (spec : list (string * Proj)) : list (list string) :=
  proj_paths (Fields spec).

Definition tails (k : string) (paths : list (list string)) : list (list string) :=
  flat_map (fun p => match p with
                     | k' :: t => if k' =? k then [t] else []
                     | [] => []
                     end) paths.

Definition is_nil {A} (l : list A) : bool :=
  match l with [] => true | _ => false end.

(** Keep of [v] what the paths name; a scalar on the way of a longer
    path is dropped. *)
Fixpoint keep (paths : list (list string)) (v : Value) {struct v} : option Value :=
  match v with
  | VDoc fs =>
      Some (VDoc ((fix go (fs : list (string * Value)) : list (string * Value) :=
                     match fs with
                     | [] => []
                     | (k, x) :: r =>
                         let sub := tails k paths in
                         if is_nil sub then go r
                         else if existsb is_nil sub then (k, x) :: go r
                         else match keep sub x with
                              | Some y => (k, y) :: go r
                              | None => go r
                              end
                     end) fs))
  | VArr l =>
      Some (VArr ((fix go (l : list Value) : list Value :=
                     match l with
                     | [] => []
                     | x :: r => match keep paths x with
                                 | Some y => y :: go r
                                 | None => go r
                                 end
                     end) l))
  | _ => None
  end.

(** An inclusion [$project]: the listed paths, and [_id]. *)
Definition project (spec : list (string * Proj)) (d : Value) : Value :=
  match keep (["_id"] :: paths_of spec) d with Some y => y | None => d end.

Definition collection (w : World) (name : string) : list Value :=
  if name =? "users" then map user_value (users w)
  else if name =? "videos" then map video_value (videos w)
  else if name =? "comments" then map comment_value (comments w)
  else if name =? "likes" then map like_value (likes w)
  else if name =? "subscriptions" then subscriptions w
  else [].

Section Run.
Variable env : Env.
Variable w : World.

Definition run_stage (s : Stage) (docs : list Value) : Exn + list Value :=
  match s with
  | Match (VDoc fs) => inr (filter (matches fs) docs)
  | Match operand =>
      match match_operand env operand with
      | Some keep_doc => inr (filter keep_doc docs)
      | None => inl (MongoError "the match filter must be an expression in an object")
      end
  | Lookup from localField foreignField as_ =>
      inr (map (lookup (collection w from) localField foreignField as_) docs)
  | AddFields fs => map_err (add_fields fs) docs
  | Sort field direction => inr (sort_by (doc_le field direction) docs)
  | Project spec => inr (map (project spec) docs)
  end.

Fixpoint run (p : Pipeline) (docs : list Value) : Exn + list Value :=
  match p with
  | [] => inr docs
  | s :: r =>
      match run_stage s docs with
      | inl e => inl e
      | inr docs' => run r docs'
      end
  end.
End Run.

End Aggregate.

Module Comment.

Definition findById (id : Value) : M (option CommentDoc) :=
  gets (fun w => find (has_id comment_id id) (comments w)).

(** [Comment.create({content, video, owner})].  It returns the stored
    document, so the handler's test of a falsy result never fires. *)
Definition create (env : Env) (content_ video_ owner_ : Value) : M CommentDoc :=
  fun w =>
    match as_id video_ with
    | None => (w, inl (MongoError "Comment validation failed"))
    | Some v =>
        let c := mkComment (fresh_id (map comment_id (comments w)))
                           content_ v (as_id owner_) (now env) in
        (set_comments (comments w ++ [c]) w, inr c)
    end.

Definition set_content (v : Value) (c : CommentDoc) : CommentDoc :=
  mkComment (comment_id c) v (video c) (owner c) (createdAt c).

(** [Comment.findByIdAndUpdate(id, {$set: {content}}, {new: true})] *)
Definition findByIdAndUpdate (id : Value) (content_ : Value) : M (option CommentDoc) :=
  fun w =>
    match find (has_id comment_id id) (comments w) with
    | None => (w, inr None)
    | Some c =>
        (set_comments (update_first (has_id comment_id id) (set_content content_) (comments w)) w,
         inr (Some (set_content content_ c)))
    end.

Definition findByIdAndDelete (id : Value) : M (option CommentDoc) :=
  fun w =>
    (set_comments (remove_first (has_id comment_id id) (comments w)) w,
     inr (find (has_id comment_id id) (comments w))).

(** [Comment.aggregate(pipeline)] only builds the query. *)
Definition aggregate (p : Aggregate.Pipeline) : Aggregate.Pipeline := p.

Definition page_and_limit (env : Env) (page limit : option Z) : Exn + (nat * nat) :=
  match page, limit with
  | Some p, Some l =>
      if ((0 <? p) && (0 <? l))%Z then inr (Z.to_nat p, Z.to_nat l)
      else paginate_other env page limit
  | _, _ => paginate_other env page limit
  end.

Definition page_of (page limit : nat) (docs : list Value) : list Value :=
  firstn limit (skipn ((page - 1) * limit) docs).

(** [Comment.aggregatePaginate(aggregate, {page, limit})]: the pipeline
    is run and one page of its result is returned, with the counts.  The
    plugin's further bookkeeping fields are left out. *)
Definition aggregatePaginate (env : Env) (p : Aggregate.Pipeline) (page limit : option Z)
  : M Value :=
  fun w =>
    match Aggregate.run env w p (Aggregate.collection w "comments") with
    | inl e => (w, inl e)
    | inr docs =>
        match page_and_limit env page limit with
        | inl e => (w, inl e)
        | inr (pg, lim) =>
            (w, inr (VDoc [("docs", VArr (page_of pg lim docs));
                           ("totalDocs", VNum (Z.of_nat (List.length docs)));
                           ("limit", VNum (Z.of_nat lim));
                           ("page", VNum (Z.of_nat pg))]))
        end
    end.

End Comment.

Module Like.

(** [Like.deleteMany({comment, likedBy})] *)
Definition deleteMany (env : Env) (comment_ : Value) (likedBy_ : option UserDoc) : M unit :=
  match Like_deleteMany_throws env with
  | Some e => throw e
  | None =>
      modify (fun w =>
        set_likes (filter (fun l =>
            negb (match as_id comment_, like_comment l, likedBy_ with
                  | Some c, Some c', Some u =>
                      ((c' =? c) && (likedBy l =? user_id u))%nat
                  | _, _, _ => false
                  end)) (likes w)) w)
  end.

End Like.

(** ** The comment controller *)

Module CommentController.

Import Aggregate.

Section Handlers.
Variable env : Env.

Definition commentsPipeline (videoId req_user__id : Value) : Pipeline :=
  [ Match (VDoc [("video", videoId)]);
    Lookup "users" "owner" "_id" "owner";
    Lookup "likes" "_id" "comment" "likes";
    AddFields
      [ ("likesCount", Size (Path "likes"));
        ("owner", First (Path "owner"));
        ("isLiked", Cond (In_ (Lit req_user__id) (Path "likes.likedBy"))
                         (Lit (VBool true))
                         (Lit (VBool false))) ];
    Sort "createdAt" (-1);
    Project
      [ ("content", Include);
        ("createdAt", Include);
        ("likesCount", Include);
        ("owner", Fields [ ("username", Include);
                           ("fullName", Include);
                           ("avatar.url", Include) ]);
        ("isLiked", Include) ] ].

Definition getVideoComments (req : Request) : M Response :=
  let videoId := Js.prop (params req) "videoId" in
  let page := Js.prop_default (query req) "page" (VNum 1) in
  let limit := Js.prop_default (query req) "limit" (VNum 10) in
  video_ <- Video.findById videoId ;;
  match video_ with
  | None => throw (ApiError 404 "Video not found")
  | Some _ =>
      let comments_ := Comment.aggregate (commentsPipeline videoId (user__id req)) in
      VideoComments <- Comment.aggregatePaginate env comments_
                         (Js.parseInt page) (Js.parseInt limit) ;;
      ret (res .> status 200
               .> json (ApiResponse.new 200 VideoComments "Comments fetched successfully"))
  end.

Definition addComment (req : Request) : M Response :=
  let videoId := Js.prop (params req) "videoId" in
  let content_ := Js.prop (body req) "content" in
  if negb (Js.truthy content_) then throw (ApiError 400 "Content is required")
  else
    video_ <- Video.findById videoId ;;
    match video_ with
    | None => throw (ApiError 404 "Video not found")
    | Some _ =>
        comment <- Comment.create env content_ videoId (user__id req) ;;
        ret (res .> status 201
                 .> json (ApiResponse.new 201 (comment_value comment)
                                          "Comment added successfully"))
    end.

(** [comment?.owner.toString() !== req.user?._id.toString()]: reading
    [toString] off an absent owner is a [TypeError]; an absent user makes
    the right-hand side [undefined], which no string equals. *)
Definition not_owner (comment : CommentDoc) (req : Request) : Exn + bool :=
  match owner comment with
  | None => inl (TypeError "Cannot read properties of undefined (reading 'toString')")
  | Some o =>
      match user req with
      | None => inr true
      | Some u => inr (negb (o =? user_id u)%nat)
      end
  end.

Definition lift {A} (r : Exn + A) : M A :=
  match r with inl e => throw e | inr a => ret a end.

Definition updateComment (req : Request) : M Response :=
  let commentId := Js.prop (params req) "commentId" in
  let content_ := Js.prop (body req) "content" in
  if negb (Js.truthy content_) then throw (ApiError 400 "content is required")
  else
    comment <- Comment.findById commentId ;;
    match comment with
    | None => throw (ApiError 404 "Comment not found")
    | Some comment =>
        differs <- lift (not_owner comment req) ;;
        if (differs : bool)
        then throw (ApiError 400 "only comment owner can edit their comment")
        else
          updatedComment <- Comment.findByIdAndUpdate (VId (comment_id comment)) content_ ;;
          match updatedComment with
          | None => throw (ApiError 500 "Failed to edit comment please try again")
          | Some updatedComment =>
              ret (res .> status 200
                       .> json (ApiResponse.new 200 (comment_value updatedComment)
                                                "Comment edited successfully"))
          end
    end.

Definition deleteComment (req : Request) : M Response :=
  let commentId := Js.prop (params req) "commentId" in
  comment <- Comment.findById commentId ;;
  console_log [LogValue (match comment with
                         | Some c => comment_value c
                         | None => VNull
                         end); LogValue commentId] ;;;
  match comment with
  | None => throw (ApiError 404 "Comment not found")
  | Some comment =>
      differs <- lift (not_owner comment req) ;;
      if (differs : bool)
      then throw (ApiError 400 "only comment owner can delete their comment")
      else
        Comment.findByIdAndDelete commentId ;;;
        try_catch (Like.deleteMany env commentId (user req))
                  (fun error => console_log [LogValue (VStr "Error: "); LogError error]) ;;;
        ret (res .> status 200
                 .> json (ApiResponse.new 200 (VDoc [("commentId", commentId)])
                                          "Comment deleted successfully"))
  end.

End Handlers.
End CommentController.

Module User.

(** [User.findOne({ $or: [{ username }, { email }] })] *)
Definition findOne_or (username_ email_ : Value) : M (option UserDoc) :=
  gets (fun w => find (fun u => query_eq (VStr (username u)) username_
                                || query_eq (email u) email_) (users w)).

Definition findById (id : Value) : M (option UserDoc) :=
  gets (fun w => find (has_id user_id id) (users w)).

(** [User.create({fullName, avatar, coverImage, email, username, password})] *)
Definition create (fullName_ avatar_ coverImage_ email_ : Value) (username_ : string)
  (password_ : Value) : M UserDoc :=
  fun w =>
    let u := mkUser (fresh_id (map user_id (users w))) username_ email_ fullName_
                    password_ avatar_ coverImage_ VUndefined in
    (set_users (users w ++ [u]) w, inr u).

Definition set_refreshToken (v : Value) (u : UserDoc) : UserDoc :=
  mkUser (user_id u) (username u) (email u) (fullName u) (password u)
         (avatar u) (coverImage u) v.

(** [User.findByIdAndUpdate(id, {$set: {refreshToken: v}}, {new: true})].
    The ORM (Mongoose 6 and later) drops a key whose value is
    [undefined] from an update before it is sent, so that
    [{$set: {refreshToken: undefined}}] is an empty update: the document
    is found and returned, and nothing is written. *)
Definition findByIdAndUpdate_refreshToken (id : Value) (v : Value) : M (option UserDoc) :=
  fun w =>
    match v with
    | VUndefined => (w, inr (find (has_id user_id id) (users w)))
    | _ =>
        (set_users (update_first (has_id user_id id) (set_refreshToken v) (users w)) w,
         inr (option_map (set_refreshToken v) (find (has_id user_id id) (users w))))
    end.

(** [user.save({ validateBeforeSave: false })]: the document in memory
    replaces the stored one. *)
Definition save (u : UserDoc) : M unit :=
  modify (fun w => set_users (update_first (has_id user_id (VId (user_id u)))
                                           (fun _ => u) (users w)) w).

Definition aggregate (env : Env) (p : Aggregate.Pipeline) : M (list Value) :=
  fun w => (w, Aggregate.run env w p (Aggregate.collection w "users")).

(** The other [$set] updates of the user controller. *)
Definition set_password (v : Value) (u : UserDoc) : UserDoc :=
  mkUser (user_id u) (username u) (email u) (fullName u) v
         (avatar u) (coverImage u) (refreshToken u).

Definition set_account (fullName_ email_ : Value) (u : UserDoc) : UserDoc :=
  mkUser (user_id u) (username u) email_ fullName_ (password u)
         (avatar u) (coverImage u) (refreshToken u).

Definition set_avatar (v : Value) (u : UserDoc) : UserDoc :=
  mkUser (user_id u) (username u) (email u) (fullName u) (password u)
         v (coverImage u) (refreshToken u).

Definition set_coverImage (v : Value) (u : UserDoc) : UserDoc :=
  mkUser (user_id u) (username u) (email u) (fullName u) (password u)
         (avatar u) v (refreshToken u).

(** [User.findByIdAndUpdate(id, {$set: ...}, {new: true})], with the
    [$set] as the function [f] on the document; the result is the
    updated document, [null] when no document has the identifier. *)
Definition findByIdAndUpdate (id : Value) (f : UserDoc -> UserDoc) : M (option UserDoc) :=
  fun w =>
    (set_users (update_first (has_id user_id id) f (users w)) w,
     inr (option_map f (find (has_id user_id id) (users w)))).

(** [.select("-password")] *)
Definition without_password (u : UserDoc) : Value :=
  VDoc [("_id", VId (user_id u)); ("username", VStr (username u));
        ("email", email u); ("fullName", fullName u);
        ("avatar", avatar u); ("coverImage", coverImage u);
        ("refreshToken", refreshToken u)].

End User.

(** ** The user controller *)

Module UserController.

Import Aggregate.

Section Handlers.
Variable env : Env.

Definition lift {A} (r : Exn + A) : M A :=
  match r with inl e => throw e | inr a => ret a end.

(** [fields.some((field) => field?.trim() === "")] *)
Fixpoint some_blank (fields : list Value) : Exn + bool :=
  match fields with
  | [] => inr false
  | (VUndefined | VNull) :: r => some_blank r
  | VStr s :: r => if Js.trim s =? "" then inr true else some_blank r
  | _ :: _ => inl (TypeError "field?.trim is not a function")
  end.

Fixpoint assoc {A} (k : string) (l : list (string * A)) : option A :=
  match l with
  | [] => None
  | (k', v) :: r => if k' =? k then Some v else assoc k r
  end.

(** [req.files?.k[0]?.path] *)
Definition first_file_path (req : Request) (k : string) : Exn + Value :=
  match files req with
  | None => inr VUndefined
  | Some fs =>
      match assoc k fs with
      | None => inl (TypeError "Cannot read properties of undefined (reading '0')")
      | Some [] => inr VUndefined
      | Some (f :: _) => inr (VStr (path f))
      end
  end.

(** [await uploadOnCloudinary(localPath)] *)
Definition upload (localPath : Value) : M Value :=
  fun w => (set_uploaded (uploaded w ++ [localPath]) w, inr (uploadOnCloudinary env localPath)).

(** [v.k] *)
Definition member (v : Value) (k : string) : Exn + Value :=
  match v with
  | VUndefined | VNull => inl (TypeError "Cannot read properties of undefined")
  | _ => inr (Js.destructure v k)
  end.

(** [v?.k] *)
Definition opt_member (v : Value) (k : string) : Value :=
  match v with
  | VUndefined | VNull => VUndefined
  | _ => Js.destructure v k
  end.

(** [v.toLowerCase()] *)
Definition toLowerCase (v : Value) : Exn + string :=
  match v with
  | VStr s => inr (Js.toLowerCase s)
  | VUndefined | VNull => inl (TypeError "Cannot read properties of undefined (reading 'toLowerCase')")
  | _ => inl (TypeError "toLowerCase is not a function")
  end.

Definition registerUser (req : Request) : M Response :=
  let fullName_ := Js.prop (body req) "fullName" in
  let email_ := Js.prop (body req) "email" in
  let username_ := Js.prop (body req) "username" in
  let password_ := Js.prop (body req) "password" in
  blank <- lift (some_blank [fullName_; email_; username_; password_]) ;;
  if (blank : bool) then throw (ApiError 400 "All fields are required")
  else
    existingUser <- User.findOne_or username_ email_ ;;
    match existingUser with
    | Some _ => throw (ApiError 409 "User already exists")
    | None =>
        avatarLocalPath <- lift (first_file_path req "avatar") ;;
        coverImageLocalPath <- lift (first_file_path req "coverImage") ;;
        if negb (Js.truthy avatarLocalPath) then throw (ApiError 400 "Avatar file is required")
        else
          avatar_ <- upload avatarLocalPath ;;
          coverImage_ <- upload coverImageLocalPath ;;
          if negb (Js.truthy avatar_) then throw (ApiError 400 "Avatar file is required")
          else
            avatar_url <- lift (member avatar_ "url") ;;
            lowered <- lift (toLowerCase username_) ;;
            user_ <- User.create fullName_ avatar_url
                       (Js.or (opt_member coverImage_ "url") (VStr ""))
                       email_ lowered password_ ;;
            createdUser <- User.findById (VId (user_id user_)) ;;
            match createdUser with
            | None => throw (ApiError 500 "User not created")
            | Some createdUser =>
                ret (res .> status 201
                         .> json (ApiResponse.new 200 (user_public_value createdUser)
                                                  "User Registered Successfully"))
            end
    end.

Definition generateAccessAndRefreshTokens (userId : Value) : M Value :=
  try_catch
    (user_ <- User.findById userId ;;
     match user_ with
     | None => throw (TypeError "Cannot read properties of null (reading 'generateAccessToken')")
     | Some user_ =>
         let accessToken := generateAccessToken env user_ in
         let refreshToken_ := generateRefreshToken env user_ in
         User.save (User.set_refreshToken (VStr refreshToken_) user_) ;;;
         ret (VDoc [("accessToken", VStr accessToken); ("refreshToken", VStr refreshToken_)])
     end)
    (fun _ => throw (ApiError 500 "Something went wrong while generating refresh access token")).

Definition options : CookieOptions := mkOptions true true.

Definition loginUser (req : Request) : M Response :=
  let email_ := Js.prop (body req) "email" in
  let username_ := Js.prop (body req) "username" in
  let password_ := Js.prop (body req) "password" in
  if negb (Js.truthy (Js.or username_ email_))
  then throw (ApiError 400 "Username or email is required")
  else
    user_ <- User.findOne_or username_ email_ ;;
    match user_ with
    | None => throw (ApiError 404 "User not found")
    | Some user_ =>
        if negb (isPasswordCorrect env user_ password_)
        then throw (ApiError 401 "Invalid password")
        else
          tokens <- generateAccessAndRefreshTokens (VId (user_id user_)) ;;
          let accessToken := Js.destructure tokens "accessToken" in
          let refreshToken_ := Js.destructure tokens "refreshToken" in
          loggedInUser <- User.findById (VId (user_id user_)) ;;
          ret (res .> status 200
                   .> cookie "accessToken" accessToken options
                   .> cookie "refreshToken" refreshToken_ options
                   .> json (ApiResponse.new 200
                              (VDoc [("user", match loggedInUser with
                                              | Some u => user_public_value u
                                              | None => VNull
                                              end);
                                     ("accessToken", accessToken);
                                     ("refreshToken", refreshToken_)])
                              "User Logged In Successfully"))
    end.

Definition logoutUser (req : Request) : M Response :=
  match user req with
  | None => throw (TypeError "Cannot read properties of undefined (reading '_id')")
  | Some u =>
      User.findByIdAndUpdate_refreshToken (VId (user_id u)) VUndefined ;;;
      ret (res .> status 200
               .> clearCookie "accessToken" options
               .> clearCookie "refreshToken" options
               .> json (ApiResponse.new 200 (VDoc []) "User Logged Out Successfully"))
  end.

Definition refreshAccessToken (req : Request) : M Response :=
  let incomingRefreshToken :=
    Js.or (Js.prop (cookies req) "refreshToken") (Js.prop (body req) "refreshToken") in
  if negb (Js.truthy incomingRefreshToken) then throw (ApiError 401 "Unauthorized request")
  else
    try_catch
      (decodedToken <- lift (jwt_verify env incomingRefreshToken) ;;
       user_ <- User.findById (opt_member decodedToken "_id") ;;
       match user_ with
       | None => throw (ApiError 401 "Invalid refresh token")
       | Some user_ =>
           if Js.loose_neq incomingRefreshToken (refreshToken user_)
           then throw (ApiError 401 "Refresh token is expired or used")
           else
             tokens <- generateAccessAndRefreshTokens (VId (user_id user_)) ;;
             let accessToken := Js.destructure tokens "accessToken" in
             let newRefreshToken := Js.destructure tokens "newRefreshToken" in
             ret (res .> status 200
                      .> cookie "accessToken" accessToken options
                      .> cookie "refreshToken" newRefreshToken options
                      .> json (ApiResponse.new 200
                                 (VDoc [("accessToken", accessToken);
                                        ("refreshToken", newRefreshToken)])
                                 "Access token refreshed successfully"))
       end)
      (fun error =>
         throw (ApiError 401 (if exn_message error =? "" then "Invalid refresh token"
                              else exn_message error))).

Definition channelPipeline (username_lower req_user__id : Value) : Pipeline :=
  [ Match username_lower;
    Lookup "subscriptions" "_id" "channel" "subscribers";
    Lookup "subscriptions" "_id" "channel" "subscribedTo";
    AddFields
      [ ("totalSubscribers", Size (Path "subscribers"));
        ("totalSubscribedTo", Size (Path "subscribedTo"));
        ("isSubscribed", Cond (In_ (Lit req_user__id) (Path "subscribers.subsciber"))
                              (Lit (VBool true))
                              (Lit (VBool false))) ];
    Project
      [ ("fullName", Include);
        ("username", Include);
        ("avatar", Include);
        ("coverImage", Include);
        ("totalSubscribers", Include);
        ("totalSubscribedTo", Include);
        ("isSubscribed", Include) ] ].

Definition getUserChannelProfile (req : Request) : M Response :=
  let username_ := Js.prop (params req) "username" in
  if negb (Js.truthy username_) then throw (ApiError 400 "Username is required")
  else
    lowered <- lift (toLowerCase username_) ;;
    channel <- User.aggregate env (channelPipeline (VStr lowered) (user__id req)) ;;
    if is_nil channel then throw (ApiError 404 "Channel not found")
    else
      ret (res .> status 200
               .> json (ApiResponse.new 200 (VArr channel)
                                        "Channel profile fetched successfully")).

Definition changeCurrentPassword (req : Request) : M Response :=
  let oldPassword := Js.prop (body req) "oldPassword" in
  let newPassword := Js.prop (body req) "newPassword" in
  user_ <- User.findById (user__id req) ;;
  match user_ with
  | None => throw (TypeError "Cannot read properties of null (reading 'isPasswordCorrect')")
  | Some user_ =>
      if negb (isPasswordCorrect env user_ oldPassword)
      then throw (ApiError 400 "password is incorrect")
      else
        User.save (User.set_password newPassword user_) ;;;
        ret (res .> status 200
                 .> json (ApiResponse.new 200 (VDoc []) "Password changed successfully"))
  end.

(** The answer of the three profile updates: the updated document, or
    [null]. *)
Definition updated_user (u : option UserDoc) : Value :=
  match u with Some u => User.without_password u | None => VNull end.

Definition updateAccountDetails (req : Request) : M Response :=
  let fullName_ := Js.prop (body req) "fullName" in
  let email_ := Js.prop (body req) "email" in
  if negb (Js.truthy fullName_) || negb (Js.truthy email_)
  then throw (ApiError 400 "All fields are required")
  else
    user_ <- User.findByIdAndUpdate (user__id req) (User.set_account fullName_ email_) ;;
    ret (res .> status 200
             .> json (ApiResponse.new 200 (updated_user user_) "User updated successfully")).

(** [req.file?.path], on the routes that take a single file. *)
Definition file_path (file : option FileInfo) : Value :=
  match file with Some f => VStr (path f) | None => VUndefined end.

Definition updateUserAvatar (req : Request) (file : option FileInfo) : M Response :=
  let avatarLocalPath := file_path file in
  if negb (Js.truthy avatarLocalPath) then throw (ApiError 400 "Avatar is required")
  else
    avatar_ <- upload avatarLocalPath ;;
    url <- lift (member avatar_ "url") ;;
    if negb (Js.truthy url) then throw (ApiError 400 "Error while uploading avatar")
    else
      user_ <- User.findByIdAndUpdate (user__id req) (User.set_avatar url) ;;
      ret (res .> status 200
               .> json (ApiResponse.new 200 (updated_user user_)
                                        "Avatar image updated successfully")).

Definition updateUserCoverImage (req : Request) (file : option FileInfo) : M Response :=
  let coverImageLocalPath := file_path file in
  if negb (Js.truthy coverImageLocalPath) then throw (ApiError 400 "Cover image is required")
  else
    coverImage_ <- upload coverImageLocalPath ;;
    url <- lift (member coverImage_ "url") ;;
    if negb (Js.truthy url) then throw (ApiError 400 "Error while uploading cover image")
    else
      user_ <- User.findByIdAndUpdate (user__id req) (User.set_coverImage url) ;;
      ret (res .> status 200
               .> json (ApiResponse.new 200 (updated_user user_)
                                        "Cover image updated successfully")).

End Handlers.
End UserController.

(** ** The comment listing, described directly *)

(** What a page of comments holds, written on the stored records rather
    than as a pipeline: the comments that the [$match] stage selects,
    newest first, each with its number of likes, the first user its
    owner field names, and whether the requester is among those who
    liked it. *)
Module Listing.

(** The comments that [{$match: {video: videoId}}] selects.  The stage
    compares the stored identifier with the value as the handler passes
    it, without a cast: an identifier selects the comments of that
    video, and a string, which is what a route parameter is, selects
    none. *)
Definition selected (videoId : Value) (c : CommentDoc) : bool :=
  query_eq (VId (video c)) videoId.

Definition owners_of (w : World) (c : CommentDoc) : list UserDoc :=
  filter (fun u => match owner c with
                   | Some o => (user_id u =? o)%nat
                   | None => false
                   end) (users w).

Definition likes_of (w : World) (c : CommentDoc) : list LikeDoc :=
  filter (fun l => match like_comment l with
                   | Some i => (i =? comment_id c)%nat
                   | None => false
                   end) (likes w).

Definition liked_by (requester : Value) (ls : list LikeDoc) : bool :=
  match requester with
  | VId r => existsb (fun l => (r =? likedBy l)%nat) ls
  | _ => false
  end.

Definition newest_first (a b : CommentDoc) : bool := (createdAt b <=? createdAt a)%Z.

(** The owner as the listing shows it: the user name, the full name and,
    when the avatar is a document, its [url]. *)
Definition owner_view (u : UserDoc) : Value :=
  VDoc ([("username", VStr (username u)); ("fullName", fullName u)]
        ++ match Aggregate.keep [["url"]] (avatar u) with
           | Some y => [("avatar", y)]
           | None => []
           end).

Definition comment_view (w : World) (requester : Value) (c : CommentDoc) : Value :=
  VDoc ([("_id", VId (comment_id c)); ("content", content c)]
        ++ match hd_error (owners_of w c) with
           | Some u => [("owner", owner_view u)]
           | None => []
           end
        ++ [("createdAt", VNum (createdAt c));
            ("likesCount", VNum (Z.of_nat (List.length (likes_of w c))));
            ("isLiked", VBool (liked_by requester (likes_of w c)))]).

Definition listing (w : World) (videoId requester : Value) : list Value :=
  map (comment_view w requester)
      (Aggregate.sort_by newest_first (filter (selected videoId) (comments w))).

Definition page (w : World) (videoId requester : Value) (pg lim : nat) : Value :=
  let all := listing w videoId requester in
  VDoc [("docs", VArr (Comment.page_of pg lim all));
        ("totalDocs", VNum (Z.of_nat (List.length all)));
        ("limit", VNum (Z.of_nat lim));
        ("page", VNum (Z.of_nat pg))].

End Listing.

(** ** The client's cookies *)

Module Browser.

Definition Jar := list (string * Value).

Definition remove (k : string) (j : Jar) : Jar :=
  filter (fun kv => negb (fst kv =? k)) j.

Definition apply_op (j : Jar) (op : CookieOp) : Jar :=
  match op with
  | SetCookie n v _ => (n, v) :: remove n j
  | ClearCookie n _ => remove n j
  end.

Definition receive (r : Exn + Response) (j : Jar) : Jar :=
  match r with
  | inr resp => fold_left apply_op (cookie_ops resp) j
  | inl _ => j
  end.

(** One exchange: the handler runs on the store, the client applies the
    cookie operations of the response. *)
Definition exchange (h : M Response) (s : World * Jar) : World * Jar * (Exn + Response) :=
  let '(w', r) := h (fst s) in (w', receive r (snd s), r).

End Browser.

Definition cookie_options (op : CookieOp) : CookieOptions :=
  match op with SetCookie _ _ o | ClearCookie _ o => o end.

Definition cookie_name (op : CookieOp) : string :=
  match op with SetCookie n _ _ | ClearCookie n _ => n end.

(** ** Sample data *)

Module Sample.

Definition env (like_throws : option Exn) (jwt : Value -> Exn + Value) : Env :=
  mkEnv (fun p => match p with
                  | VStr "broken.png" => VNull
                  | VStr s => VDoc [("url", VStr ("https://img.example/" ++ s))]
                  | _ => VNull
                  end)
        jwt
        (fun u => "access-" ++ username u)
        (fun u => "refresh-" ++ username u)
        (fun u p => Js.eqb (password u) p)
        like_throws
        (fun _ => None)
        (fun _ _ => inr (1, 10))
        1700000000000%Z.

Definition jwt_unbound (_ : Value) : Exn + Value :=
  inl (ReferenceError "jwt is not defined").

(** A token library that accepts the tokens of [env]: the payload of
    [refresh-alice] names user 1. *)
Definition jwt_bound (t : Value) : Exn + Value :=
  match t with
  | VStr "refresh-alice" => inr (VDoc [("_id", VId 1)])
  | VStr "old-alice" => inr (VDoc [("_id", VId 1)])
  | _ => inl (LibraryError "invalid signature")
  end.

Definition Like_unbound : option Exn := Some (ReferenceError "Like is not defined").

Definition alice : UserDoc :=
  mkUser 1 "alice" (VStr "alice@example.org") (VStr "Alice") (VStr "pw-a")
         (VStr "https://img.example/a.png") (VStr "") (VStr "old-alice").

Definition bob : UserDoc :=
  mkUser 2 "bob" (VStr "bob@example.org") (VStr "Bob") (VStr "pw-b")
         (VStr "https://img.example/b.png") (VStr "") VUndefined.

Definition c1 : CommentDoc := mkComment 10 (VStr "first") 100 (Some 1) 1000.
Definition c2 : CommentDoc := mkComment 11 (VStr "second") 100 (Some 2) 2000.
Definition c3 : CommentDoc := mkComment 12 (VStr "elsewhere") 101 (Some 2) 1500.

Definition world : World :=
  mkWorld [alice; bob]
          [mkVideo 100; mkVideo 101]
          [c1; c2; c3]
          [mkLike 20 (Some 10) 2; mkLike 21 (Some 10) 1; mkLike 22 (Some 11) 1]
          [VDoc [("_id", VId 30); ("subscriber", VId 2); ("channel", VId 1)]]
          []
          [].

Definition request (ps bd : list (string * Value)) (u : option UserDoc) : Request :=
  mkRequest ps [] bd [] u None.

End Sample.

(** ** Statements *)

(** The predicates, views and sample requests that the properties below
    are stated with. *)

Definition flagged (op : CookieOp) : Prop :=
  httpOnly (cookie_options op) = true /\ secure (cookie_options op) = true.





Definition token_cookies (r : Exn + Response) : Prop :=
  match r with
  | inr resp =>
      map cookie_name (cookie_ops resp) = ["accessToken"; "refreshToken"]
      /\ Forall flagged (cookie_ops resp)
  | inl _ => True
  end.

Definition logout_response : Response :=
  mkResponse 200
    [ClearCookie "accessToken" (mkOptions true true);
     ClearCookie "refreshToken" (mkOptions true true)]
    (Some (ApiResponse.new 200 (VDoc []) "User Logged Out Successfully")).

(** The request names a user that is stored: its user name or its email
    address is that of an existing user. *)
Definition conflicts (req : Request) (w : World) : Prop :=
  exists u, In u (users w)
            /\ (Js.prop (body req) "username" = VStr (username u)
                \/ exists e, Js.prop (body req) "email" = VStr e /\ email u = VStr e).

Definition register_fields (req : Request) : list Value :=
  [Js.prop (body req) "fullName"; Js.prop (body req) "email";
   Js.prop (body req) "username"; Js.prop (body req) "password"].

Definition taken_name_blank_fullName : Request :=
  Sample.request [] [("fullName", VStr "  "); ("email", VStr "new@example.org");
                     ("username", VStr "alice"); ("password", VStr "pw")] None.

Definition taken_name : Request :=
  Sample.request [] [("fullName", VStr "Alice II"); ("email", VStr "new@example.org");
                     ("username", VStr "alice"); ("password", VStr "pw")] None.

(** U+00A0, the no-break space, in UTF-8. *)
Definition nbsp : string := String (ascii_of_nat 194) (String (ascii_of_nat 160) "").

Definition taken_name_nbsp_fullName : Request :=
  Sample.request [] [("fullName", VStr nbsp); ("email", VStr "new@example.org");
                     ("username", VStr "alice"); ("password", VStr "pw")] None.

Definition taken_name_numeric_fullName : Request :=
  Sample.request [] [("fullName", VNum 5); ("email", VStr "new@example.org");
                     ("username", VStr "alice"); ("password", VStr "pw")] None.

(** What the blank-field check of [registerUser] makes of a field.  It
    passes over a field that is absent, or [null], or a string with
    something other than white space in it; it stops at a string that is
    empty or white space throughout; and it breaks on a value that is
    neither absent nor a string, which has no [trim]. *)
Definition passed_over (v : Value) : Prop :=
  v = VUndefined \/ v = VNull \/ exists s, v = VStr s /\ Js.trim s <> "".

Definition blank (v : Value) : Prop := exists s, v = VStr s /\ Js.trim s = "".

Definition no_text (v : Value) : Prop :=
  match v with
  | VUndefined | VNull | VStr _ => False
  | _ => True
  end.

Definition no_coverImage_entry (req : Request) : Prop :=
  files req = None
  \/ exists fs, files req = Some fs /\ UserController.assoc "coverImage" fs = None.

Definition find_user (req : Request) (w : World) : option UserDoc :=
  find (fun u => query_eq (VStr (username u)) (Js.prop (body req) "username")
                 || query_eq (email u) (Js.prop (body req) "email")) (users w).

Definition newcomer (fs : option (list (string * list FileInfo))) : Request :=
  mkRequest [] []
    [("fullName", VStr "Carol"); ("email", VStr "carol@example.org");
     ("username", VStr "Carol"); ("password", VStr "pw-c")]
    [] None fs.

(** The refresh token of the request: [req.cookies.refreshToken ||
    req.body.refreshToken]. *)
Definition incoming (req : Request) : Value :=
  Js.or (Js.prop (cookies req) "refreshToken") (Js.prop (body req) "refreshToken").

Definition alice_refresh : Request :=
  mkRequest [] [] [] [("refreshToken", VStr "old-alice")] None None.

(** The subscriptions whose [channel] is the user: what both lookups of
    the channel pipeline collect. *)
Definition subscriptions_to (w : World) (u : UserDoc) : list Value :=
  filter (fun f => Js.eqb (Aggregate.or_null (Aggregate.get_path ["channel"] f))
                          (VId (user_id u)))
         (subscriptions w).

Definition channel_view (w : World) (requester : Value) (u : UserDoc) : Value :=
  let subs := subscriptions_to w u in
  VDoc [("_id", VId (user_id u));
        ("username", VStr (username u));
        ("fullName", fullName u);
        ("avatar", avatar u);
        ("coverImage", coverImage u);
        ("totalSubscribers", VNum (Z.of_nat (List.length subs)));
        ("totalSubscribedTo", VNum (Z.of_nat (List.length subs)));
        ("isSubscribed",
         VBool (existsb (Js.eqb (nullish requester))
                        (Aggregate.omap (fun e => Aggregate.get "subsciber" e) subs)))].

Definition equal_totals (d : Value) : Prop :=
  exists n, Aggregate.get "totalSubscribers" d = Some (VNum n)
            /\ Aggregate.get "totalSubscribedTo" d = Some (VNum n).

Definition lenient (like_throws : option Exn) : Env :=
  mkEnv (fun _ => VNull) Sample.jwt_unbound (fun _ => "") (fun _ => "") (fun _ _ => false)
        like_throws
        (fun v => Some (fun d => Js.eqb (Aggregate.or_null (Aggregate.get "username" d)) v))
        (fun _ _ => inr (1, 10)) 0.

(** A comment after the two joins and the derivation, before the
    projection. *)
Definition derived (w : World) (requester : Value) (c : CommentDoc) : Value :=
  VDoc ([("_id", VId (comment_id c)); ("content", content c); ("video", VId (video c))]
        ++ match hd_error (Listing.owners_of w c) with
           | Some u => [("owner", user_value u)]
           | None => []
           end
        ++ [("createdAt", VNum (createdAt c));
            ("likes", VArr (map like_value (Listing.likes_of w c)));
            ("likesCount", VNum (Z.of_nat (List.length (Listing.likes_of w c))));
            ("isLiked", VBool (Listing.liked_by requester (Listing.likes_of w c)))]).

Definition listing_projection : list (string * Aggregate.Proj) :=
  [ ("content", Aggregate.Include);
    ("createdAt", Aggregate.Include);
    ("likesCount", Aggregate.Include);
    ("owner", Aggregate.Fields [ ("username", Aggregate.Include);
                                 ("fullName", Aggregate.Include);
                                 ("avatar.url", Aggregate.Include) ]);
    ("isLiked", Aggregate.Include) ].

(** A page with no document on it. *)
Definition empty_page (pg lim : nat) : Value :=
  VDoc [("docs", VArr []);
        ("totalDocs", VNum 0);
        ("limit", VNum (Z.of_nat lim));
        ("page", VNum (Z.of_nat pg))].

(** The comments stored on a video. *)
Definition comments_on (w : World) (v : VideoDoc) : list CommentDoc :=
  filter (fun c => (video c =? video_id v)%nat) (comments w).

(** Newer, or as old. *)
Definition not_older (a b : CommentDoc) : Prop := (createdAt b <= createdAt a)%Z.

(** The documents of a page. *)
Definition docs_of (r : Response) : list Value :=
  match sent r with
  | Some b => match Aggregate.get "docs" (ApiResponse.data b) with
              | Some (VArr l) => l
              | _ => []
              end
  | None => []
  end.

(** The response of an outcome, for the outcomes that have one. *)
Definition answer_of (out : World * (Exn + Response)) : Response :=
  match snd out with inr r => r | inl _ => res end.

(** The users are who they were: the same identifiers and user names,
    in the same order. *)
Definition same_identities (w w' : World) : Prop :=
  map user_id (users w') = map user_id (users w)
  /\ map username (users w') = map username (users w).

(** * Properties *)

Ltac run_handler :=
  cbv beta iota delta
    [bind ret throw gets modify try_catch console_log negb
     CommentController.lift UserController.lift
     Comment.findById Comment.findByIdAndUpdate Comment.findByIdAndDelete
     Comment.create Video.findById User.findById User.findOne_or
     User.save User.create User.findByIdAndUpdate_refreshToken
     UserController.upload Like.deleteMany].

Lemma has_id_VId {A} (key : A -> ObjectId) (i : ObjectId) (x : A) :
  has_id key (VId i) x = (key x =? i)%nat.
Proof. reflexivity. Qed.

Lemma find_as_id {A} (key : A -> ObjectId) (v : Value) (l : list A) (x : A) :
  find (has_id key v) l = Some x -> as_id v = Some (key x).
Proof.
  intros H. apply find_some in H as [_ H]. unfold has_id in H.
  destruct (as_id v) as [i|]; [|discriminate].
  apply Nat.eqb_eq in H. now subst.
Qed.

Lemma has_id_as_id {A} (key : A -> ObjectId) (v : Value) (i : ObjectId) :
  as_id v = Some i -> has_id key v = has_id key (VId i).
Proof. intros H. unfold has_id. now rewrite H. Qed.

Lemma find_has_id {A} (key : A -> ObjectId) (v : Value) (l : list A) (x : A) :
  find (has_id key v) l = Some x -> has_id key v = has_id key (VId (key x)).
Proof. intros H. exact (has_id_as_id key v _ (find_as_id _ _ _ _ H)). Qed.

Lemma length_remove_first {A} (p : A -> bool) (l : list A) (x : A) :
  find p l = Some x -> List.length l = S (List.length (remove_first p l)).
Proof.
  induction l as [|y r IH]; simpl; [discriminate|].
  destruct (p y); [reflexivity|]. intros H. simpl. now rewrite (IH H).
Qed.

Lemma find_update_first {A} (p : A -> bool) (f : A -> A) (l : list A) (x : A) :
  find p l = Some x -> p (f x) = true -> find p (update_first p f l) = Some (f x).
Proof.
  induction l as [|y r IH]; simpl; [discriminate|].
  destruct (p y) eqn:E.
  - intros [= ->] H. simpl. now rewrite H.
  - intros H1 H2. simpl. rewrite E. now apply IH.
Qed.

(** [trim] on ASCII and on other white space, and the cast of a route
    parameter. *)
Example trim_samples :
  Js.trim "  a b  " = "a b"
  /\ Js.trim (nbsp ++ " x" ++ nbsp) = "x"
  /\ Js.trim nbsp = ""
  /\ Js.trim (String (ascii_of_nat 195) (String (ascii_of_nat 169) " "))
     = String (ascii_of_nat 195) (String (ascii_of_nat 169) "").
Proof. repeat split; vm_compute; reflexivity. Qed.

Example as_id_samples :
  as_id (VStr "000000000000000000000064") = Some 100
  /\ as_id (VStr "00000000000000000000000D") = Some 13
  /\ as_id (VStr "64") = None
  /\ as_id (VId 100) = Some 100
  /\ as_id VUndefined = None.
Proof. repeat split; vm_compute; reflexivity. Qed.

(** The ownership test of the two handlers, decided. *)
Lemma not_owner_spec (c : CommentDoc) (req : Request) (o : ObjectId) :
  owner c = Some o ->
  CommentController.not_owner c req
  = inr (match user req with
         | Some u => negb (o =? user_id u)%nat
         | None => true
         end).
Proof. intros H. unfold CommentController.not_owner. rewrite H. now destruct (user req). Qed.




(** C3. A comment creation or edit whose body has no content, or [null]
    or empty content, fails with a 400 error and leaves the store as it
    was.  With a non-empty string as content neither handler raises its
    content error; creation on an existing video then stores the comment
    with that content and answers 201, and an edit by the owner of an
    existing comment stores the new content and answers 200. *)
Theorem comment_content_is_required :
  forall (env : Env) (w : World) (req : Request),
    ((Js.prop (body req) "content" = VUndefined
      \/ Js.prop (body req) "content" = VNull
      \/ Js.prop (body req) "content" = VStr "") ->
       CommentController.addComment env req w
       = (w, inl (ApiError 400 "Content is required"))
       /\ CommentController.updateComment req w
          = (w, inl (ApiError 400 "content is required")))
    /\ (forall s, Js.prop (body req) "content" = VStr s -> s <> "" ->
          snd (CommentController.addComment env req w)
          <> inl (ApiError 400 "Content is required")
          /\ snd (CommentController.updateComment req w)
             <> inl (ApiError 400 "content is required")
          /\ (forall v,
                find (has_id video_id (Js.prop (params req) "videoId")) (videos w) = Some v ->
                exists c r,
                  CommentController.addComment env req w
                  = (set_comments (comments w ++ [c]) w, inr r)
                  /\ content c = VStr s /\ video c = video_id v
                  /\ status_code r = 201)
          /\ (forall c u,
                find (has_id comment_id (Js.prop (params req) "commentId")) (comments w)
                = Some c ->
                user req = Some u -> owner c = Some (user_id u) ->
                exists w' r,
                  CommentController.updateComment req w = (w', inr r)
                  /\ find (has_id comment_id (Js.prop (params req) "commentId")) (comments w')
                     = Some (Comment.set_content (VStr s) c)
                  /\ status_code r = 200)).
Proof.
  intros env w req. split.
  - intros H.
    assert (Hf : Js.truthy (Js.prop (body req) "content") = false)
      by (destruct H as [-> | [-> | ->]]; reflexivity).
    unfold CommentController.addComment, CommentController.updateComment.
    now rewrite Hf.
  - intros s Hs Hne.
    assert (Ht : Js.truthy (Js.prop (body req) "content") = true).
    { rewrite Hs. simpl. destruct (String.eqb_spec s ""); [contradiction|reflexivity]. }
    split; [|split; [|split]].
    + unfold CommentController.addComment. rewrite Ht. run_handler.
      destruct (find (has_id video_id (Js.prop (params req) "videoId")) (videos w)) as [v|] eqn:Hv;
        [|simpl; discriminate].
      rewrite (find_as_id _ _ _ _ Hv). simpl. discriminate.
    + unfold CommentController.updateComment. rewrite Ht. run_handler.
      destruct (find (has_id comment_id (Js.prop (params req) "commentId")) (comments w))
        as [c|] eqn:Hc; [|simpl; discriminate].
      destruct (CommentController.not_owner c req) as [e|[|]] eqn:Hno.
      * unfold CommentController.not_owner in Hno.
        destruct (owner c); [destruct (user req)|]; try discriminate.
        injection Hno as <-. simpl. discriminate.
      * simpl. discriminate.
      * rewrite (find_has_id _ _ _ _ Hc) in Hc. rewrite Hc. simpl. discriminate.
    + intros v Hv. unfold CommentController.addComment. rewrite Ht. run_handler.
      rewrite Hv. rewrite (find_as_id _ _ _ _ Hv). simpl. rewrite Hs.
      eexists _, _. split; [reflexivity|]. now simpl.
    + intros c u Hc Hu Ho. unfold CommentController.updateComment. rewrite Ht. run_handler.
      rewrite Hc, (not_owner_spec c req _ Ho), Hu, Nat.eqb_refl. simpl.
      pose proof (find_has_id _ _ _ _ Hc) as Hid. rewrite Hid in Hc |- *.
      rewrite Hc. eexists _, _. split; [reflexivity|]. simpl. split; [|reflexivity].
      rewrite Hs. apply find_update_first; [exact Hc|].
      rewrite has_id_VId. simpl. apply Nat.eqb_refl.
Qed.

(** A request without content, and Alice's edit of her own comment. *)
Lemma comment_content_is_required_witness :
  (CommentController.addComment (Sample.env Sample.Like_unbound Sample.jwt_unbound)
     (Sample.request [("videoId", VId 100)] [] (Some Sample.alice)) Sample.world
   = (Sample.world, inl (ApiError 400 "Content is required"))
   /\ CommentController.updateComment
        (Sample.request [("videoId", VId 100)] [] (Some Sample.alice)) Sample.world
      = (Sample.world, inl (ApiError 400 "content is required")))
  /\ exists w' r,
      CommentController.updateComment
        (Sample.request [("commentId", VId 10)] [("content", VStr "edited")]
                        (Some Sample.alice)) Sample.world
      = (w', inr r)
      /\ find (has_id comment_id (VId 10)) (comments w')
         = Some (Comment.set_content (VStr "edited") Sample.c1)
      /\ status_code r = 200.
Proof.
  split.
  - apply (proj1 (comment_content_is_required
                    (Sample.env Sample.Like_unbound Sample.jwt_unbound) Sample.world
                    (Sample.request [("videoId", VId 100)] [] (Some Sample.alice)))).
    left. reflexivity.
  - refine (proj2 (proj2 (proj2 (proj2 (comment_content_is_required
                    (Sample.env Sample.Like_unbound Sample.jwt_unbound) Sample.world
                    (Sample.request [("commentId", VId 10)] [("content", VStr "edited")]
                                    (Some Sample.alice))) "edited" eq_refl _)))
                  Sample.c1 Sample.alice eq_refl eq_refl eq_refl).
    discriminate.
Defined.

(** C9. When the owner deletes an existing comment the handler answers
    200 with the comment id and the comment is removed from the store,
    whatever the like cleanup does; when the cleanup throws, the error is
    only written to the console and every like record stays stored. *)
Theorem delete_outlives_like_cleanup :
  forall (env : Env) (w : World) (req : Request) (c : CommentDoc) (u : UserDoc),
    find (has_id comment_id (Js.prop (params req) "commentId")) (comments w) = Some c ->
    user req = Some u ->
    owner c = Some (user_id u) ->
    exists w',
      CommentController.deleteComment env req w
      = (w', inr (mkResponse 200 []
                    (Some (ApiResponse.new 200
                             (VDoc [("commentId", Js.prop (params req) "commentId")])
                             "Comment deleted successfully"))))
      /\ comments w'
         = remove_first (has_id comment_id (Js.prop (params req) "commentId")) (comments w)
      /\ List.length (comments w) = S (List.length (comments w'))
      /\ (forall e, Like_deleteMany_throws env = Some e ->
            likes w' = likes w
            /\ console w'
               = (console w
                    ++ [[LogValue (comment_value c);
                         LogValue (Js.prop (params req) "commentId")]]
                    ++ [[LogValue (VStr "Error: "); LogError e]])%list).
Proof.
  intros env w req c u Hc Hu Ho.
  unfold CommentController.deleteComment. run_handler.
  rewrite Hc, (not_owner_spec c req _ Ho), Hu, Nat.eqb_refl. simpl.
  destruct (Like_deleteMany_throws env) as [e|]; simpl.
  - eexists. split; [reflexivity|]. simpl.
    split; [reflexivity|]. split; [now apply length_remove_first with (x := c)|].
    intros e' [= <-]. split; [reflexivity|]. now rewrite <- app_assoc.
  - eexists. split; [reflexivity|]. simpl.
    split; [reflexivity|]. split; [now apply length_remove_first with (x := c)|].
    discriminate.
Qed.

(** Alice deletes her comment while [Like] is unbound: the two likes of
    the comment are still stored. *)
Lemma delete_outlives_like_cleanup_witness :
  exists w',
    CommentController.deleteComment (Sample.env Sample.Like_unbound Sample.jwt_unbound)
      (Sample.request [("commentId", VId 10)] [] (Some Sample.alice)) Sample.world
    = (w', inr (mkResponse 200 []
                  (Some (ApiResponse.new 200 (VDoc [("commentId", VId 10)])
                                         "Comment deleted successfully"))))
    /\ comments w' = [Sample.c2; Sample.c3]
    /\ likes w' = likes Sample.world.
Proof.
  destruct (delete_outlives_like_cleanup
              (Sample.env Sample.Like_unbound Sample.jwt_unbound) Sample.world
              (Sample.request [("commentId", VId 10)] [] (Some Sample.alice))
              Sample.c1 Sample.alice eq_refl eq_refl eq_refl)
    as (w' & Hrun & Hcs & _ & Hlikes).
  exists w'. split; [exact Hrun|]. split; [exact Hcs|].
  exact (proj1 (Hlikes _ eq_refl)).
Defined.

(** ** Cookies *)

Lemma generateAccessAndRefreshTokens_cases (env : Env) (id : Value) (w : World) :
  (exists u,
      find (has_id user_id id) (users w) = Some u
      /\ UserController.generateAccessAndRefreshTokens env id w
         = (set_users (update_first (has_id user_id (VId (user_id u)))
                         (fun _ => User.set_refreshToken
                                     (VStr (generateRefreshToken env u)) u) (users w)) w,
            inr (VDoc [("accessToken", VStr (generateAccessToken env u));
                       ("refreshToken", VStr (generateRefreshToken env u))])))
  \/ (find (has_id user_id id) (users w) = None
      /\ UserController.generateAccessAndRefreshTokens env id w
         = (w, inl (ApiError 500 "Something went wrong while generating refresh access token"))).
Proof.
  unfold UserController.generateAccessAndRefreshTokens. run_handler.
  destruct (find (has_id user_id id) (users w)) as [u|] eqn:Hu.
  - left. exists u. split; reflexivity.
  - right. split; reflexivity.
Qed.

(** C7. Whenever login, token refresh or logout answers, the response
    carries exactly two cookie operations, on [accessToken] and on
    [refreshToken], and each has both the [httpOnly] and the [secure]
    flag; a handler that throws sends no cookie. *)
Theorem token_cookies_are_httpOnly_and_secure :
  forall (env : Env) (w : World) (req : Request),
    token_cookies (snd (UserController.loginUser env req w))
    /\ token_cookies (snd (UserController.refreshAccessToken env req w))
    /\ token_cookies (snd (UserController.logoutUser req w)).
Proof.
  intros env w req. split; [|split].
  - unfold UserController.loginUser.
    destruct (negb _); [exact I|]. run_handler.
    destruct (find _ (users w)) as [u|]; [|exact I].
    destruct (isPasswordCorrect env u _); [|exact I].
    destruct (generateAccessAndRefreshTokens_cases env (VId (user_id u)) w)
      as [(u' & _ & ->) | (_ & ->)]; [|exact I].
    simpl. split; [reflexivity|]. repeat constructor.
  - unfold UserController.refreshAccessToken.
    destruct (negb _); [exact I|]. run_handler.
    destruct (jwt_verify env _) as [e|d]; [exact I|].
    destruct (find _ (users w)) as [u|]; [|exact I].
    destruct (Js.loose_neq _ _); [exact I|].
    destruct (generateAccessAndRefreshTokens_cases env (VId (user_id u)) w)
      as [(u' & _ & ->) | (_ & ->)]; [|exact I].
    simpl. split; [reflexivity|]. repeat constructor.
  - unfold UserController.logoutUser.
    destruct (user req); [|exact I].
    simpl. split; [reflexivity|]. repeat constructor.
Qed.

(** Alice logs in: the two cookies are set. *)
Example login_sets_token_cookies :
  snd (UserController.loginUser (Sample.env Sample.Like_unbound Sample.jwt_unbound)
         (Sample.request [] [("username", VStr "alice"); ("password", VStr "pw-a")] None)
         Sample.world)
  = inr (mkResponse 200
           [SetCookie "accessToken" (VStr "access-alice") (mkOptions true true);
            SetCookie "refreshToken" (VStr "refresh-alice") (mkOptions true true)]
           (Some (ApiResponse.new 200
                    (VDoc [("user", user_public_value Sample.alice);
                           ("accessToken", VStr "access-alice");
                           ("refreshToken", VStr "refresh-alice")])
                    "User Logged In Successfully"))).
Proof. reflexivity. Qed.

(** ** Logout *)

Lemma remove_remove (a b : string) (j : Browser.Jar) :
  Browser.remove b (Browser.remove a (Browser.remove b (Browser.remove a j)))
  = Browser.remove b (Browser.remove a j).
Proof.
  unfold Browser.remove. induction j as [|[k v] r IH]; simpl; [reflexivity|].
  destruct (k =? a) eqn:Ea; simpl; [exact IH|].
  destruct (k =? b) eqn:Eb; simpl; [exact IH|].
  rewrite Ea. simpl. rewrite Eb. simpl. now rewrite IH.
Qed.

Lemma get_field_remove (k : string) (j : Browser.Jar) :
  Js.get_field k (Browser.remove k j) = None.
Proof.
  unfold Browser.remove. induction j as [|[k' v] r IH]; simpl; [reflexivity|].
  destruct (k' =? k) eqn:E; simpl; [exact IH|]. now rewrite E.
Qed.

Lemma get_field_remove_other (k k' : string) (j : Browser.Jar) :
  Js.get_field k j = None -> Js.get_field k (Browser.remove k' j) = None.
Proof.
  unfold Browser.remove. induction j as [|[a v] r IH]; simpl; [reflexivity|].
  destruct (a =? k) eqn:E; [discriminate|].
  intros H. destruct (a =? k'); simpl; [auto|]. rewrite E. auto.
Qed.

(** C5. For an authenticated user, a logout answers 200 and clears both
    token cookies, after it the client has neither cookie, and a second
    logout of the same user right after the first gives the same answer
    and leaves the store and the cookies exactly as the first left them.
    The stored refresh token is not cleared: the update the handler sends
    is [{$set: {refreshToken: undefined}}], from which the ORM drops the
    undefined value, so the store after a logout is the store before it
    and the user's record still holds the refresh token it held. *)
Theorem logout_keeps_the_stored_refresh_token :
  forall (w : World) (jar : Browser.Jar) (req1 req2 : Request) (u1 u2 : UserDoc),
    user req1 = Some u1 ->
    user req2 = Some u2 ->
    user_id u2 = user_id u1 ->
    exists w1 jar1,
      Browser.exchange (UserController.logoutUser req1) (w, jar)
      = (w1, jar1, inr logout_response)
      /\ Browser.exchange (UserController.logoutUser req2) (w1, jar1)
         = (w1, jar1, inr logout_response)
      /\ Js.get_field "accessToken" jar1 = None
      /\ Js.get_field "refreshToken" jar1 = None
      /\ w1 = w
      /\ (forall u, find (has_id user_id (VId (user_id u1))) (users w) = Some u ->
            exists u', find (has_id user_id (VId (user_id u1))) (users w1) = Some u'
                       /\ refreshToken u' = refreshToken u).
Proof.
  intros w jar req1 req2 u1 u2 H1 H2 Hid.
  unfold Browser.exchange, UserController.logoutUser.
  rewrite H1, H2. run_handler. simpl.
  eexists _, _. split; [reflexivity|].
  split; [|split; [|split; [|split]]].
  - now rewrite remove_remove.
  - apply get_field_remove_other, get_field_remove.
  - apply get_field_remove.
  - reflexivity.
  - intros u Hu. now exists u.
Qed.

(** Alice logs out twice, holding both cookies at first: her record
    still holds the refresh token. *)
Lemma logout_keeps_the_stored_refresh_token_witness :
  exists jar1,
    Browser.exchange
      (UserController.logoutUser (Sample.request [] [] (Some Sample.alice)))
      (Sample.world, [("accessToken", VStr "access-alice");
                      ("refreshToken", VStr "old-alice")])
    = (Sample.world, jar1, inr logout_response)
    /\ Js.get_field "refreshToken" jar1 = None
    /\ exists u', find (has_id user_id (VId 1)) (users Sample.world) = Some u'
                  /\ refreshToken u' = VStr "old-alice".
Proof.
  destruct (logout_keeps_the_stored_refresh_token Sample.world
              [("accessToken", VStr "access-alice"); ("refreshToken", VStr "old-alice")]
              (Sample.request [] [] (Some Sample.alice))
              (Sample.request [] [] (Some Sample.alice))
              Sample.alice Sample.alice eq_refl eq_refl eq_refl)
    as (w1 & jar1 & Hrun & _ & _ & Hjar & Hw & Hstored).
  subst w1. exists jar1. split; [exact Hrun|]. split; [exact Hjar|].
  exact (Hstored Sample.alice eq_refl).
Defined.

(** ** Registration *)

Lemma conflicts_found (req : Request) (w : World) :
  conflicts req w ->
  exists u, find (fun u => query_eq (VStr (username u)) (Js.prop (body req) "username")
                           || query_eq (email u) (Js.prop (body req) "email")) (users w)
            = Some u.
Proof.
  intros (u & Hin & H).
  destruct (find _ (users w)) as [u'|] eqn:E; [now exists u'|].
  exfalso. pose proof (find_none _ _ E u Hin) as Hn. simpl in Hn.
  apply orb_false_elim in Hn as [Hn1 Hn2].
  destruct H as [H | (e & H & He)].
  - rewrite H in Hn1. unfold query_eq in Hn1. simpl in Hn1.
    rewrite String.eqb_refl in Hn1. discriminate.
  - rewrite H, He in Hn2. unfold query_eq in Hn2. simpl in Hn2.
    rewrite String.eqb_refl in Hn2. discriminate.
Qed.

Lemma registerUser_validation (env : Env) (req : Request) (w : World) :
  UserController.registerUser env req w
  = match UserController.some_blank (register_fields req) with
    | inl e => (w, inl e)
    | inr true => (w, inl (ApiError 400 "All fields are required"))
    | inr false =>
        match find (fun u => query_eq (VStr (username u)) (Js.prop (body req) "username")
                             || query_eq (email u) (Js.prop (body req) "email")) (users w) with
        | Some _ => (w, inl (ApiError 409 "User already exists"))
        | None => UserController.registerUser env req w
        end
    end.
Proof.
  unfold UserController.registerUser, register_fields. run_handler.
  destruct (UserController.some_blank _) as [e|[|]]; try reflexivity.
  now destruct (find _ (users w)).
Qed.

Lemma some_blank_passed_over (l : list Value) :
  Forall passed_over l -> UserController.some_blank l = inr false.
Proof.
  induction 1 as [|v l Hv _ IH]; simpl; [reflexivity|].
  destruct Hv as [-> | [-> | (s & -> & Hs)]]; try exact IH.
  destruct (String.eqb_spec (Js.trim s) ""); [contradiction|exact IH].
Qed.

Lemma some_blank_stops (l1 l2 : list Value) (v : Value) :
  Forall passed_over l1 ->
  UserController.some_blank (l1 ++ v :: l2) = UserController.some_blank (v :: l2).
Proof.
  induction 1 as [|x l Hx _ IH]; simpl; [reflexivity|].
  destruct Hx as [-> | [-> | (s & -> & Hs)]]; try exact IH.
  destruct (String.eqb_spec (Js.trim s) ""); [contradiction|exact IH].
Qed.

(** C6, as the code has it.  A registration request that names a stored
    user never creates a user and never uploads a file: it throws and
    leaves the store and the image host as they were.  Which error it
    throws is decided by the blank-field check, which runs first and
    reads [fullName], [email], [username] and [password] in this order:
    when it passes over all four the error is the 409 conflict; when the
    first field it does not pass over is a blank string the error is the
    400 validation error; when that field is no string the error is the
    [TypeError] of calling [trim] on it. *)
Theorem registration_conflict_changes_nothing :
  forall (env : Env) (w : World) (req : Request),
    conflicts req w ->
    (exists e, UserController.registerUser env req w = (w, inl e))
    /\ (Forall passed_over (register_fields req) ->
        UserController.registerUser env req w
        = (w, inl (ApiError 409 "User already exists")))
    /\ (forall l1 v l2,
          register_fields req = (l1 ++ v :: l2)%list ->
          Forall passed_over l1 ->
          (blank v ->
           UserController.registerUser env req w
           = (w, inl (ApiError 400 "All fields are required")))
          /\ (no_text v ->
              UserController.registerUser env req w
              = (w, inl (TypeError "field?.trim is not a function")))).
Proof.
  intros env w req Hc. destruct (conflicts_found req w Hc) as [u Hu].
  rewrite registerUser_validation, Hu. split; [|split].
  - destruct (UserController.some_blank _) as [e|[|]]; eauto.
  - intros Hall. now rewrite (some_blank_passed_over _ Hall).
  - intros l1 v l2 -> Hl1. rewrite (some_blank_stops _ _ _ Hl1). split.
    + intros (s & -> & Hs). simpl. now rewrite Hs.
    + intros Hv. destruct v; simpl in *; try contradiction; reflexivity.
Qed.

(** The user name [alice] is taken: with four filled fields the request
    is refused with 409, and with the number 5 as full name it ends in a
    [TypeError]. *)
Lemma registration_conflict_changes_nothing_witness :
  UserController.registerUser (Sample.env Sample.Like_unbound Sample.jwt_unbound)
    taken_name Sample.world
  = (Sample.world, inl (ApiError 409 "User already exists"))
  /\ UserController.registerUser (Sample.env Sample.Like_unbound Sample.jwt_unbound)
       taken_name_numeric_fullName Sample.world
     = (Sample.world, inl (TypeError "field?.trim is not a function")).
Proof.
  split.
  - refine (proj1 (proj2 (registration_conflict_changes_nothing
                            (Sample.env Sample.Like_unbound Sample.jwt_unbound)
                            Sample.world taken_name _)) _).
    + exists Sample.alice. split; [left; reflexivity|left; reflexivity].
    + repeat (apply Forall_cons;
                [right; right; eexists; split; [reflexivity|vm_compute; discriminate]|]).
      apply Forall_nil.
  - refine (proj2 (proj2 (proj2 (registration_conflict_changes_nothing
                                   (Sample.env Sample.Like_unbound Sample.jwt_unbound)
                                   Sample.world taken_name_numeric_fullName _))
                         [] (VNum 5) _ eq_refl (Forall_nil _)) I).
    exists Sample.alice. split; [left; reflexivity|left; reflexivity].
Defined.

(** C6 as stated fails: the user name [alice] is taken, the full name is
    blank, and the request is refused with 400, not 409. *)
Lemma registration_conflict_can_be_400 :
  conflicts taken_name_blank_fullName Sample.world
  /\ UserController.registerUser (Sample.env Sample.Like_unbound Sample.jwt_unbound)
       taken_name_blank_fullName Sample.world
     = (Sample.world, inl (ApiError 400 "All fields are required"))
  /\ ~ (exists msg,
          snd (UserController.registerUser
                 (Sample.env Sample.Like_unbound Sample.jwt_unbound)
                 taken_name_blank_fullName Sample.world)
          = inl (ApiError 409 msg)).
Proof.
  split; [|split].
  - exists Sample.alice. split; [left; reflexivity|left; reflexivity].
  - reflexivity.
  - intros [msg H]. discriminate H.
Qed.

(** A full name that is one no-break space is blank. *)
Example registration_with_a_no_break_space :
  UserController.registerUser (Sample.env Sample.Like_unbound Sample.jwt_unbound)
    taken_name_nbsp_fullName Sample.world
  = (Sample.world, inl (ApiError 400 "All fields are required")).
Proof. vm_compute. reflexivity. Qed.

(** C8. A registration request whose uploaded files have no
    [coverImage] entry always fails, with nothing stored and nothing
    uploaded.  When the request passes the field and conflict checks and
    has an [avatar] entry, the failure is the [TypeError] of indexing the
    absent array, raised before the avatar is looked at.  Yet a cover
    image that is present and fails to upload is tolerated: the user is
    created, with the empty string as cover image. *)
Theorem registration_needs_a_coverImage_entry :
  forall (env : Env) (w : World) (req : Request),
    (no_coverImage_entry req ->
       exists e, UserController.registerUser env req w = (w, inl e))
    /\ (forall fs l,
          UserController.some_blank (register_fields req) = inr false ->
          find_user req w = None ->
          files req = Some fs ->
          UserController.assoc "avatar" fs = Some l ->
          UserController.assoc "coverImage" fs = None ->
          UserController.registerUser env req w
          = (w, inl (TypeError "Cannot read properties of undefined (reading '0')")))
    /\ (forall fs fa la fc lc name av,
          UserController.some_blank (register_fields req) = inr false ->
          find_user req w = None ->
          files req = Some fs ->
          UserController.assoc "avatar" fs = Some (fa :: la) ->
          UserController.assoc "coverImage" fs = Some (fc :: lc) ->
          path fa <> "" ->
          uploadOnCloudinary env (VStr (path fa)) = VDoc av ->
          uploadOnCloudinary env (VStr (path fc)) = VNull ->
          Js.prop (body req) "username" = VStr name ->
          exists u r,
            UserController.registerUser env req w
            = (set_users (users w ++ [u])
                 (set_uploaded (uploaded w ++ [VStr (path fa); VStr (path fc)]) w), inr r)
            /\ coverImage u = VStr ""
            /\ username u = Js.toLowerCase name
            /\ status_code r = 201).
Proof.
  intros env w req. split; [|split].
  - intros Hno. rewrite registerUser_validation.
    destruct (UserController.some_blank _) as [e|[|]]; eauto.
    destruct (find _ (users w)) as [u|] eqn:Hu; eauto.
    unfold UserController.registerUser, register_fields in *. run_handler.
    destruct (UserController.some_blank _) as [e|[|]]; eauto.
    rewrite Hu. unfold UserController.first_file_path.
    destruct Hno as [-> | (fs & -> & Hc)].
    + simpl. eauto.
    + rewrite Hc. destruct (UserController.assoc "avatar" fs) as [[|f l]|]; eauto.
  - intros fs l Hb Hf Hfs Ha Hc.
    unfold UserController.registerUser, register_fields, find_user in *. run_handler.
    rewrite Hb, Hf. unfold UserController.first_file_path. rewrite Hfs, Ha, Hc.
    now destruct l.
  - intros fs fa la fc lc name av Hb Hf Hfs Ha Hc Hp Hav Hcv Hn.
    unfold UserController.registerUser, register_fields, find_user in *. run_handler.
    rewrite Hb, Hf. unfold UserController.first_file_path. rewrite Hfs, Ha, Hc.
    assert (Ht : Js.truthy (VStr (path fa)) = true).
    { simpl. destruct (String.eqb_spec (path fa) ""); [contradiction|reflexivity]. }
    rewrite Ht, Hav, Hcv, Hn. simpl.
    match goal with
    | |- context [find ?p (users w ++ [?u])] =>
        destruct (find p (users w ++ [u])) as [u'|] eqn:E
    end.
    + destruct w as [us vs cs ls ss ups con]. simpl in *.
      eexists _, _. split.
      * unfold set_users, set_uploaded. simpl. rewrite <- app_assoc. reflexivity.
      * repeat split; reflexivity.
    + exfalso.
      match type of E with
      | find ?p (_ ++ [?u]) = None =>
          pose proof (find_none p _ E u (in_elt u _ [])) as Hn'
      end.
      rewrite has_id_VId in Hn'. simpl in Hn'. rewrite Nat.eqb_refl in Hn'. discriminate.
Qed.

(** Carol registers with an avatar only, and then with a cover image
    that the image host refuses. *)
Lemma registration_needs_a_coverImage_entry_witness :
  UserController.registerUser (Sample.env Sample.Like_unbound Sample.jwt_unbound)
    (newcomer (Some [("avatar", [mkFile "a.png"])])) Sample.world
  = (Sample.world, inl (TypeError "Cannot read properties of undefined (reading '0')"))
  /\ exists u r,
      UserController.registerUser (Sample.env Sample.Like_unbound Sample.jwt_unbound)
        (newcomer (Some [("avatar", [mkFile "a.png"]); ("coverImage", [mkFile "broken.png"])]))
        Sample.world
      = (set_users (users Sample.world ++ [u])
           (set_uploaded (uploaded Sample.world ++ [VStr "a.png"; VStr "broken.png"])
                         Sample.world), inr r)
      /\ coverImage u = VStr ""
      /\ username u = "carol"
      /\ status_code r = 201.
Proof.
  split.
  - exact (proj1 (proj2 (registration_needs_a_coverImage_entry
                           (Sample.env Sample.Like_unbound Sample.jwt_unbound)
                           Sample.world (newcomer (Some [("avatar", [mkFile "a.png"])]))))
                 [("avatar", [mkFile "a.png"])] [mkFile "a.png"]
                 eq_refl eq_refl eq_refl eq_refl eq_refl).
  - refine (proj2 (proj2 (registration_needs_a_coverImage_entry
                            (Sample.env Sample.Like_unbound Sample.jwt_unbound)
                            Sample.world
                            (newcomer (Some [("avatar", [mkFile "a.png"]);
                                             ("coverImage", [mkFile "broken.png"])]))))
                  [("avatar", [mkFile "a.png"]); ("coverImage", [mkFile "broken.png"])]
                  (mkFile "a.png") [] (mkFile "broken.png") [] "Carol"
                  [("url", VStr "https://img.example/a.png")]
                  eq_refl eq_refl eq_refl eq_refl eq_refl _ eq_refl eq_refl eq_refl).
    discriminate.
Defined.

(** ** Token refresh *)

(** C1, at the code.  Whenever the refresh handler answers, the token
    was verified, it names a stored user whose stored token it equals,
    and that user's stored token is replaced by a newly generated one;
    but the answer carries only the new access token: the [refreshToken]
    cookie and the [refreshToken] field of the body are [undefined],
    because the handler reads [newRefreshToken] off a result whose keys
    are [accessToken] and [refreshToken]. *)
Theorem refresh_answer_has_no_refresh_token :
  forall (env : Env) (w w' : World) (req : Request) (r : Response),
    UserController.refreshAccessToken env req w = (w', inr r) ->
    exists decoded u,
      jwt_verify env (incoming req) = inr decoded
      /\ find (has_id user_id (UserController.opt_member decoded "_id")) (users w) = Some u
      /\ Js.loose_neq (incoming req) (refreshToken u) = false
      /\ users w'
         = update_first (has_id user_id (VId (user_id u)))
             (fun _ => User.set_refreshToken (VStr (generateRefreshToken env u)) u) (users w)
      /\ r = mkResponse 200
               [SetCookie "accessToken" (VStr (generateAccessToken env u)) (mkOptions true true);
                SetCookie "refreshToken" VUndefined (mkOptions true true)]
               (Some (ApiResponse.new 200
                        (VDoc [("accessToken", VStr (generateAccessToken env u));
                               ("refreshToken", VUndefined)])
                        "Access token refreshed successfully")).
Proof.
  intros env w w' req r.
  unfold UserController.refreshAccessToken. fold (incoming req).
  destruct (negb _); [discriminate|]. run_handler.
  destruct (jwt_verify env (incoming req)) as [e|d]; [discriminate|].
  destruct (find _ (users w)) as [u|] eqn:Hu; [|discriminate].
  destruct (Js.loose_neq _ _) eqn:Hneq; [discriminate|].
  pose proof (find_has_id _ _ _ _ Hu) as Hid.
  destruct (generateAccessAndRefreshTokens_cases env (VId (user_id u)) w)
    as [(u' & Hu' & ->) | (_ & ->)]; [|discriminate].
  rewrite Hid in Hu. rewrite Hu in Hu'. injection Hu' as <-.
  intros [= <- <-]. exists d, u. rewrite Hid. repeat split; assumption || reflexivity.
Qed.

(** Alice presents her stored refresh token to a host where [jwt] is
    bound: the store now holds [refresh-alice], the answer does not. *)
Lemma refresh_answer_has_no_refresh_token_witness :
  let env := Sample.env Sample.Like_unbound Sample.jwt_bound in
  let w' := set_users [User.set_refreshToken (VStr "refresh-alice") Sample.alice; Sample.bob]
                      Sample.world in
  exists decoded u,
    jwt_verify env (incoming alice_refresh) = inr decoded
    /\ find (has_id user_id (UserController.opt_member decoded "_id")) (users Sample.world)
       = Some u
    /\ Js.loose_neq (incoming alice_refresh) (refreshToken u) = false
    /\ users w'
       = update_first (has_id user_id (VId (user_id u)))
           (fun _ => User.set_refreshToken (VStr (generateRefreshToken env u)) u)
           (users Sample.world)
    /\ mkResponse 200
         [SetCookie "accessToken" (VStr "access-alice") (mkOptions true true);
          SetCookie "refreshToken" VUndefined (mkOptions true true)]
         (Some (ApiResponse.new 200
                  (VDoc [("accessToken", VStr "access-alice"); ("refreshToken", VUndefined)])
                  "Access token refreshed successfully"))
       = mkResponse 200
           [SetCookie "accessToken" (VStr (generateAccessToken env u)) (mkOptions true true);
            SetCookie "refreshToken" VUndefined (mkOptions true true)]
           (Some (ApiResponse.new 200
                    (VDoc [("accessToken", VStr (generateAccessToken env u));
                           ("refreshToken", VUndefined)])
                    "Access token refreshed successfully")).
Proof.
  intros env w'.
  exact (refresh_answer_has_no_refresh_token env Sample.world w' alice_refresh _ eq_refl).
Defined.

(** Every refusal of the refresh handler is a 401: the missing token,
    and whatever is thrown while verifying, comparing and reissuing. *)
Lemma refresh_refusals_are_401 :
  forall (env : Env) (w w' : World) (req : Request) (e : Exn),
    UserController.refreshAccessToken env req w = (w', inl e) ->
    exists msg, e = ApiError 401 msg.
Proof.
  intros env w w' req e.
  unfold UserController.refreshAccessToken.
  destruct (negb _); [intros [= _ <-]; eauto|]. run_handler.
  destruct (jwt_verify env _) as [x|d]; [intros [= _ <-]; eauto|].
  destruct (find _ (users w)) as [u|]; [|intros [= _ <-]; eauto].
  destruct (Js.loose_neq _ _); [intros [= _ <-]; eauto|].
  destruct (generateAccessAndRefreshTokens_cases env (VId (user_id u)) w)
    as [(u' & _ & ->) | (_ & ->)]; [discriminate|intros [= _ <-]; eauto].
Qed.

(** In the module as it is written [jwt] is unbound: every request that
    carries a token is refused with 401. *)
Example refresh_without_jwt :
  UserController.refreshAccessToken (Sample.env Sample.Like_unbound Sample.jwt_unbound)
    alice_refresh Sample.world
  = (Sample.world, inl (ApiError 401 "jwt is not defined")).
Proof. reflexivity. Qed.

(** ** Running pipelines document by document *)

Lemma map_err_map {A B C} (f : B -> Exn + C) (g : A -> B) (h : A -> C) (l : list A) :
  (forall x, In x l -> f (g x) = inr (h x)) ->
  Aggregate.map_err f (map g l) = inr (map h l).
Proof.
  induction l as [|x r IH]; simpl; intros H; [reflexivity|].
  rewrite (H x (or_introl eq_refl)), IH by (intros; apply H; now right). reflexivity.
Qed.

Lemma filter_map_comm {A B} (p : B -> bool) (g : A -> B) (l : list A) :
  filter p (map g l) = map g (filter (fun x => p (g x)) l).
Proof.
  induction l as [|x r IH]; simpl; [reflexivity|].
  destruct (p (g x)); simpl; now rewrite IH.
Qed.

(** ** The channel profile *)

Lemma omap_get_path_nil (k : string) (l : list Value) :
  Aggregate.omap (fun e => match Aggregate.get k e with
                           | Some x => Some x
                           | None => None
                           end) l
  = Aggregate.omap (fun e => Aggregate.get k e) l.
Proof.
  induction l as [|x r IH]; simpl; [reflexivity|].
  destruct (Aggregate.get k x); simpl; now rewrite IH.
Qed.

Lemma channel_stages (env : Env) (w : World) (name requester : Value) (us : list UserDoc) :
  Aggregate.run env w (tl (UserController.channelPipeline name requester))
                (map user_value us)
  = inr (map (channel_view w requester) us).
Proof.
  unfold UserController.channelPipeline, tl, Aggregate.run, Aggregate.run_stage.
  rewrite !map_map.
  rewrite (map_err_map _ _
             (fun u => let subs := subscriptions_to w u in
                       VDoc [("_id", VId (user_id u));
                             ("username", VStr (username u));
                             ("email", email u);
                             ("fullName", fullName u);
                             ("password", password u);
                             ("avatar", avatar u);
                             ("coverImage", coverImage u);
                             ("refreshToken", refreshToken u);
                             ("subscribers", VArr subs);
                             ("subscribedTo", VArr subs);
                             ("totalSubscribers", VNum (Z.of_nat (List.length subs)));
                             ("totalSubscribedTo", VNum (Z.of_nat (List.length subs)));
                             ("isSubscribed",
                              VBool (existsb (Js.eqb (nullish requester))
                                       (Aggregate.omap (fun e => Aggregate.get "subsciber" e)
                                                       subs)))])).
  - rewrite map_map. reflexivity.
  - intros u _. cbv zeta.
    change (Aggregate.lookup (Aggregate.collection w "subscriptions") "_id" "channel"
              "subscribers" (user_value u))
      with (Aggregate.set "subscribers" (Some (VArr (subscriptions_to w u))) (user_value u)).
    change (Aggregate.lookup (Aggregate.collection w "subscriptions") "_id" "channel"
              "subscribedTo"
              (Aggregate.set "subscribers" (Some (VArr (subscriptions_to w u))) (user_value u)))
      with (Aggregate.set "subscribedTo" (Some (VArr (subscriptions_to w u)))
              (Aggregate.set "subscribers" (Some (VArr (subscriptions_to w u)))
                             (user_value u))).
    generalize (subscriptions_to w u) as subs. intros subs.
    unfold Aggregate.add_fields, user_value. cbn.
    rewrite omap_get_path_nil.
    now destruct (existsb _ _).
Qed.

(** C10. Whenever the channel-profile handler answers, its data is an
    array of profiles, and in each profile [totalSubscribers] and
    [totalSubscribedTo] are the same number: the count of the
    subscriptions whose [channel] is the user, which is what both lookups
    of the pipeline collect. *)
Theorem channel_totals_coincide :
  forall (env : Env) (w w' : World) (req : Request) (r : Response),
    UserController.getUserChannelProfile env req w = (w', inr r) ->
    exists us,
      sent r = Some (ApiResponse.new 200 (VArr (map (channel_view w (user__id req)) us))
                                     "Channel profile fetched successfully")
      /\ us <> []
      /\ incl us (users w)
      /\ Forall equal_totals (map (channel_view w (user__id req)) us).
Proof.
  intros env w w' req r.
  unfold UserController.getUserChannelProfile.
  destruct (negb _); [discriminate|]. run_handler.
  destruct (UserController.toLowerCase _) as [e|name]; [discriminate|].
  unfold User.aggregate, Aggregate.collection. simpl String.eqb. cbv iota.
  change (UserController.channelPipeline (VStr name) (user__id req))
    with (Aggregate.Match (VStr name)
            :: tl (UserController.channelPipeline (VStr name) (user__id req))).
  cbn [Aggregate.run Aggregate.run_stage].
  destruct (match_operand env (VStr name)) as [keep_doc|]; [|discriminate].
  rewrite filter_map_comm, channel_stages.
  set (us := filter (fun u => keep_doc (user_value u)) (users w)).
  destruct us as [|u us'] eqn:Hus; [discriminate|].
  intros [= <- <-]. exists (u :: us'). split; [reflexivity|]. split; [discriminate|].
  split.
  - rewrite <- Hus. intros x Hx. unfold us in Hx. now apply filter_In in Hx.
  - apply Forall_forall. intros d Hd. apply in_map_iff in Hd as (x & <- & _).
    eexists. split; reflexivity.
Qed.

(** On a database that reads the bare string of the [$match] stage as a
    user name, Bob asks for the channel of Alice. *)
Lemma channel_totals_coincide_witness :
  exists us,
    Some (ApiResponse.new 200
            (VArr [VDoc [("_id", VId 1); ("username", VStr "alice");
                         ("fullName", VStr "Alice");
                         ("avatar", VStr "https://img.example/a.png");
                         ("coverImage", VStr "");
                         ("totalSubscribers", VNum 1);
                         ("totalSubscribedTo", VNum 1);
                         ("isSubscribed", VBool false)]])
            "Channel profile fetched successfully")
    = Some (ApiResponse.new 200
              (VArr (map (channel_view Sample.world (VId 2)) us))
              "Channel profile fetched successfully")
    /\ us <> []
    /\ incl us (users Sample.world)
    /\ Forall equal_totals (map (channel_view Sample.world (VId 2)) us).
Proof.
  exact (channel_totals_coincide (lenient None) Sample.world Sample.world
           (Sample.request [("username", VStr "Alice")] [] (Some Sample.bob))
           (mkResponse 200 []
              (Some (ApiResponse.new 200
                       (VArr [VDoc [("_id", VId 1); ("username", VStr "alice");
                                    ("fullName", VStr "Alice");
                                    ("avatar", VStr "https://img.example/a.png");
                                    ("coverImage", VStr "");
                                    ("totalSubscribers", VNum 1);
                                    ("totalSubscribedTo", VNum 1);
                                    ("isSubscribed", VBool false)]])
                       "Channel profile fetched successfully")))
           eq_refl).
Defined.

(** A database that rejects a [$match] whose operand is not a document
    never answers with a profile. *)
Example channel_profile_on_strict_database :
  snd (UserController.getUserChannelProfile
         (Sample.env Sample.Like_unbound Sample.jwt_unbound)
         (Sample.request [("username", VStr "Alice")] [] (Some Sample.bob)) Sample.world)
  = inl (MongoError "the match filter must be an expression in an object").
Proof. reflexivity. Qed.

(** ** The comment listing *)

Lemma insert_map {A B} (le : A -> A -> bool) (le' : B -> B -> bool) (g : A -> B)
  (x : A) (l : list A) :
  (forall a b, le' (g a) (g b) = le a b) ->
  Aggregate.insert le' (g x) (map g l) = map g (Aggregate.insert le x l).
Proof.
  intros H. induction l as [|y r IH]; simpl; [reflexivity|].
  rewrite H. destruct (le x y); simpl; [reflexivity|]. now rewrite IH.
Qed.

Lemma sort_by_map {A B} (le : A -> A -> bool) (le' : B -> B -> bool) (g : A -> B)
  (l : list A) :
  (forall a b, le' (g a) (g b) = le a b) ->
  Aggregate.sort_by le' (map g l) = map g (Aggregate.sort_by le l).
Proof.
  intros H. induction l as [|x r IH]; simpl; [reflexivity|].
  rewrite IH. now apply insert_map.
Qed.

Lemma join_owner (w : World) (c : CommentDoc) :
  filter (fun f => Js.eqb (Aggregate.or_null (Aggregate.get_path ["_id"] f))
                          (match owner c with Some o => VId o | None => VNull end))
         (map user_value (users w))
  = map user_value (Listing.owners_of w c).
Proof.
  rewrite filter_map_comm. unfold Listing.owners_of. f_equal.
  apply filter_ext. intros u. now destruct (owner c).
Qed.

Lemma join_likes (w : World) (c : CommentDoc) :
  filter (fun f => Js.eqb (Aggregate.or_null (Aggregate.get_path ["comment"] f))
                          (VId (comment_id c)))
         (map like_value (likes w))
  = map like_value (Listing.likes_of w c).
Proof.
  rewrite filter_map_comm. unfold Listing.likes_of. f_equal.
  apply filter_ext. intros l. unfold like_value. now destruct (like_comment l).
Qed.

Lemma likedBy_of_likes (ls : list LikeDoc) :
  Aggregate.omap (fun e => match Aggregate.get "likedBy" e with
                           | Some x => Some x
                           | None => None
                           end) (map like_value ls)
  = map (fun l => VId (likedBy l)) ls.
Proof.
  induction ls as [|l r IH]; simpl; [reflexivity|].
  rewrite IH. unfold like_value. now destruct (like_comment l).
Qed.

Lemma requester_liked (requester : Value) (ls : list LikeDoc) :
  existsb (Js.eqb (nullish requester)) (map (fun l => VId (likedBy l)) ls)
  = Listing.liked_by requester ls.
Proof.
  unfold Listing.liked_by.
  induction ls as [|l r IH]; simpl; [now destruct requester|].
  rewrite IH. destruct requester; reflexivity.
Qed.

Lemma no_owner_no_owners (w : World) (c : CommentDoc) :
  owner c = None -> Listing.owners_of w c = [].
Proof.
  intros H. unfold Listing.owners_of. rewrite H.
  induction (users w) as [|u r IH]; simpl; auto.
Qed.

Lemma derive_comment (w : World) (requester : Value) (c : CommentDoc) :
  Aggregate.add_fields
    [ ("likesCount", Aggregate.Size (Aggregate.Path "likes"));
      ("owner", Aggregate.First (Aggregate.Path "owner"));
      ("isLiked", Aggregate.Cond
                    (Aggregate.In_ (Aggregate.Lit requester) (Aggregate.Path "likes.likedBy"))
                    (Aggregate.Lit (VBool true))
                    (Aggregate.Lit (VBool false))) ]
    (Aggregate.lookup (Aggregate.collection w "likes") "_id" "comment" "likes"
       (Aggregate.lookup (Aggregate.collection w "users") "owner" "_id" "owner"
          (comment_value c)))
  = inr (derived w requester c).
Proof.
  assert (H1 : Aggregate.lookup (Aggregate.collection w "users") "owner" "_id" "owner"
                 (comment_value c)
               = Aggregate.set "owner" (Some (VArr (map user_value (Listing.owners_of w c))))
                               (comment_value c)).
  { unfold Aggregate.lookup. rewrite <- join_owner. unfold comment_value.
    now destruct (owner c). }
  rewrite H1.
  assert (H2 : Aggregate.lookup (Aggregate.collection w "likes") "_id" "comment" "likes"
                 (Aggregate.set "owner" (Some (VArr (map user_value (Listing.owners_of w c))))
                                (comment_value c))
               = Aggregate.set "likes" (Some (VArr (map like_value (Listing.likes_of w c))))
                   (Aggregate.set "owner"
                      (Some (VArr (map user_value (Listing.owners_of w c))))
                      (comment_value c))).
  { unfold Aggregate.lookup. rewrite <- join_likes. unfold comment_value.
    now destruct (owner c). }
  rewrite H2. clear H1 H2.
  unfold derived.
  pose proof (no_owner_no_owners w c) as Hnone.
  generalize dependent (Listing.owners_of w c). intros os Hnone.
  pose proof (requester_liked requester (Listing.likes_of w c)) as Hliked.
  pose proof (likedBy_of_likes (Listing.likes_of w c)) as HlikedBy.
  generalize dependent (Listing.likes_of w c). intros ls Hliked HlikedBy.
  unfold Aggregate.add_fields, comment_value.
  destruct (owner c) as [o|].
  - cbn. rewrite HlikedBy, Hliked, length_map.
    destruct os as [|u os']; destruct (Listing.liked_by requester ls); reflexivity.
  - rewrite (Hnone eq_refl). cbn. rewrite HlikedBy, Hliked, length_map.
    destruct (Listing.liked_by requester ls); reflexivity.
Qed.

Lemma project_derived (w : World) (requester : Value) (c : CommentDoc) :
  Aggregate.project listing_projection (derived w requester c)
  = Listing.comment_view w requester c.
Proof.
  unfold derived, Listing.comment_view, Listing.owner_view.
  destruct (hd_error (Listing.owners_of w c)) as [u|]; [|reflexivity].
  unfold Aggregate.project, user_value. cbn.
  now destruct (Aggregate.keep [["url"]] (avatar u)).
Qed.

Lemma newest_first_derived (w : World) (requester : Value) (a b : CommentDoc) :
  Aggregate.doc_le "createdAt" (-1) (derived w requester a) (derived w requester b)
  = Listing.newest_first a b.
Proof.
  unfold derived, Aggregate.doc_le, Aggregate.sort_key, Listing.newest_first.
  destruct (hd_error (Listing.owners_of w a)), (hd_error (Listing.owners_of w b)); reflexivity.
Qed.

Lemma match_video (videoId : Value) (cs : list CommentDoc) :
  filter (Aggregate.matches [("video", videoId)]) (map comment_value cs)
  = map comment_value (filter (Listing.selected videoId) cs).
Proof.
  rewrite filter_map_comm. f_equal. apply filter_ext. intros c.
  unfold Aggregate.matches, Listing.selected, comment_value. simpl.
  apply andb_true_r.
Qed.

(** The pipeline of [getVideoComments], run on the stored comments,
    yields the listing. *)
Lemma commentsPipeline_runs (env : Env) (w : World) (videoId requester : Value) :
  Aggregate.run env w (CommentController.commentsPipeline videoId requester)
                (Aggregate.collection w "comments")
  = inr (Listing.listing w videoId requester).
Proof.
  unfold CommentController.commentsPipeline, Aggregate.run, Aggregate.run_stage.
  change (Aggregate.collection w "comments") with (map comment_value (comments w)).
  destruct videoId; rewrite match_video, !map_map;
    rewrite (map_err_map _ _ (derived w requester))
      by (intros c _; apply derive_comment);
    rewrite (sort_by_map Listing.newest_first) by apply newest_first_derived;
    rewrite map_map; unfold Listing.listing; f_equal;
    apply map_ext; intros c; apply project_derived.
Qed.

Lemma selected_by_id (videoId : Value) (i : ObjectId) (c : CommentDoc) :
  as_id videoId = Some i -> Listing.selected videoId c = true -> video c = i.
Proof.
  unfold Listing.selected, query_eq.
  destruct videoId; simpl; try discriminate.
  intros [= ->] H. now apply Nat.eqb_eq in H.
Qed.

Lemma selected_by_string (s : string) (cs : list CommentDoc) :
  filter (Listing.selected (VStr s)) cs = [].
Proof. induction cs as [|c r IH]; simpl; auto. Qed.

(** C4. For a request whose [videoId] names a stored video, and a page
    and a limit that the paginate plugin accepts, the listing handler
    answers 200 with a page and leaves the store as it was.  The page
    holds the comments that the [$match] stage of its pipeline selects:
    the stage is given the [videoId] of the request as it came, where
    [Video.findById] before it casts it.  A route parameter is a string,
    and a string equals no stored identifier: the page of an existing
    video is then empty and its [totalDocs] is 0, whatever comments the
    video has. *)
Theorem listing_of_a_route_parameter_is_empty :
  forall (env : Env) (w : World) (req : Request) (v : VideoDoc) (pg lim : nat),
    find (has_id video_id (Js.prop (params req) "videoId")) (videos w) = Some v ->
    Comment.page_and_limit env
      (Js.parseInt (Js.prop_default (query req) "page" (VNum 1)))
      (Js.parseInt (Js.prop_default (query req) "limit" (VNum 10)))
    = inr (pg, lim) ->
    CommentController.getVideoComments env req w
    = (w, inr (mkResponse 200 []
                 (Some (ApiResponse.new 200
                          (Listing.page w (Js.prop (params req) "videoId")
                                        (user__id req) pg lim)
                          "Comments fetched successfully"))))
    /\ (forall s, Js.prop (params req) "videoId" = VStr s ->
          Listing.page w (Js.prop (params req) "videoId") (user__id req) pg lim
          = empty_page pg lim).
Proof.
  intros env w req v pg lim Hv Hpage. split.
  - unfold CommentController.getVideoComments. run_handler. rewrite Hv.
    unfold Comment.aggregatePaginate, Comment.aggregate.
    now rewrite commentsPipeline_runs, Hpage.
  - intros s ->. unfold Listing.page, Listing.listing, Comment.page_of.
    rewrite selected_by_string. simpl. now rewrite skipn_nil, firstn_nil.
Qed.

(** Alice lists the comments of video 100, which has two, through the
    route parameter of the video: the page is empty. *)
Lemma listing_of_a_route_parameter_is_empty_witness :
  let req := Sample.request [("videoId", VStr "000000000000000000000064")] []
                            (Some Sample.alice) in
  find (has_id video_id (VStr "000000000000000000000064")) (videos Sample.world)
  = Some (mkVideo 100)
  /\ List.length (comments_on Sample.world (mkVideo 100)) = 2
  /\ CommentController.getVideoComments (Sample.env Sample.Like_unbound Sample.jwt_unbound)
       req Sample.world
     = (Sample.world,
        inr (mkResponse 200 []
               (Some (ApiResponse.new 200 (empty_page 1 10)
                                      "Comments fetched successfully")))).
Proof.
  intro req. split; [reflexivity|]. split; [reflexivity|].
  destruct (listing_of_a_route_parameter_is_empty
              (Sample.env Sample.Like_unbound Sample.jwt_unbound) Sample.world req
              (mkVideo 100) 1 10 eq_refl eq_refl) as [Hrun Hpage].
  rewrite <- (Hpage _ eq_refl). exact Hrun.
Defined.

(** * Further properties of the two controllers *)

Ltac run_more :=
  cbv beta iota delta
    [bind ret throw gets modify try_catch console_log negb
     CommentController.lift UserController.lift
     Comment.findById Comment.findByIdAndUpdate Comment.findByIdAndDelete
     Comment.create Video.findById User.findById User.findOne_or
     User.save User.create User.findByIdAndUpdate_refreshToken
     User.findByIdAndUpdate UserController.upload Like.deleteMany].

(** ** Fresh identifiers *)

Lemma fold_max_ge (l : list nat) (x : nat) :
  In x l -> (x <= fold_right Nat.max 0 l)%nat.
Proof.
  induction l as [|y r IH]; simpl; [contradiction|].
  intros [->|H]; [lia|]. specialize (IH H). lia.
Qed.

Lemma fresh_id_fresh (l : list ObjectId) : ~ In (fresh_id l) l.
Proof.
  intros H. apply fold_max_ge in H. unfold fresh_id in H. lia.
Qed.

Lemma find_fresh_none {A} (key : A -> ObjectId) (l : list A) :
  find (has_id key (VId (fresh_id (map key l)))) l = None.
Proof.
  destruct (find _ l) as [x|] eqn:E; [|reflexivity].
  exfalso. apply find_some in E as [Hin E].
  rewrite has_id_VId in E. apply Nat.eqb_eq in E.
  apply (fresh_id_fresh (map key l)). rewrite <- E. now apply in_map.
Qed.

Lemma find_app_none {A} (p : A -> bool) (l r : list A) :
  find p l = None -> find p (l ++ r) = find p r.
Proof.
  induction l as [|x l IH]; simpl; [reflexivity|].
  destruct (p x); [discriminate|exact IH].
Qed.

Lemma remove_first_app_none {A} (p : A -> bool) (l r : list A) :
  find p l = None -> remove_first p (l ++ r) = (l ++ remove_first p r)%list.
Proof.
  induction l as [|x l IH]; simpl; [reflexivity|].
  destruct (p x); [discriminate|]. intros H. now rewrite IH.
Qed.

Lemma NoDup_snoc_fresh {A} (key : A -> ObjectId) (l : list A) (x : A) :
  key x = fresh_id (map key l) ->
  NoDup (map key l) -> NoDup (map key (l ++ [x])).
Proof.
  intros Hx Hl. rewrite map_app. simpl.
  apply NoDup_app; [exact Hl|repeat constructor; simpl; tauto|].
  intros a Ha [<-|[]]. rewrite Hx in Ha. exact (fresh_id_fresh _ Ha).
Qed.

Lemma map_update_first {A B} (p : A -> bool) (f : A -> A) (g : A -> B) (l : list A) :
  (forall x, g (f x) = g x) -> map g (update_first p f l) = map g l.
Proof.
  intros H. induction l as [|x r IH]; simpl; [reflexivity|].
  destruct (p x); simpl; [now rewrite H|now rewrite IH].
Qed.

Lemma NoDup_remove_first {A B} (p : A -> bool) (g : A -> B) (l : list A) :
  NoDup (map g l) -> NoDup (map g (remove_first p l)).
Proof.
  induction l as [|x r IH]; simpl; [auto|].
  intros H. inversion H as [|? ? Hx Hr]; subst.
  destruct (p x); [exact Hr|]. simpl. constructor; [|auto].
  intros Hin. apply Hx. clear - Hin.
  induction r as [|y r IH]; simpl in *; [contradiction|].
  destruct (p y); [now right|]. destruct Hin as [->|Hin]; [now left|right; auto].
Qed.

(** ** Comments *)



(** The three handlers that write comments keep the comment
    identifiers distinct: if no two stored comments share an identifier
    before [addComment], [updateComment] or [deleteComment], none do
    after, whatever the outcome. *)
Theorem comment_ids_stay_distinct :
  forall (env : Env) (w : World) (req : Request),
    NoDup (map comment_id (comments w)) ->
    NoDup (map comment_id (comments (fst (CommentController.addComment env req w))))
    /\ NoDup (map comment_id (comments (fst (CommentController.updateComment req w))))
    /\ NoDup (map comment_id (comments (fst (CommentController.deleteComment env req w)))).
Proof.
  intros env w req Hnd. split; [|split].
  - unfold CommentController.addComment.
    destruct (negb _); [exact Hnd|]. run_more.
    destruct (find _ (videos w)); [|exact Hnd].
    destruct (as_id _); [|exact Hnd]. simpl.
    now apply NoDup_snoc_fresh.
  - unfold CommentController.updateComment.
    destruct (negb _); [exact Hnd|]. run_more.
    destruct (find _ (comments w)) as [c|] eqn:Hc; [|exact Hnd].
    destruct (CommentController.not_owner c req) as [e|[|]]; try exact Hnd.
    rewrite (find_has_id _ _ _ _ Hc) in Hc. rewrite Hc. simpl.
    now rewrite map_update_first.
  - unfold CommentController.deleteComment. run_more.
    destruct (find _ (comments w)) as [c|] eqn:Hc; [|exact Hnd].
    destruct (CommentController.not_owner c req) as [e|[|]]; try exact Hnd.
    destruct (Like_deleteMany_throws env); simpl; now apply NoDup_remove_first.
Qed.

Lemma comment_ids_stay_distinct_witness :
  NoDup (map comment_id
           (comments (fst (CommentController.addComment
                             (Sample.env Sample.Like_unbound Sample.jwt_unbound)
                             (Sample.request [("videoId", VId 101)] [("content", VStr "hello")]
                                             (Some Sample.bob)) Sample.world)))).
Proof.
  refine (proj1 (comment_ids_stay_distinct
                   (Sample.env Sample.Like_unbound Sample.jwt_unbound) Sample.world
                   (Sample.request [("videoId", VId 101)] [("content", VStr "hello")]
                                   (Some Sample.bob)) _)).
  simpl. repeat constructor; simpl; intuition discriminate.
Defined.

Lemma deleteComment_by_owner (env : Env) (w : World) (req : Request) (c : CommentDoc)
  (u : UserDoc) :
  find (has_id comment_id (Js.prop (params req) "commentId")) (comments w) = Some c ->
  user req = Some u ->
  owner c = Some (user_id u) ->
  exists w',
    CommentController.deleteComment env req w
    = (w', inr (mkResponse 200 []
                  (Some (ApiResponse.new 200
                           (VDoc [("commentId", Js.prop (params req) "commentId")])
                           "Comment deleted successfully"))))
    /\ comments w'
       = remove_first (has_id comment_id (Js.prop (params req) "commentId")) (comments w).
Proof.
  intros Hc Hu Ho. unfold CommentController.deleteComment. run_more.
  rewrite Hc, (not_owner_spec c req _ Ho), Hu, Nat.eqb_refl. simpl.
  destruct (Like_deleteMany_throws env); simpl; eexists; split; reflexivity.
Qed.

(** X2. Adding a comment and then deleting it, as the same user, gives
    back the stored comments exactly as they were: the delete finds the
    comment that was just appended and no other. *)
Theorem add_then_delete_restores_comments :
  forall (env : Env) (w : World) (req : Request) (u : UserDoc) (v : VideoDoc),
    Js.truthy (Js.prop (body req) "content") = true ->
    find (has_id video_id (Js.prop (params req) "videoId")) (videos w) = Some v ->
    user req = Some u ->
    exists c w1 r1 w2 r2,
      CommentController.addComment env req w = (w1, inr r1)
      /\ comments w1 = (comments w ++ [c])%list
      /\ CommentController.deleteComment env
           (Sample.request [("commentId", VId (comment_id c))] [] (Some u)) w1
         = (w2, inr r2)
      /\ status_code r2 = 200
      /\ comments w2 = comments w.
Proof.
  intros env w req u v Ht Hv Hu.
  set (c := mkComment (fresh_id (map comment_id (comments w)))
                      (Js.prop (body req) "content") (video_id v)
                      (Some (user_id u)) (now env)).
  assert (Hfind : find (has_id comment_id (VId (comment_id c))) (comments w ++ [c]) = Some c).
  { rewrite (find_app_none _ _ _ (find_fresh_none comment_id (comments w))).
    cbn [find]. now rewrite has_id_VId, Nat.eqb_refl. }
  assert (Hrem : remove_first (has_id comment_id (VId (comment_id c))) (comments w ++ [c])
                 = comments w).
  { rewrite (remove_first_app_none _ _ _ (find_fresh_none comment_id (comments w))).
    cbn [remove_first]. now rewrite has_id_VId, Nat.eqb_refl, app_nil_r. }
  exists c, (set_comments (comments w ++ [c]) w).
  destruct (deleteComment_by_owner env (set_comments (comments w ++ [c]) w)
              (Sample.request [("commentId", VId (comment_id c))] [] (Some u)) c u
              Hfind eq_refl eq_refl) as (w2 & Hdel & Hcs).
  eexists _, w2, _. split; [|split; [reflexivity|split; [exact Hdel|split; [reflexivity|]]]].
  - unfold CommentController.addComment. rewrite Ht. run_more.
    rewrite Hv, (find_as_id _ _ _ _ Hv). unfold user__id. rewrite Hu. reflexivity.
  - rewrite Hcs. exact Hrem.
Qed.

Lemma add_then_delete_restores_comments_witness :
  exists c w1 r1 w2 r2,
    CommentController.addComment (Sample.env Sample.Like_unbound Sample.jwt_unbound)
      (Sample.request [("videoId", VId 101)] [("content", VStr "hello")] (Some Sample.bob))
      Sample.world = (w1, inr r1)
    /\ comments w1 = (comments Sample.world ++ [c])%list
    /\ CommentController.deleteComment (Sample.env Sample.Like_unbound Sample.jwt_unbound)
         (Sample.request [("commentId", VId (comment_id c))] [] (Some Sample.bob)) w1
       = (w2, inr r2)
    /\ status_code r2 = 200
    /\ comments w2 = comments Sample.world.
Proof.
  exact (add_then_delete_restores_comments
           (Sample.env Sample.Like_unbound Sample.jwt_unbound) Sample.world
           (Sample.request [("videoId", VId 101)] [("content", VStr "hello")]
                           (Some Sample.bob))
           Sample.bob (mkVideo 101) eq_refl eq_refl eq_refl).
Defined.

(** X3. When the like cleanup of [deleteComment] does run, it removes
    only the requester's own likes of the deleted comment: every like by
    another user, also on the deleted comment, and every like of another
    comment stays stored, and no like of the deleted comment by the
    requester is left. *)
Theorem delete_cleans_only_own_likes :
  forall (env : Env) (w w' : World) (req : Request) (c : CommentDoc) (u : UserDoc)
         (r : Response),
    Like_deleteMany_throws env = None ->
    find (has_id comment_id (Js.prop (params req) "commentId")) (comments w) = Some c ->
    user req = Some u ->
    CommentController.deleteComment env req w = (w', inr r) ->
    (forall l, In l (likes w) -> likedBy l <> user_id u -> In l (likes w'))
    /\ (forall l, In l (likes w) -> like_comment l <> Some (comment_id c) -> In l (likes w'))
    /\ (forall l, In l (likes w') ->
                  In l (likes w)
                  /\ ~ (like_comment l = Some (comment_id c) /\ likedBy l = user_id u)).
Proof.
  intros env w w' req c u r Hlike Hc Hu.
  unfold CommentController.deleteComment. run_more.
  rewrite Hc. pose proof (find_as_id _ _ _ _ Hc) as Hid.
  destruct (CommentController.not_owner c req) as [e|[|]]; try discriminate.
  rewrite Hlike, Hu, Hid. simpl. intros [= <- _]. simpl.
  split; [|split].
  - intros l Hl Hne. apply filter_In. split; [exact Hl|].
    destruct (like_comment l); [|reflexivity].
    destruct (Nat.eqb_spec (likedBy l) (user_id u)); [contradiction|].
    now rewrite andb_false_r.
  - intros l Hl Hne. apply filter_In. split; [exact Hl|].
    destruct (like_comment l) as [i|]; [|reflexivity].
    destruct (Nat.eqb_spec i (comment_id c)) as [->|]; [now destruct Hne|reflexivity].
  - intros l Hl. apply filter_In in Hl as [Hl Hk]. split; [exact Hl|].
    intros [H1 H2]. rewrite H1, H2, !Nat.eqb_refl in Hk. discriminate.
Qed.

Lemma delete_cleans_only_own_likes_witness :
  In (mkLike 20 (Some 10) 2)
     (likes (fst (CommentController.deleteComment (Sample.env None Sample.jwt_unbound)
                    (Sample.request [("commentId", VId 10)] [] (Some Sample.alice))
                    Sample.world))).
Proof.
  refine (proj1 (delete_cleans_only_own_likes (Sample.env None Sample.jwt_unbound)
                   Sample.world _
                   (Sample.request [("commentId", VId 10)] [] (Some Sample.alice))
                   Sample.c1 Sample.alice _ eq_refl eq_refl eq_refl eq_refl)
                (mkLike 20 (Some 10) 2) _ _).
  - simpl. tauto.
  - discriminate.
Defined.




(** ** The listing of comments *)

Lemma getVideoComments_answer (env : Env) (w w' : World) (req : Request) (r : Response) :
  CommentController.getVideoComments env req w = (w', inr r) ->
  exists v pg lim,
    find (has_id video_id (Js.prop (params req) "videoId")) (videos w) = Some v
    /\ Comment.page_and_limit env
         (Js.parseInt (Js.prop_default (query req) "page" (VNum 1)))
         (Js.parseInt (Js.prop_default (query req) "limit" (VNum 10))) = inr (pg, lim)
    /\ w' = w
    /\ r = mkResponse 200 []
             (Some (ApiResponse.new 200
                      (Listing.page w (Js.prop (params req) "videoId") (user__id req) pg lim)
                      "Comments fetched successfully")).
Proof.
  unfold CommentController.getVideoComments. run_more.
  destruct (find _ (videos w)) as [v|] eqn:Hv; [|discriminate].
  unfold Comment.aggregatePaginate, Comment.aggregate.
  rewrite commentsPipeline_runs.
  destruct (Comment.page_and_limit _ _ _) as [e|[pg lim]] eqn:Hp; [discriminate|].
  intros [= <- <-]. exists v, pg, lim. auto.
Qed.

Lemma length_insert {A} (le : A -> A -> bool) (x : A) (l : list A) :
  List.length (Aggregate.insert le x l) = S (List.length l).
Proof.
  induction l as [|y r IH]; simpl; [reflexivity|].
  destruct (le x y); simpl; [reflexivity|]. now rewrite IH.
Qed.

Lemma length_sort_by {A} (le : A -> A -> bool) (l : list A) :
  List.length (Aggregate.sort_by le l) = List.length l.
Proof.
  induction l as [|x r IH]; simpl; [reflexivity|]. now rewrite length_insert, IH.
Qed.

Lemma insert_perm {A} (le : A -> A -> bool) (x : A) (l : list A) :
  Permutation (Aggregate.insert le x l) (x :: l).
Proof.
  induction l as [|y r IH]; simpl; [apply Permutation_refl|].
  destruct (le x y); [apply Permutation_refl|].
  eapply Permutation_trans; [apply perm_skip, IH|apply perm_swap].
Qed.

Lemma sort_by_perm {A} (le : A -> A -> bool) (l : list A) :
  Permutation (Aggregate.sort_by le l) l.
Proof.
  induction l as [|x r IH]; simpl; [apply Permutation_refl|].
  eapply Permutation_trans; [apply insert_perm|now apply perm_skip].
Qed.

Lemma page_of_map {A B} (f : A -> B) (pg lim : nat) (l : list A) :
  firstn lim (skipn ((pg - 1) * lim) (map f l))
  = map f (firstn lim (skipn ((pg - 1) * lim) l)).
Proof. now rewrite skipn_map, firstn_map. Qed.

Lemma In_page_of {A} (pg lim : nat) (l : list A) (x : A) :
  In x (firstn lim (skipn ((pg - 1) * lim) l)) -> In x l.
Proof.
  intros H. rewrite <- (firstn_skipn ((pg - 1) * lim) l). apply in_or_app. right.
  rewrite <- (firstn_skipn lim (skipn _ l)). apply in_or_app. now left.
Qed.

Lemma insert_newest_first (x : CommentDoc) (l : list CommentDoc) :
  StronglySorted not_older l ->
  StronglySorted not_older (Aggregate.insert Listing.newest_first x l).
Proof.
  induction l as [|y r IH]; simpl; intros H.
  - repeat constructor.
  - apply StronglySorted_inv in H as [Hr Hy].
    unfold Listing.newest_first at 1.
    destruct (Z.leb_spec (createdAt y) (createdAt x)) as [Hle|Hlt].
    + constructor; [now constructor|].
      constructor; [exact Hle|].
      eapply Forall_impl; [|exact Hy]. unfold not_older. intros; lia.
    + constructor; [auto|].
      assert (Hperm := insert_perm Listing.newest_first x r).
      apply Forall_forall. intros z Hz.
      apply (Permutation_in _ Hperm) in Hz as [<-|Hz].
      * unfold not_older. lia.
      * rewrite Forall_forall in Hy. auto.
Qed.

Lemma sort_by_newest_first (l : list CommentDoc) :
  StronglySorted not_older (Aggregate.sort_by Listing.newest_first l).
Proof.
  induction l as [|x r IH]; simpl; [constructor|now apply insert_newest_first].
Qed.

Lemma StronglySorted_skipn {A} (R : A -> A -> Prop) (n : nat) (l : list A) :
  StronglySorted R l -> StronglySorted R (skipn n l).
Proof.
  revert l. induction n as [|n IH]; intros [|x l] H; simpl; auto.
  apply IH. now apply StronglySorted_inv in H.
Qed.

Lemma StronglySorted_firstn {A} (R : A -> A -> Prop) (n : nat) (l : list A) :
  StronglySorted R l -> StronglySorted R (firstn n l).
Proof.
  revert l. induction n as [|n IH]; intros [|x l] H; simpl; try constructor.
  - apply IH. now apply StronglySorted_inv in H.
  - apply StronglySorted_inv in H as [_ H]. rewrite Forall_forall in *.
    intros y Hy. apply H. rewrite <- (firstn_skipn n l). apply in_or_app. now left.
Qed.

Lemma selected_id (i : ObjectId) (cs : list CommentDoc) :
  filter (Listing.selected (VId i)) cs = filter (fun c => (video c =? i)%nat) cs.
Proof. apply filter_ext. intros c. reflexivity. Qed.

(** X5. Whenever [getVideoComments] answers, the store is untouched, the
    page holds at most [limit] documents, and [totalDocs] is the number
    of stored comments whose video equals the [videoId] of the request as
    it came: with an identifier the number of comments of the video
    found, and with a string, which [Video.findById] casts and the
    [$match] stage does not, 0, the page being empty. *)
Theorem listing_counts_what_the_match_selects :
  forall (env : Env) (w w' : World) (req : Request) (r : Response),
    CommentController.getVideoComments env req w = (w', inr r) ->
    exists v pg lim docs n msg,
      find (has_id video_id (Js.prop (params req) "videoId")) (videos w) = Some v
      /\ sent r = Some (ApiResponse.new 200
                          (VDoc [("docs", VArr docs);
                                 ("totalDocs", VNum (Z.of_nat n));
                                 ("limit", VNum (Z.of_nat lim));
                                 ("page", VNum (Z.of_nat pg))]) msg)
      /\ n = List.length (filter (Listing.selected (Js.prop (params req) "videoId"))
                                 (comments w))
      /\ (forall i, Js.prop (params req) "videoId" = VId i ->
            n = List.length (comments_on w v))
      /\ (forall s, Js.prop (params req) "videoId" = VStr s -> n = 0%nat /\ docs = [])
      /\ (List.length docs <= lim)%nat
      /\ w' = w.
Proof.
  intros env w w' req r H.
  apply getVideoComments_answer in H as (v & pg & lim & Hv & _ & -> & ->).
  exists v, pg, lim. eexists _, _, _. split; [exact Hv|]. split; [|split; [|split; [|split]]].
  - simpl. unfold Listing.page, Listing.listing.
    rewrite length_map, length_sort_by. reflexivity.
  - reflexivity.
  - intros i Hi. pose proof (find_as_id _ _ _ _ Hv) as Hid.
    rewrite Hi in Hid |- *. injection Hid as ->. now rewrite selected_id.
  - intros s ->. rewrite selected_by_string. split; [reflexivity|].
    unfold Comment.page_of. simpl. now rewrite skipn_nil, firstn_nil.
  - split; [apply firstn_le_length|reflexivity].
Qed.

(** The two comments of video 100 are not counted when the video is
    named by its route parameter. *)
Lemma listing_counts_what_the_match_selects_witness :
  List.length (comments_on Sample.world (mkVideo 100)) = 2%nat
  /\ exists v pg lim docs n msg,
      find (has_id video_id (VStr "000000000000000000000064")) (videos Sample.world) = Some v
      /\ Some (ApiResponse.new 200 (empty_page 1 10) "Comments fetched successfully")
         = Some (ApiResponse.new 200
                   (VDoc [("docs", VArr docs);
                          ("totalDocs", VNum (Z.of_nat n));
                          ("limit", VNum (Z.of_nat lim));
                          ("page", VNum (Z.of_nat pg))]) msg)
      /\ n = 0%nat /\ docs = [].
Proof.
  split; [reflexivity|].
  destruct (listing_counts_what_the_match_selects
              (Sample.env Sample.Like_unbound Sample.jwt_unbound) Sample.world Sample.world
              (Sample.request [("videoId", VStr "000000000000000000000064")] []
                              (Some Sample.alice))
              (mkResponse 200 []
                 (Some (ApiResponse.new 200 (empty_page 1 10)
                                        "Comments fetched successfully")))
              eq_refl)
    as (v & pg & lim & docs & n & msg & Hv & Hsent & _ & _ & Hstr & _).
  exists v, pg, lim, docs, n, msg. split; [exact Hv|]. split; [exact Hsent|].
  exact (Hstr _ eq_refl).
Defined.

(** X6. The page that [getVideoComments] returns shows comments of the
    requested video only, each stored comment at most as often as it is
    stored, in order of creation time, newest first. *)
Theorem listing_is_newest_first :
  forall (env : Env) (w w' : World) (req : Request) (r : Response),
    CommentController.getVideoComments env req w = (w', inr r) ->
    exists v cs,
      find (has_id video_id (Js.prop (params req) "videoId")) (videos w) = Some v
      /\ option_map (fun b => Aggregate.get "docs" (ApiResponse.data b)) (sent r)
         = Some (Some (VArr (map (Listing.comment_view w (user__id req)) cs)))
      /\ StronglySorted not_older cs
      /\ Forall (fun c => video c = video_id v /\ In c (comments w)) cs.
Proof.
  intros env w w' req r H.
  apply getVideoComments_answer in H as (v & pg & lim & Hv & _ & -> & ->).
  exists v, (firstn lim (skipn ((pg - 1) * lim)
               (Aggregate.sort_by Listing.newest_first
                  (filter (Listing.selected (Js.prop (params req) "videoId"))
                          (comments w))))).
  split; [exact Hv|]. split; [|split].
  - simpl. unfold Listing.listing, Comment.page_of. now rewrite page_of_map.
  - apply StronglySorted_firstn, StronglySorted_skipn, sort_by_newest_first.
  - apply Forall_forall. intros c Hc. apply In_page_of in Hc.
    apply (Permutation_in _ (sort_by_perm _ _)) in Hc.
    apply filter_In in Hc as [Hin Hvid]. split; [|exact Hin].
    exact (selected_by_id _ _ _ (find_as_id _ _ _ _ Hv) Hvid).
Qed.

Lemma listing_is_newest_first_witness :
  exists v cs,
    find (has_id video_id (VId 100)) (videos Sample.world) = Some v
    /\ Some (Aggregate.get "docs" (Listing.page Sample.world (VId 100) (VId 1) 1 10))
       = Some (Some (VArr (map (Listing.comment_view Sample.world (VId 1)) cs)))
    /\ StronglySorted not_older cs
    /\ Forall (fun c => video c = video_id v /\ In c (comments Sample.world)) cs.
Proof.
  exact (listing_is_newest_first
           (Sample.env Sample.Like_unbound Sample.jwt_unbound) Sample.world Sample.world
           (Sample.request [("videoId", VId 100)] [] (Some Sample.alice))
           (mkResponse 200 []
              (Some (ApiResponse.new 200 (Listing.page Sample.world (VId 100) (VId 1) 1 10)
                                     "Comments fetched successfully")))
           eq_refl).
Defined.

Lemma docs_of_answer (env : Env) (w w' : World) (req : Request) (r : Response) (d : Value) :
  CommentController.getVideoComments env req w = (w', inr r) ->
  In d (docs_of r) ->
  exists c, In c (comments w) /\ d = Listing.comment_view w (user__id req) c.
Proof.
  intros H Hd.
  apply getVideoComments_answer in H as (v & pg & lim & Hv & _ & -> & ->).
  unfold docs_of in Hd. simpl in Hd. apply In_page_of in Hd.
  unfold Listing.listing in Hd. apply in_map_iff in Hd as (c & <- & Hc).
  apply (Permutation_in _ (sort_by_perm _ _)) in Hc. apply filter_In in Hc as [Hc _].
  now exists c.
Qed.

(** X7. To a request without an authenticated user [getVideoComments]
    reports [isLiked: false] on every comment, whatever likes are
    stored. *)
Theorem anonymous_listing_is_never_liked :
  forall (env : Env) (w w' : World) (req : Request) (r : Response),
    user req = None ->
    CommentController.getVideoComments env req w = (w', inr r) ->
    Forall (fun d => Aggregate.get "isLiked" d = Some (VBool false)) (docs_of r).
Proof.
  intros env w w' req r Hu H. apply Forall_forall. intros d Hd.
  destruct (docs_of_answer _ _ _ _ _ _ H Hd) as (c & _ & ->).
  unfold user__id. rewrite Hu. unfold Listing.comment_view.
  now destruct (hd_error _).
Qed.

Lemma anonymous_listing_is_never_liked_witness :
  Forall (fun d => Aggregate.get "isLiked" d = Some (VBool false))
         [Listing.comment_view Sample.world VUndefined Sample.c2;
          Listing.comment_view Sample.world VUndefined Sample.c1].
Proof.
  exact (anonymous_listing_is_never_liked
           (Sample.env Sample.Like_unbound Sample.jwt_unbound) Sample.world Sample.world
           (Sample.request [("videoId", VId 100)] [] None)
           (mkResponse 200 []
              (Some (ApiResponse.new 200 (Listing.page Sample.world (VId 100) VUndefined 1 10)
                                     "Comments fetched successfully")))
           eq_refl eq_refl).
Defined.

(** X8. The owner that [getVideoComments] shows with a comment is a
    document with no key other than [username], [fullName] and [avatar]:
    the email address, the password and the refresh token of the owner
    never leave the store through the listing. *)
Theorem listing_shows_three_owner_fields :
  forall (env : Env) (w w' : World) (req : Request) (r : Response) (d o : Value),
    CommentController.getVideoComments env req w = (w', inr r) ->
    In d (docs_of r) ->
    Aggregate.get "owner" d = Some o ->
    exists fs,
      o = VDoc fs
      /\ Forall (fun k => k = "username" \/ k = "fullName" \/ k = "avatar") (map fst fs).
Proof.
  intros env w w' req r d o H Hd Ho.
  destruct (docs_of_answer _ _ _ _ _ _ H Hd) as (c & _ & ->).
  unfold Listing.comment_view in Ho.
  destruct (hd_error _) as [u|]; simpl in Ho; [|discriminate].
  injection Ho as <-. unfold Listing.owner_view. eexists. split; [reflexivity|].
  destruct (Aggregate.keep _ _); simpl; repeat (constructor; [tauto|]); constructor.
Qed.

Lemma listing_shows_three_owner_fields_witness :
  exists fs,
    VDoc [("username", VStr "bob"); ("fullName", VStr "Bob")] = VDoc fs
    /\ Forall (fun k => k = "username" \/ k = "fullName" \/ k = "avatar") (map fst fs).
Proof.
  refine (listing_shows_three_owner_fields
            (Sample.env Sample.Like_unbound Sample.jwt_unbound) Sample.world Sample.world
            (Sample.request [("videoId", VId 100)] [] (Some Sample.alice))
            (mkResponse 200 []
               (Some (ApiResponse.new 200 (Listing.page Sample.world (VId 100) (VId 1) 1 10)
                                      "Comments fetched successfully")))
            (Listing.comment_view Sample.world (VId 1) Sample.c2) _
            eq_refl _ eq_refl).
  left. reflexivity.
Defined.

(** The [totalDocs] of a page. *)
Lemma totalDocs_of_answer (env : Env) (w w' : World) (req : Request) (r : Response) :
  CommentController.getVideoComments env req w = (w', inr r) ->
  option_map (fun b => Aggregate.get "totalDocs" (ApiResponse.data b)) (sent r)
  = Some (Some (VNum (Z.of_nat
       (List.length (filter (Listing.selected (Js.prop (params req) "videoId"))
                            (comments w))))))
  /\ (forall s, Js.prop (params req) "videoId" = VStr s -> docs_of r = []).
Proof.
  intros H. apply getVideoComments_answer in H as (v & pg & lim & _ & _ & -> & ->).
  split.
  - simpl. unfold Listing.listing. now rewrite length_map, length_sort_by.
  - intros s ->. unfold docs_of. simpl. unfold Listing.listing, Comment.page_of.
    rewrite selected_by_string. simpl. now rewrite skipn_nil, firstn_nil.
Qed.

(** X9. A comment that [addComment] stored through the route parameter
    of a video is stored on that video, and the next listing through the
    same parameter does not count it: the parameter is a string, the page
    is empty and [totalDocs] is 0.  Were the video named by an
    identifier, [totalDocs] would be one more than the number of
    comments the video had. *)
Theorem add_then_list_through_the_route_parameter :
  forall (env : Env) (w w1 w2 : World) (req req' : Request) (r1 r2 : Response),
    CommentController.addComment env req w = (w1, inr r1) ->
    Js.prop (params req') "videoId" = Js.prop (params req) "videoId" ->
    CommentController.getVideoComments env req' w1 = (w2, inr r2) ->
    exists v c,
      find (has_id video_id (Js.prop (params req) "videoId")) (videos w) = Some v
      /\ comments w1 = (comments w ++ [c])%list
      /\ video c = video_id v
      /\ (forall s, Js.prop (params req) "videoId" = VStr s ->
            option_map (fun b => Aggregate.get "totalDocs" (ApiResponse.data b)) (sent r2)
            = Some (Some (VNum 0))
            /\ docs_of r2 = [])
      /\ (forall i, Js.prop (params req) "videoId" = VId i ->
            option_map (fun b => Aggregate.get "totalDocs" (ApiResponse.data b)) (sent r2)
            = Some (Some (VNum (Z.of_nat (S (List.length (comments_on w v))))))).
Proof.
  intros env w w1 w2 req req' r1 r2 Hadd Hparam Hlist.
  unfold CommentController.addComment in Hadd.
  destruct (negb _); [discriminate|]. revert Hadd. run_more.
  destruct (find _ (videos w)) as [v|] eqn:Hv; [|discriminate].
  pose proof (find_as_id _ _ _ _ Hv) as Hid.
  rewrite Hid. simpl. intros [= <- _].
  apply totalDocs_of_answer in Hlist as [Htotal Hdocs]. rewrite Hparam in Htotal, Hdocs.
  eexists v, _. split; [reflexivity|]. split; [reflexivity|]. split; [reflexivity|].
  split.
  - intros s Hs. split; [|exact (Hdocs s Hs)].
    rewrite Htotal, Hs. now rewrite selected_by_string.
  - intros i Hi. rewrite Htotal, Hi. rewrite Hi in Hid. injection Hid as ->.
    rewrite selected_id. simpl. rewrite filter_app, length_app. simpl.
    rewrite Nat.eqb_refl. simpl. unfold comments_on. do 3 f_equal. lia.
Qed.

(** Bob comments on video 101 through its route parameter and lists its
    comments through the same parameter: the video now has two comments,
    the page none. *)
Lemma add_then_list_through_the_route_parameter_witness :
  let env := Sample.env Sample.Like_unbound Sample.jwt_unbound in
  let req := Sample.request [("videoId", VStr "000000000000000000000065")]
                            [("content", VStr "hello")] (Some Sample.bob) in
  let out1 := CommentController.addComment env req Sample.world in
  let req' := Sample.request [("videoId", VStr "000000000000000000000065")] [] None in
  let out2 := CommentController.getVideoComments env req' (fst out1) in
  List.length (comments_on (fst out1) (mkVideo 101)) = 2%nat
  /\ option_map (fun b => Aggregate.get "totalDocs" (ApiResponse.data b))
                (sent (answer_of out2))
     = Some (Some (VNum 0))
  /\ docs_of (answer_of out2) = [].
Proof.
  intros env req out1 req' out2. split; [reflexivity|].
  destruct (add_then_list_through_the_route_parameter env Sample.world (fst out1) (fst out2)
              req req' (answer_of out1) (answer_of out2) eq_refl eq_refl eq_refl)
    as (v & c & _ & _ & _ & Hstr & _).
  exact (Hstr _ eq_refl).
Defined.

(** ** Sessions: login, refresh, logout *)



(** X11. When [loginUser] answers, the refresh token it sends, as a
    cookie and in the body, is the token now stored for the user, and
    the user document in the body has neither [password] nor
    [refreshToken]. *)
Theorem loginUser_sends_the_stored_token :
  forall (env : Env) (w w' : World) (req : Request) (r : Response),
    UserController.loginUser env req w = (w', inr r) ->
    exists u t body_user,
      In u (users w)
      /\ cookie_ops r
         = [SetCookie "accessToken" (VStr (generateAccessToken env u)) (mkOptions true true);
            SetCookie "refreshToken" (VStr t) (mkOptions true true)]
      /\ option_map refreshToken (find (has_id user_id (VId (user_id u))) (users w'))
         = Some (VStr t)
      /\ option_map ApiResponse.data (sent r)
         = Some (VDoc [("user", body_user);
                       ("accessToken", VStr (generateAccessToken env u));
                       ("refreshToken", VStr t)])
      /\ Aggregate.get "password" body_user = None
      /\ Aggregate.get "refreshToken" body_user = None.
Proof.
  intros env w w' req r. unfold UserController.loginUser.
  destruct (negb _); [discriminate|]. run_more.
  destruct (find _ (users w)) as [u|] eqn:Hu; [|discriminate].
  destruct (isPasswordCorrect env u _); [|discriminate].
  destruct (generateAccessAndRefreshTokens_cases env (VId (user_id u)) w)
    as [(u1 & Hu1 & ->) | (_ & ->)]; [|discriminate].
  pose proof (find_as_id _ _ _ _ Hu1) as Hid. simpl in Hid. injection Hid as Hid.
  assert (Hnew : find (has_id user_id (VId (user_id u)))
                   (update_first (has_id user_id (VId (user_id u1)))
                      (fun _ => User.set_refreshToken (VStr (generateRefreshToken env u1)) u1)
                      (users w))
                 = Some (User.set_refreshToken (VStr (generateRefreshToken env u1)) u1)).
  { rewrite Hid in *.
    apply (find_update_first _ (fun _ => User.set_refreshToken
                                          (VStr (generateRefreshToken env u1)) u1) _ _ Hu1).
    rewrite has_id_VId. simpl. apply Nat.eqb_refl. }
  simpl. rewrite Hnew. intros [= <- <-]. simpl.
  exists u1, (generateRefreshToken env u1). eexists.
  split; [now apply find_some in Hu1|].
  split; [reflexivity|]. rewrite Hid in Hnew. rewrite Hnew.
  repeat split.
Qed.

Lemma loginUser_sends_the_stored_token_witness :
  exists u t body_user,
    In u (users Sample.world)
    /\ [SetCookie "accessToken" (VStr "access-alice") (mkOptions true true);
        SetCookie "refreshToken" (VStr "refresh-alice") (mkOptions true true)]
       = [SetCookie "accessToken" (VStr (generateAccessToken
                                           (Sample.env Sample.Like_unbound Sample.jwt_unbound) u))
                    (mkOptions true true);
          SetCookie "refreshToken" (VStr t) (mkOptions true true)]
    /\ option_map refreshToken
         (find (has_id user_id (VId (user_id u)))
               [User.set_refreshToken (VStr "refresh-alice") Sample.alice; Sample.bob])
       = Some (VStr t)
    /\ Some (VDoc [("user", user_public_value Sample.alice);
                   ("accessToken", VStr "access-alice");
                   ("refreshToken", VStr "refresh-alice")])
       = Some (VDoc [("user", body_user);
                     ("accessToken", VStr (generateAccessToken
                                            (Sample.env Sample.Like_unbound Sample.jwt_unbound) u));
                     ("refreshToken", VStr t)])
    /\ Aggregate.get "password" body_user = None
    /\ Aggregate.get "refreshToken" body_user = None.
Proof.
  pose (env := Sample.env Sample.Like_unbound Sample.jwt_unbound).
  pose (req := Sample.request [] [("username", VStr "alice"); ("password", VStr "pw-a")] None).
  pose (out := UserController.loginUser env req Sample.world).
  exact (loginUser_sends_the_stored_token env Sample.world (fst out) req (answer_of out)
           eq_refl).
Defined.

Lemma refused_refresh_unchanged (env : Env) (w w' : World) (req : Request) (e : Exn) :
  UserController.refreshAccessToken env req w = (w', inl e) ->
  w' = w /\ exists msg, e = ApiError 401 msg.
Proof.
  unfold UserController.refreshAccessToken.
  destruct (negb _); [intros [= <- <-]; eauto|]. run_more.
  destruct (jwt_verify env _) as [x|d]; [intros [= <- <-]; eauto|].
  destruct (find _ (users w)) as [u|]; [|intros [= <- <-]; eauto].
  destruct (Js.loose_neq _ _); [intros [= <- <-]; eauto|].
  destruct (generateAccessAndRefreshTokens_cases env (VId (user_id u)) w)
    as [(u' & _ & ->) | (_ & ->)]; [discriminate|intros [= <- <-]; eauto].
Qed.

(** X12. A refused token refresh is always a 401 and changes nothing in
    the store. *)
Theorem refused_refresh_changes_nothing :
  forall (env : Env) (w w' : World) (req : Request) (e : Exn),
    UserController.refreshAccessToken env req w = (w', inl e) ->
    w' = w /\ exists msg, e = ApiError 401 msg.
Proof. intros env w w' req e. apply refused_refresh_unchanged. Qed.

Lemma refused_refresh_changes_nothing_witness :
  Sample.world = Sample.world
  /\ exists msg, ApiError 401 "Refresh token is expired or used" = ApiError 401 msg.
Proof.
  exact (refused_refresh_changes_nothing
           (Sample.env Sample.Like_unbound Sample.jwt_bound) Sample.world Sample.world
           (mkRequest [] [] [] [("refreshToken", VStr "refresh-alice")] None None)
           (ApiError 401 "Refresh token is expired or used") eq_refl).
Defined.

(** X13. Logout does not revoke the refresh token: [logoutUser] for an
    authenticated user answers 200 and leaves the store as it was, so a
    token refresh that would have been answered before the logout is
    answered in the same way after it. *)
Theorem logout_does_not_revoke_the_refresh_token :
  forall (env : Env) (w w2 : World) (out req : Request) (u : UserDoc) (r2 : Response),
    user out = Some u ->
    UserController.refreshAccessToken env req w = (w2, inr r2) ->
    exists w1,
      UserController.logoutUser out w = (w1, inr logout_response)
      /\ users w1 = users w
      /\ UserController.refreshAccessToken env req w1 = (w2, inr r2).
Proof.
  intros env w w2 out req u r2 Hu Hr. exists w.
  split; [|split; [reflexivity|exact Hr]].
  unfold UserController.logoutUser. rewrite Hu. reflexivity.
Qed.

(** Alice logs out, and the refresh token she held is then accepted. *)
Lemma logout_does_not_revoke_the_refresh_token_witness :
  let env := Sample.env Sample.Like_unbound Sample.jwt_bound in
  let before := UserController.refreshAccessToken env alice_refresh Sample.world in
  status_code (answer_of before) = 200
  /\ exists w1,
      UserController.logoutUser (Sample.request [] [] (Some Sample.alice)) Sample.world
      = (w1, inr logout_response)
      /\ users w1 = users Sample.world
      /\ UserController.refreshAccessToken env alice_refresh w1
         = (fst before, inr (answer_of before)).
Proof.
  intros env before. split; [reflexivity|].
  exact (logout_does_not_revoke_the_refresh_token env Sample.world (fst before)
           (Sample.request [] [] (Some Sample.alice)) alice_refresh Sample.alice
           (answer_of before) eq_refl eq_refl).
Defined.

(** X14. Refresh tokens are single-use: after a token refresh that was
    answered, the same request is refused with a 401, as soon as the
    token generated for the user differs from the one presented. *)
Theorem refresh_token_is_single_use :
  forall (env : Env) (w w' : World) (req : Request) (r : Response),
    UserController.refreshAccessToken env req w = (w', inr r) ->
    (forall u, In u (users w) ->
               Js.loose_neq (incoming req) (VStr (generateRefreshToken env u)) = true) ->
    exists msg,
      UserController.refreshAccessToken env req w' = (w', inl (ApiError 401 msg)).
Proof.
  intros env w w' req r Hok Hnew.
  assert (Hfail : exists e, snd (UserController.refreshAccessToken env req w') = inl e).
  { revert Hok. unfold UserController.refreshAccessToken. fold (incoming req).
    destruct (negb _); [discriminate|]. run_more.
    destruct (jwt_verify env (incoming req)) as [x|d]; [discriminate|].
    destruct (find _ (users w)) as [u|] eqn:Hu; [|discriminate].
    destruct (Js.loose_neq _ (refreshToken u)); [discriminate|].
    pose proof (find_has_id _ _ _ _ Hu) as Hid.
    destruct (generateAccessAndRefreshTokens_cases env (VId (user_id u)) w)
      as [(u1 & Hu1 & ->) | (_ & ->)]; [|discriminate].
    rewrite Hid in Hu. rewrite Hu in Hu1. injection Hu1 as <-.
    intros [= <- _]. simpl. rewrite Hid.
    rewrite (find_update_first _ (fun _ => User.set_refreshToken
                                             (VStr (generateRefreshToken env u)) u) _ _ Hu)
      by (rewrite has_id_VId; simpl; apply Nat.eqb_refl).
    simpl. rewrite (Hnew u) by (now apply find_some in Hu). simpl. eauto. }
  destruct Hfail as [e He].
  destruct (UserController.refreshAccessToken env req w') as [w2 [e'|r']] eqn:Hr;
    [|discriminate].
  destruct (refused_refresh_unchanged env _ _ _ _ Hr) as [-> [msg ->]].
  now exists msg.
Qed.

Lemma refresh_token_is_single_use_witness :
  exists msg,
    UserController.refreshAccessToken (Sample.env Sample.Like_unbound Sample.jwt_bound)
      alice_refresh
      (fst (UserController.refreshAccessToken
              (Sample.env Sample.Like_unbound Sample.jwt_bound) alice_refresh Sample.world))
    = (fst (UserController.refreshAccessToken
              (Sample.env Sample.Like_unbound Sample.jwt_bound) alice_refresh Sample.world),
       inl (ApiError 401 msg)).
Proof.
  pose (env := Sample.env Sample.Like_unbound Sample.jwt_bound).
  pose (out := UserController.refreshAccessToken env alice_refresh Sample.world).
  refine (refresh_token_is_single_use env Sample.world (fst out) alice_refresh
            (answer_of out) eq_refl _).
  intros u [<-|[<-|[]]]; reflexivity.
Defined.

(** X15. Login and refresh compose: the refresh token that [loginUser]
    sets as a cookie, presented to [refreshAccessToken] on the store the
    login left, passes the comparison with the stored token and is
    answered 200, provided the token library accepts it with a payload
    that names the user (and the user is the first to carry its
    identifier). *)
Theorem login_then_refresh_is_accepted :
  forall (env : Env) (w : World) (req req' : Request) (u : UserDoc) (d : Value),
    Js.truthy (Js.or (Js.prop (body req) "username") (Js.prop (body req) "email")) = true ->
    find_user req w = Some u ->
    isPasswordCorrect env u (Js.prop (body req) "password") = true ->
    find (has_id user_id (VId (user_id u))) (users w) = Some u ->
    incoming req' = VStr (generateRefreshToken env u) ->
    generateRefreshToken env u <> "" ->
    jwt_verify env (incoming req') = inr d ->
    UserController.opt_member d "_id" = VId (user_id u) ->
    exists w1 r1 w2 r2,
      UserController.loginUser env req w = (w1, inr r1)
      /\ In (SetCookie "refreshToken" (incoming req') (mkOptions true true)) (cookie_ops r1)
      /\ UserController.refreshAccessToken env req' w1 = (w2, inr r2)
      /\ status_code r2 = 200.
Proof.
  intros env w req req' u d Ht Hu Hpw Hfirst Hinc Hne Hd Hid.
  set (u' := User.set_refreshToken (VStr (generateRefreshToken env u)) u).
  set (w1 := set_users (update_first (has_id user_id (VId (user_id u))) (fun _ => u')
                                     (users w)) w).
  assert (Hfirst' : find (has_id user_id (VId (user_id u))) (users w1) = Some u').
  { apply (find_update_first _ (fun _ => u') _ _ Hfirst).
    rewrite has_id_VId. simpl. apply Nat.eqb_refl. }
  assert (Hlogin : exists r1,
             UserController.loginUser env req w = (w1, inr r1)
             /\ In (SetCookie "refreshToken" (incoming req') (mkOptions true true))
                   (cookie_ops r1)).
  { unfold UserController.loginUser, find_user in *. rewrite Ht. run_more.
    rewrite Hu, Hpw.
    destruct (generateAccessAndRefreshTokens_cases env (VId (user_id u)) w)
      as [(u1 & Hu1 & ->) | (Hnone & _)]; [|rewrite Hfirst in Hnone; discriminate].
    rewrite Hfirst in Hu1. injection Hu1 as <-. fold u' w1. simpl.
    eexists. split; [reflexivity|]. simpl. rewrite Hinc. tauto. }
  destruct Hlogin as (r1 & Hlogin & Hcookie).
  exists w1, r1. 
  unfold UserController.refreshAccessToken. fold (incoming req').
  assert (Htruthy : Js.truthy (incoming req') = true).
  { rewrite Hinc. simpl. destruct (String.eqb_spec (generateRefreshToken env u) "");
      [contradiction|reflexivity]. }
  rewrite Htruthy. run_more. rewrite Hd, Hid, Hfirst'.
  assert (Hsame : Js.loose_neq (incoming req') (refreshToken u') = false).
  { rewrite Hinc. simpl. now rewrite String.eqb_refl. }
  rewrite Hsame.
  destruct (generateAccessAndRefreshTokens_cases env (VId (user_id u')) w1)
    as [(u1 & Hu1 & ->) | (Hnone & _)];
    [|exfalso; change (find (has_id user_id (VId (user_id u))) (users w1) = None) in Hnone;
      rewrite Hfirst' in Hnone; discriminate].
  eexists _, _. split; [exact Hlogin|]. split; [exact Hcookie|]. split; reflexivity.
Qed.

Lemma login_then_refresh_is_accepted_witness :
  exists w1 r1 w2 r2,
    UserController.loginUser (Sample.env Sample.Like_unbound Sample.jwt_bound)
      (Sample.request [] [("username", VStr "alice"); ("password", VStr "pw-a")] None)
      Sample.world = (w1, inr r1)
    /\ In (SetCookie "refreshToken" (VStr "refresh-alice") (mkOptions true true))
          (cookie_ops r1)
    /\ UserController.refreshAccessToken (Sample.env Sample.Like_unbound Sample.jwt_bound)
         (mkRequest [] [] [] [("refreshToken", VStr "refresh-alice")] None None) w1
       = (w2, inr r2)
    /\ status_code r2 = 200.
Proof.
  refine (login_then_refresh_is_accepted
            (Sample.env Sample.Like_unbound Sample.jwt_bound) Sample.world
            (Sample.request [] [("username", VStr "alice"); ("password", VStr "pw-a")] None)
            (mkRequest [] [] [] [("refreshToken", VStr "refresh-alice")] None None)
            Sample.alice (VDoc [("_id", VId 1)])
            eq_refl eq_refl eq_refl eq_refl eq_refl _ eq_refl eq_refl).
  discriminate.
Defined.

(** ** Registration, again *)

Lemma find_snoc_fresh {A} (key : A -> ObjectId) (l : list A) (x : A) :
  key x = fresh_id (map key l) ->
  find (has_id key (VId (key x))) (l ++ [x]) = Some x.
Proof.
  intros Hx. rewrite Hx at 1.
  rewrite (find_app_none _ _ _ (find_fresh_none key l)).
  cbn [find]. now rewrite has_id_VId, Hx, Nat.eqb_refl.
Qed.

(** What [registerUser] does once the field and conflict checks are
    passed and both file paths are read. *)
Lemma registerUser_after_checks (env : Env) (w : World) (req : Request)
  (pa pc : Value) :
  UserController.some_blank (register_fields req) = inr false ->
  find_user req w = None ->
  UserController.first_file_path req "avatar" = inr pa ->
  UserController.first_file_path req "coverImage" = inr pc ->
  Js.truthy pa = true ->
  Js.truthy (uploadOnCloudinary env pa) = true ->
  UserController.registerUser env req w
  = let w1 := set_uploaded (uploaded w ++ [pa; pc]) w in
    match UserController.toLowerCase (Js.prop (body req) "username") with
    | inl e => (w1, inl e)
    | inr name =>
        let u := mkUser (fresh_id (map user_id (users w))) name
                        (Js.prop (body req) "email") (Js.prop (body req) "fullName")
                        (Js.prop (body req) "password")
                        (Js.destructure (uploadOnCloudinary env pa) "url")
                        (Js.or (UserController.opt_member (uploadOnCloudinary env pc) "url")
                               (VStr ""))
                        VUndefined in
        (set_users (users w ++ [u]) w1,
         inr (mkResponse 201 []
                (Some (ApiResponse.new 200 (user_public_value u)
                                       "User Registered Successfully"))))
    end.
Proof.
  intros Hb Hf Ha Hc Hpa Hav.
  unfold UserController.registerUser, register_fields, find_user in *. run_more.
  rewrite Hb, Hf, Ha, Hc, Hpa, Hav.
  assert (Hm : UserController.member (uploadOnCloudinary env pa) "url"
               = inr (Js.destructure (uploadOnCloudinary env pa) "url")).
  { unfold UserController.member. now destruct (uploadOnCloudinary env pa). }
  rewrite Hm. cbv zeta.
  destruct (UserController.toLowerCase _) as [e|name].
  - destruct w. unfold set_uploaded. simpl. now rewrite <- app_assoc.
  - simpl.
    match goal with
    | |- context [find ?p (users w ++ [?u])] =>
        replace (find p (users w ++ [u])) with (Some u)
          by (symmetry; exact (find_snoc_fresh user_id (users w) u eq_refl))
    end.
    destruct w. unfold set_uploaded, set_users. simpl. now rewrite <- app_assoc.
Qed.

(** X16. Whenever [registerUser] answers, it has stored exactly one new
    user, under an identifier that no stored user carries, with the
    email address, the full name and the password of the request, the
    [url] of the uploaded avatar and no refresh token; its user name is
    that of the request, which is a string, lower-cased (for a name in
    ASCII: the letters A to Z lowered); the two files handed to the image
    host are the first [avatar] file and the first [coverImage] file of
    the request, in this order; and the answer has HTTP status 201 around
    an envelope that says 200 and shows neither password nor refresh
    token. *)
Theorem registerUser_stores_one_fresh_user :
  forall (env : Env) (w w' : World) (req : Request) (r : Response),
    UserController.registerUser env req w = (w', inr r) ->
    exists u name pa pc,
      users w' = (users w ++ [u])%list
      /\ ~ In (user_id u) (map user_id (users w))
      /\ Js.prop (body req) "username" = VStr name
      /\ (Js.is_ascii name = true -> username u = Js.toLowerCase name)
      /\ email u = Js.prop (body req) "email"
      /\ fullName u = Js.prop (body req) "fullName"
      /\ password u = Js.prop (body req) "password"
      /\ refreshToken u = VUndefined
      /\ UserController.first_file_path req "avatar" = inr pa
      /\ UserController.first_file_path req "coverImage" = inr pc
      /\ Js.truthy pa = true
      /\ avatar u = Js.destructure (uploadOnCloudinary env pa) "url"
      /\ uploaded w' = (uploaded w ++ [pa; pc])%list
      /\ r = mkResponse 201 []
               (Some (ApiResponse.new 200 (user_public_value u)
                                      "User Registered Successfully"))
      /\ Aggregate.get "password" (user_public_value u) = None
      /\ Aggregate.get "refreshToken" (user_public_value u) = None.
Proof.
  intros env w w' req r H.
  rewrite registerUser_validation in H.
  destruct (UserController.some_blank _) as [e|[|]] eqn:Hb; try discriminate.
  destruct (find _ (users w)) as [x|] eqn:Hf; [discriminate|].
  destruct (UserController.first_file_path req "avatar") as [e|pa] eqn:Ha.
  { revert H. unfold UserController.registerUser, register_fields in *. run_more.
    rewrite Hb, Hf, Ha. discriminate. }
  destruct (UserController.first_file_path req "coverImage") as [e|pc] eqn:Hc.
  { revert H. unfold UserController.registerUser, register_fields in *. run_more.
    rewrite Hb, Hf, Ha, Hc. discriminate. }
  destruct (Js.truthy pa) eqn:Hpa.
  2:{ revert H. unfold UserController.registerUser, register_fields in *. run_more.
      rewrite Hb, Hf, Ha, Hc, Hpa. discriminate. }
  destruct (Js.truthy (uploadOnCloudinary env pa)) eqn:Hav.
  2:{ revert H. unfold UserController.registerUser, register_fields in *. run_more.
      rewrite Hb, Hf, Ha, Hc, Hpa, Hav. discriminate. }
  rewrite (registerUser_after_checks env w req pa pc Hb Hf Ha Hc Hpa Hav) in H.
  cbv zeta in H.
  destruct (Js.prop (body req) "username") as [| | | |name| | |] eqn:Hn; try discriminate.
  simpl in H. injection H as <- <-.
  eexists _, name, pa, pc. simpl.
  split; [reflexivity|]. split; [apply fresh_id_fresh|]. repeat split; assumption.
Qed.

Lemma registerUser_stores_one_fresh_user_witness :
  let env := Sample.env Sample.Like_unbound Sample.jwt_unbound in
  let req := newcomer (Some [("avatar", [mkFile "a.png"]); ("coverImage", [mkFile "c.png"])]) in
  let out := UserController.registerUser env req Sample.world in
  exists u,
    users (fst out) = (users Sample.world ++ [u])%list
    /\ username u = "carol"
    /\ avatar u = Js.destructure (uploadOnCloudinary env (VStr "a.png")) "url"
    /\ uploaded (fst out) = [VStr "a.png"; VStr "c.png"].
Proof.
  intros env req out.
  destruct (registerUser_stores_one_fresh_user env Sample.world (fst out) req (answer_of out)
              eq_refl)
    as (u & name & pa & pc & Hus & _ & Hname & Hlow & _ & _ & _ & _ & Ha & Hc & _ & Hav
        & Hup & _).
  injection Hname as <-. injection Ha as <-. injection Hc as <-.
  exists u. split; [exact Hus|]. split; [exact (Hlow eq_refl)|]. split; [exact Hav|exact Hup].
Defined.

Lemma registerUser_users (env : Env) (w : World) (req : Request) :
  users (fst (UserController.registerUser env req w)) = users w
  \/ exists u,
       users (fst (UserController.registerUser env req w)) = (users w ++ [u])%list
       /\ user_id u = fresh_id (map user_id (users w)).
Proof.
  unfold UserController.registerUser. run_more.
  destruct (UserController.some_blank _) as [?|[|]]; try (left; reflexivity).
  destruct (find _ (users w)); [left; reflexivity|].
  destruct (UserController.first_file_path req "avatar"); [left; reflexivity|].
  destruct (UserController.first_file_path req "coverImage"); [left; reflexivity|].
  destruct (Js.truthy _); [|left; reflexivity]. simpl.
  destruct (Js.truthy _); [|left; reflexivity]. simpl.
  destruct (UserController.member _ _); [left; reflexivity|].
  destruct (UserController.toLowerCase _); [left; reflexivity|].
  simpl. right. destruct (find _ _); simpl; eexists; split; reflexivity.
Qed.

(** [registerUser] keeps the user identifiers distinct, whatever
    the outcome. *)
Theorem registerUser_keeps_ids_distinct :
  forall (env : Env) (w : World) (req : Request),
    NoDup (map user_id (users w)) ->
    NoDup (map user_id (users (fst (UserController.registerUser env req w)))).
Proof.
  intros env w req Hnd.
  destruct (registerUser_users env w req) as [-> | (u & -> & Hu)]; [exact Hnd|].
  now apply NoDup_snoc_fresh.
Qed.

Lemma registerUser_keeps_ids_distinct_witness :
  NoDup (map user_id
           (users (fst (UserController.registerUser
                          (Sample.env Sample.Like_unbound Sample.jwt_unbound)
                          (newcomer (Some [("avatar", [mkFile "a.png"]);
                                           ("coverImage", [mkFile "c.png"])]))
                          Sample.world)))).
Proof.
  refine (registerUser_keeps_ids_distinct
            (Sample.env Sample.Like_unbound Sample.jwt_unbound) Sample.world
            (newcomer (Some [("avatar", [mkFile "a.png"]); ("coverImage", [mkFile "c.png"])]))
            _).
  simpl. repeat constructor; simpl; intuition discriminate.
Defined.

Lemma some_blank_skips_undefined (l1 l2 : list Value) :
  UserController.some_blank (l1 ++ VUndefined :: l2) = UserController.some_blank (l1 ++ l2).
Proof.
  induction l1 as [|x r IH]; simpl; [reflexivity|].
  destruct x; try reflexivity; try exact IH.
  destruct (Js.trim s =? ""); [reflexivity|exact IH].
Qed.

(** X17. A registration request without a [username] field is not
    stopped by the blank-field check (which only refuses fields that are
    present and blank): with the other fields filled, no conflict, both
    files present and the avatar uploaded, both files are uploaded and
    only then the handler throws a [TypeError], storing no user. *)
Theorem registration_without_username_uploads_then_throws :
  forall (env : Env) (w : World) (req : Request) (pa pc : Value),
    Js.prop (body req) "username" = VUndefined ->
    UserController.some_blank [Js.prop (body req) "fullName"; Js.prop (body req) "email";
                               Js.prop (body req) "password"] = inr false ->
    find_user req w = None ->
    UserController.first_file_path req "avatar" = inr pa ->
    UserController.first_file_path req "coverImage" = inr pc ->
    Js.truthy pa = true ->
    Js.truthy (uploadOnCloudinary env pa) = true ->
    UserController.registerUser env req w
    = (set_uploaded (uploaded w ++ [pa; pc]) w,
       inl (TypeError "Cannot read properties of undefined (reading 'toLowerCase')")).
Proof.
  intros env w req pa pc Hn Hb Hf Ha Hc Hpa Hav.
  rewrite (registerUser_after_checks env w req pa pc); auto.
  - now rewrite Hn.
  - unfold register_fields. rewrite Hn.
    exact (eq_trans (some_blank_skips_undefined
                       [Js.prop (body req) "fullName"; Js.prop (body req) "email"]
                       [Js.prop (body req) "password"]) Hb).
Qed.

Lemma registration_without_username_uploads_then_throws_witness :
  UserController.registerUser (Sample.env Sample.Like_unbound Sample.jwt_unbound)
    (mkRequest [] []
       [("fullName", VStr "Dan"); ("email", VStr "dan@example.org"); ("password", VStr "pw-d")]
       [] None (Some [("avatar", [mkFile "a.png"]); ("coverImage", [mkFile "c.png"])]))
    Sample.world
  = (set_uploaded [VStr "a.png"; VStr "c.png"] Sample.world,
     inl (TypeError "Cannot read properties of undefined (reading 'toLowerCase')")).
Proof.
  exact (registration_without_username_uploads_then_throws
           (Sample.env Sample.Like_unbound Sample.jwt_unbound) Sample.world
           (mkRequest [] []
              [("fullName", VStr "Dan"); ("email", VStr "dan@example.org");
               ("password", VStr "pw-d")]
              [] None (Some [("avatar", [mkFile "a.png"]); ("coverImage", [mkFile "c.png"])]))
           (VStr "a.png") (VStr "c.png")
           eq_refl eq_refl eq_refl eq_refl eq_refl eq_refl eq_refl).
Defined.

Lemma find_none_of_all {A} (p : A -> bool) (l : list A) :
  (forall x, In x l -> p x = false) -> find p l = None.
Proof.
  induction l as [|x r IH]; simpl; [reflexivity|].
  intros H. rewrite (H x (or_introl eq_refl)). apply IH. intros y Hy. apply H. now right.
Qed.

(** X18. The conflict check of [registerUser] compares the user name as
    it is sent, while the name that is stored is lower-cased.  A request
    whose user name, in ASCII, is the name of a stored user but for the
    case of its letters, and is itself the name of no stored user, with
    an email address that no stored user has, passes the conflict check:
    it is not refused with 409, and when its fields and files are in
    order both files are handed to the image host, and a user that the
    request adds to the store carries the name that was taken. *)
Theorem registration_conflict_check_is_case_sensitive :
  forall (env : Env) (w : World) (req : Request) (taken : UserDoc) (name e : string)
         (pa pc : Value),
    In taken (users w) ->
    Js.prop (body req) "username" = VStr name ->
    Js.is_ascii name = true ->
    Js.toLowerCase name = username taken ->
    (forall x, In x (users w) -> username x <> name) ->
    Js.prop (body req) "email" = VStr e ->
    (forall x, In x (users w) -> email x <> VStr e) ->
    UserController.some_blank (register_fields req) = inr false ->
    UserController.first_file_path req "avatar" = inr pa ->
    UserController.first_file_path req "coverImage" = inr pc ->
    Js.truthy pa = true ->
    Js.truthy (uploadOnCloudinary env pa) = true ->
    find_user req w = None
    /\ exists w' out,
        UserController.registerUser env req w = (w', out)
        /\ out <> inl (ApiError 409 "User already exists")
        /\ uploaded w' = (uploaded w ++ [pa; pc])%list
        /\ (forall u, In u (users w') -> In u (users w) \/ username u = username taken).
Proof.
  intros env w req taken name e pa pc Hin Hn Hascii Hlow Hname He Hemail Hb Ha Hc Hpa Hav.
  assert (Hf : find_user req w = None).
  { unfold find_user. apply find_none_of_all. intros x Hx. rewrite Hn, He.
    apply orb_false_intro.
    - unfold query_eq. simpl. apply String.eqb_neq. exact (Hname x Hx).
    - unfold query_eq. specialize (Hemail x Hx).
      destruct (email x); simpl; try reflexivity.
      apply String.eqb_neq. intros ->. now apply Hemail. }
  split; [exact Hf|].
  rewrite (registerUser_after_checks env w req pa pc); auto.
  rewrite Hn. simpl. eexists _, _. split; [reflexivity|]. split; [discriminate|].
  split; [reflexivity|]. simpl. intros u Hu. apply in_app_or in Hu as [Hu|[<-|[]]].
  - now left.
  - right. exact Hlow.
Qed.

(** [Alice] is not [alice]. *)
Lemma registration_conflict_check_is_case_sensitive_witness :
  let env := Sample.env Sample.Like_unbound Sample.jwt_unbound in
  let req := mkRequest [] []
               [("fullName", VStr "Alice II"); ("email", VStr "alice2@example.org");
                ("username", VStr "Alice"); ("password", VStr "pw")]
               [] None (Some [("avatar", [mkFile "a.png"]); ("coverImage", [mkFile "c.png"])]) in
  find_user req Sample.world = None
  /\ exists w' out,
      UserController.registerUser env req Sample.world = (w', out)
      /\ out <> inl (ApiError 409 "User already exists")
      /\ uploaded w' = [VStr "a.png"; VStr "c.png"]
      /\ (forall u, In u (users w') -> In u (users Sample.world) \/ username u = "alice").
Proof.
  intros env req.
  refine (registration_conflict_check_is_case_sensitive env Sample.world req Sample.alice
            "Alice" "alice2@example.org" (VStr "a.png") (VStr "c.png")
            _ eq_refl eq_refl eq_refl _ eq_refl _ eq_refl eq_refl eq_refl eq_refl eq_refl).
  - left. reflexivity.
  - intros x [<-|[<-|[]]]; discriminate.
  - intros x [<-|[<-|[]]]; discriminate.
Defined.

(** ** Profile updates *)

Lemma map_update_first_found {A B} (p : A -> bool) (f : A -> A) (g : A -> B)
  (l : list A) (x : A) :
  find p l = Some x -> g (f x) = g x -> map g (update_first p f l) = map g l.
Proof.
  induction l as [|y r IH]; simpl; [discriminate|].
  destruct (p y).
  - intros [= ->] H. simpl. now rewrite H.
  - intros H1 H2. simpl. now rewrite IH.
Qed.

Lemma update_first_none {A} (p : A -> bool) (f : A -> A) (l : list A) :
  find p l = None -> update_first p f l = l.
Proof.
  induction l as [|y r IH]; simpl; [reflexivity|].
  destruct (p y); [discriminate|]. intros H. now rewrite IH.
Qed.

(** X19. [changeCurrentPassword]: without a stored requester it throws
    a [TypeError], on a wrong old password a 400, and both leave the
    store as it was.  On the right old password it answers 200 and
    stores the new password for the requester, changing no other field
    of any user: in particular the stored refresh tokens stay, so a
    password change ends no session. *)
Theorem changeCurrentPassword_outcomes :
  forall (env : Env) (w : World) (req : Request),
    (find (has_id user_id (user__id req)) (users w) = None ->
     exists msg, UserController.changeCurrentPassword env req w = (w, inl (TypeError msg)))
    /\ (forall u,
          find (has_id user_id (user__id req)) (users w) = Some u ->
          isPasswordCorrect env u (Js.prop (body req) "oldPassword") = false ->
          UserController.changeCurrentPassword env req w
          = (w, inl (ApiError 400 "password is incorrect")))
    /\ (forall u,
          find (has_id user_id (user__id req)) (users w) = Some u ->
          isPasswordCorrect env u (Js.prop (body req) "oldPassword") = true ->
          exists w',
            UserController.changeCurrentPassword env req w
            = (w', inr (mkResponse 200 []
                          (Some (ApiResponse.new 200 (VDoc [])
                                                 "Password changed successfully"))))
            /\ option_map password (find (has_id user_id (user__id req)) (users w'))
               = Some (Js.prop (body req) "newPassword")
            /\ map user_id (users w') = map user_id (users w)
            /\ map username (users w') = map username (users w)
            /\ map email (users w') = map email (users w)
            /\ map refreshToken (users w') = map refreshToken (users w)).
Proof.
  intros env w req. unfold UserController.changeCurrentPassword. run_more.
  split; [|split].
  - intros ->. eauto.
  - intros u -> ->. reflexivity.
  - intros u Hu Hpw. rewrite Hu, Hpw. simpl.
    pose proof (find_has_id _ _ _ _ Hu) as Hid. rewrite Hid in *.
    eexists. split; [reflexivity|]. simpl.
    rewrite (find_update_first _ (fun _ => User.set_password _ u) _ _ Hu)
      by (rewrite has_id_VId; simpl; apply Nat.eqb_refl).
    rewrite !(map_update_first_found _ _ _ _ _ Hu) by reflexivity.
    repeat split.
Qed.

Lemma changeCurrentPassword_outcomes_witness :
  exists w',
    UserController.changeCurrentPassword (Sample.env Sample.Like_unbound Sample.jwt_unbound)
      (Sample.request [] [("oldPassword", VStr "pw-a"); ("newPassword", VStr "pw-new")]
                      (Some Sample.alice)) Sample.world
    = (w', inr (mkResponse 200 []
                  (Some (ApiResponse.new 200 (VDoc []) "Password changed successfully"))))
    /\ option_map password (find (has_id user_id (VId 1)) (users w')) = Some (VStr "pw-new")
    /\ map user_id (users w') = map user_id (users Sample.world)
    /\ map username (users w') = map username (users Sample.world)
    /\ map email (users w') = map email (users Sample.world)
    /\ map refreshToken (users w') = map refreshToken (users Sample.world).
Proof.
  exact (proj2 (proj2 (changeCurrentPassword_outcomes
                         (Sample.env Sample.Like_unbound Sample.jwt_unbound) Sample.world
                         (Sample.request [] [("oldPassword", VStr "pw-a");
                                             ("newPassword", VStr "pw-new")]
                                         (Some Sample.alice))))
               Sample.alice eq_refl eq_refl).
Defined.

(** X20. [updateAccountDetails] refuses with 400, changing nothing, when
    the full name or the email is missing or empty.  Otherwise it always
    answers 200: for a stored requester it stores the two fields and
    leaves identifiers, user names, passwords and refresh tokens as they
    were, and the document it returns has no [password] but does carry
    the stored [refreshToken]; with no stored requester the data is
    [null] and nothing changes. *)
Theorem updateAccountDetails_outcomes :
  forall (w : World) (req : Request),
    (Js.truthy (Js.prop (body req) "fullName") = false
     \/ Js.truthy (Js.prop (body req) "email") = false ->
     UserController.updateAccountDetails req w
     = (w, inl (ApiError 400 "All fields are required")))
    /\ (Js.truthy (Js.prop (body req) "fullName") = true ->
        Js.truthy (Js.prop (body req) "email") = true ->
        (find (has_id user_id (user__id req)) (users w) = None ->
         UserController.updateAccountDetails req w
         = (w, inr (mkResponse 200 []
                      (Some (ApiResponse.new 200 VNull "User updated successfully")))))
        /\ (forall u,
              find (has_id user_id (user__id req)) (users w) = Some u ->
              exists w' data,
                UserController.updateAccountDetails req w
                = (w', inr (mkResponse 200 []
                              (Some (ApiResponse.new 200 data "User updated successfully"))))
                /\ Aggregate.get "fullName" data = Some (Js.prop (body req) "fullName")
                /\ Aggregate.get "email" data = Some (Js.prop (body req) "email")
                /\ Aggregate.get "refreshToken" data = Some (refreshToken u)
                /\ Aggregate.get "password" data = None
                /\ option_map (fun x => (fullName x, email x))
                     (find (has_id user_id (user__id req)) (users w'))
                   = Some (Js.prop (body req) "fullName", Js.prop (body req) "email")
                /\ map user_id (users w') = map user_id (users w)
                /\ map username (users w') = map username (users w)
                /\ map password (users w') = map password (users w)
                /\ map refreshToken (users w') = map refreshToken (users w))).
Proof.
  intros w req. unfold UserController.updateAccountDetails. run_more. split.
  - intros [-> | ->]; [reflexivity|]. now rewrite orb_true_r.
  - intros -> ->. simpl. split.
    + intros Hn. rewrite Hn, (update_first_none _ _ _ Hn). now destruct w.
    + intros u Hu. rewrite Hu. eexists _, _. split; [reflexivity|]. simpl.
      rewrite (find_update_first _ _ _ _ Hu)
        by (exact (proj2 (find_some _ _ Hu))).
      rewrite !(map_update_first_found _ _ _ _ _ Hu) by reflexivity.
      repeat split.
Qed.

Lemma updateAccountDetails_outcomes_witness :
  exists w' data,
    UserController.updateAccountDetails
      (Sample.request [] [("fullName", VStr "Alice A."); ("email", VStr "a@example.org")]
                      (Some Sample.alice)) Sample.world
    = (w', inr (mkResponse 200 []
                  (Some (ApiResponse.new 200 data "User updated successfully"))))
    /\ Aggregate.get "fullName" data = Some (VStr "Alice A.")
    /\ Aggregate.get "email" data = Some (VStr "a@example.org")
    /\ Aggregate.get "refreshToken" data = Some (VStr "old-alice")
    /\ Aggregate.get "password" data = None
    /\ option_map (fun x => (fullName x, email x))
         (find (has_id user_id (VId 1)) (users w'))
       = Some (VStr "Alice A.", VStr "a@example.org")
    /\ map user_id (users w') = map user_id (users Sample.world)
    /\ map username (users w') = map username (users Sample.world)
    /\ map password (users w') = map password (users Sample.world)
    /\ map refreshToken (users w') = map refreshToken (users Sample.world).
Proof.
  exact (proj2 (proj2 (updateAccountDetails_outcomes Sample.world
                         (Sample.request [] [("fullName", VStr "Alice A.");
                                             ("email", VStr "a@example.org")]
                                         (Some Sample.alice)))
                      eq_refl eq_refl)
               Sample.alice eq_refl).
Defined.

(** X21. The two image updates share their outcomes.  Without a file
    they refuse with 400 before anything is uploaded.  When the image
    host returns [null] they throw a [TypeError], reading [url] off
    [null], rather than their 400 upload error; the file has been handed
    to the host and no user is changed.  When the host returns a usable
    [url] they answer 200 and store it for the requester. *)
Theorem image_update_outcomes :
  forall (env : Env) (w : World) (req : Request) (file : option FileInfo),
    (Js.truthy (UserController.file_path file) = false ->
     UserController.updateUserAvatar env req file w
     = (w, inl (ApiError 400 "Avatar is required"))
     /\ UserController.updateUserCoverImage env req file w
        = (w, inl (ApiError 400 "Cover image is required")))
    /\ (Js.truthy (UserController.file_path file) = true ->
        uploadOnCloudinary env (UserController.file_path file) = VNull ->
        exists msg,
          UserController.updateUserAvatar env req file w
          = (set_uploaded (uploaded w ++ [UserController.file_path file]) w,
             inl (TypeError msg))
          /\ UserController.updateUserCoverImage env req file w
             = (set_uploaded (uploaded w ++ [UserController.file_path file]) w,
                inl (TypeError msg)))
    /\ (forall fs u,
          Js.truthy (UserController.file_path file) = true ->
          uploadOnCloudinary env (UserController.file_path file) = VDoc fs ->
          Js.truthy (Js.prop fs "url") = true ->
          find (has_id user_id (user__id req)) (users w) = Some u ->
          exists w1 r1 w2 r2,
            UserController.updateUserAvatar env req file w = (w1, inr r1)
            /\ status_code r1 = 200
            /\ option_map avatar (find (has_id user_id (user__id req)) (users w1))
               = Some (Js.prop fs "url")
            /\ map coverImage (users w1) = map coverImage (users w)
            /\ UserController.updateUserCoverImage env req file w = (w2, inr r2)
            /\ status_code r2 = 200
            /\ option_map coverImage (find (has_id user_id (user__id req)) (users w2))
               = Some (Js.prop fs "url")
            /\ map avatar (users w2) = map avatar (users w)).
Proof.
  intros env w req file.
  unfold UserController.updateUserAvatar, UserController.updateUserCoverImage.
  split; [|split].
  - intros ->. split; reflexivity.
  - intros -> Hnull. run_more. rewrite Hnull. simpl. eexists. split; reflexivity.
  - intros fs u -> Hup Hurl Hu. run_more. rewrite Hup. simpl. rewrite Hurl. simpl.
    rewrite Hu. eexists _, _, _, _.
    repeat match goal with |- _ /\ _ => split end; try reflexivity; simpl.
    all: try (rewrite (find_update_first _ _ _ _ Hu)
                by (exact (proj2 (find_some _ _ Hu))); reflexivity).
    all: rewrite (map_update_first_found _ _ _ _ _ Hu) by reflexivity; reflexivity.
Qed.

Lemma image_update_outcomes_witness :
  exists msg,
    UserController.updateUserAvatar (Sample.env Sample.Like_unbound Sample.jwt_unbound)
      (Sample.request [] [] (Some Sample.alice)) (Some (mkFile "broken.png")) Sample.world
    = (set_uploaded [VStr "broken.png"] Sample.world, inl (TypeError msg))
    /\ UserController.updateUserCoverImage (Sample.env Sample.Like_unbound Sample.jwt_unbound)
         (Sample.request [] [] (Some Sample.alice)) (Some (mkFile "broken.png")) Sample.world
       = (set_uploaded [VStr "broken.png"] Sample.world, inl (TypeError msg)).
Proof.
  exact (proj1 (proj2 (image_update_outcomes
                         (Sample.env Sample.Like_unbound Sample.jwt_unbound) Sample.world
                         (Sample.request [] [] (Some Sample.alice))
                         (Some (mkFile "broken.png"))))
               eq_refl eq_refl).
Defined.

Lemma issuing_tokens_keeps_identities (env : Env) (id : Value) (w : World) :
  same_identities w (fst (UserController.generateAccessAndRefreshTokens env id w)).
Proof.
  destruct (generateAccessAndRefreshTokens_cases env id w)
    as [(u & Hu & ->) | (_ & ->)]; [|split; reflexivity].
  pose proof (find_has_id _ _ _ _ Hu) as Hid. rewrite Hid in Hu.
  unfold same_identities; simpl; split; now rewrite (map_update_first_found _ _ _ _ _ Hu).
Qed.

(** X22. Apart from registration, no handler of the user controller
    adds, removes, reorders or renames a user: login, logout, token
    refresh, password change, account update and the two image updates
    leave the identifiers and the user names of the stored users as they
    were, whatever their outcome. *)
Theorem only_registration_changes_who_is_stored :
  forall (env : Env) (w : World) (req : Request) (file : option FileInfo),
    same_identities w (fst (UserController.loginUser env req w))
    /\ same_identities w (fst (UserController.logoutUser req w))
    /\ same_identities w (fst (UserController.refreshAccessToken env req w))
    /\ same_identities w (fst (UserController.changeCurrentPassword env req w))
    /\ same_identities w (fst (UserController.updateAccountDetails req w))
    /\ same_identities w (fst (UserController.updateUserAvatar env req file w))
    /\ same_identities w (fst (UserController.updateUserCoverImage env req file w)).
Proof.
  intros env w req file.
  assert (Hrefl : same_identities w w) by (split; reflexivity).
  repeat match goal with |- same_identities _ _ /\ _ => split end.
  - unfold UserController.loginUser.
    destruct (negb _); [exact Hrefl|]. run_more.
    destruct (find _ (users w)) as [u|]; [|exact Hrefl].
    destruct (isPasswordCorrect env u _); [|exact Hrefl].
    pose proof (issuing_tokens_keeps_identities env (VId (user_id u)) w) as H.
    destruct (UserController.generateAccessAndRefreshTokens env _ w) as [w1 [e|t]];
      exact H.
  - unfold UserController.logoutUser.
    destruct (user req); exact Hrefl.
  - unfold UserController.refreshAccessToken.
    destruct (negb _); [exact Hrefl|]. run_more.
    destruct (jwt_verify env _); [exact Hrefl|].
    destruct (find _ (users w)) as [u|]; [|exact Hrefl].
    destruct (Js.loose_neq _ _); [exact Hrefl|].
    pose proof (issuing_tokens_keeps_identities env (VId (user_id u)) w) as H.
    destruct (UserController.generateAccessAndRefreshTokens env _ w) as [w1 [e|t]];
      exact H.
  - unfold UserController.changeCurrentPassword. run_more.
    destruct (find _ (users w)) as [u|] eqn:Hu; [|exact Hrefl].
    destruct (isPasswordCorrect env u _); [|exact Hrefl]. simpl.
    pose proof (find_has_id _ _ _ _ Hu) as Hid. rewrite Hid in Hu.
    unfold same_identities; simpl; split; now rewrite (map_update_first_found _ _ _ _ _ Hu).
  - unfold UserController.updateAccountDetails.
    destruct (_ || _); [exact Hrefl|]. run_more. simpl.
    unfold same_identities; simpl; split; now rewrite map_update_first.
  - unfold UserController.updateUserAvatar.
    destruct (negb _); [exact Hrefl|]. run_more.
    destruct (UserController.member _ _); [exact Hrefl|].
    destruct (Js.truthy _); [|exact Hrefl]. simpl.
    unfold same_identities; simpl; split; now rewrite map_update_first.
  - unfold UserController.updateUserCoverImage.
    destruct (negb _); [exact Hrefl|]. run_more.
    destruct (UserController.member _ _); [exact Hrefl|].
    destruct (Js.truthy _); [|exact Hrefl]. simpl.
    unfold same_identities; simpl; split; now rewrite map_update_first.
Qed.

(** ** The channel profile, again *)

Lemma getUserChannelProfile_answer (env : Env) (w w' : World) (req : Request)
  (r : Response) :
  UserController.getUserChannelProfile env req w = (w', inr r) ->
  exists us,
    w' = w
    /\ incl us (users w)
    /\ r = mkResponse 200 []
             (Some (ApiResponse.new 200 (VArr (map (channel_view w (user__id req)) us))
                                    "Channel profile fetched successfully")).
Proof.
  unfold UserController.getUserChannelProfile.
  destruct (negb _); [discriminate|]. run_more.
  destruct (UserController.toLowerCase _) as [e|name]; [discriminate|].
  unfold User.aggregate, Aggregate.collection. simpl String.eqb. cbv iota.
  change (UserController.channelPipeline (VStr name) (user__id req))
    with (Aggregate.Match (VStr name)
            :: tl (UserController.channelPipeline (VStr name) (user__id req))).
  cbn [Aggregate.run Aggregate.run_stage].
  destruct (match_operand env (VStr name)) as [keep_doc|]; [|discriminate].
  rewrite filter_map_comm, channel_stages.
  set (us := filter (fun u => keep_doc (user_value u)) (users w)).
  destruct (Aggregate.is_nil _); [discriminate|].
  intros [= <- <-]. exists us. split; [reflexivity|]. split; [|reflexivity].
  intros x Hx. unfold us in Hx. now apply filter_In in Hx.
Qed.

Lemma omap_none {A B} (f : A -> option B) (l : list A) :
  Forall (fun x => f x = None) l -> Aggregate.omap f l = [].
Proof.
  induction 1 as [|x r Hx _ IH]; simpl; [reflexivity|]. now rewrite Hx.
Qed.

(** X23. The channel pipeline tests the requester against the field
    [subsciber] of the subscriptions.  When no stored subscription has a
    field of that name (for one, when the field is spelled [subscriber])
    every profile that [getUserChannelProfile] returns has
    [isSubscribed: false], also for a requester who is subscribed. *)
Theorem isSubscribed_reads_a_misspelt_field :
  forall (env : Env) (w w' : World) (req : Request) (r : Response),
    Forall (fun s => Aggregate.get "subsciber" s = None) (subscriptions w) ->
    UserController.getUserChannelProfile env req w = (w', inr r) ->
    exists profiles,
      option_map ApiResponse.data (sent r) = Some (VArr profiles)
      /\ profiles <> []
      /\ Forall (fun d => Aggregate.get "isSubscribed" d = Some (VBool false)) profiles.
Proof.
  intros env w w' req r Hsub H.
  pose proof H as Hne.
  apply getUserChannelProfile_answer in H as (us & -> & _ & ->).
  eexists. split; [reflexivity|]. split.
  - revert Hne. unfold UserController.getUserChannelProfile.
    destruct (negb _); [discriminate|]. run_more.
    destruct (UserController.toLowerCase _); [discriminate|].
    destruct (User.aggregate _ _ _) as [w1 [e|[|d l]]]; try discriminate.
    simpl. intros [= _ Hd]. destruct us; [discriminate|]. discriminate.
  - apply Forall_forall. intros d Hd. apply in_map_iff in Hd as (u & <- & _).
    unfold channel_view. cbv zeta. cbn [Aggregate.get Js.get_field String.eqb Ascii.eqb Bool.eqb].
    rewrite omap_none; [reflexivity|].
    unfold subscriptions_to. apply Forall_forall. intros s Hs.
    apply filter_In in Hs as [Hs _]. rewrite Forall_forall in Hsub. auto.
Qed.

Lemma isSubscribed_reads_a_misspelt_field_witness :
  exists profiles,
    Some (VArr [channel_view Sample.world (VId 2) Sample.alice]) = Some (VArr profiles)
    /\ profiles <> []
    /\ Forall (fun d => Aggregate.get "isSubscribed" d = Some (VBool false)) profiles.
Proof.
  refine (isSubscribed_reads_a_misspelt_field (lenient None) Sample.world Sample.world
            (Sample.request [("username", VStr "Alice")] [] (Some Sample.bob))
            (mkResponse 200 []
               (Some (ApiResponse.new 200 (VArr [channel_view Sample.world (VId 2) Sample.alice])
                                      "Channel profile fetched successfully")))
            _ eq_refl).
  repeat constructor.
Defined.

(** X24. [getUserChannelProfile] hands the lower-cased user name to
    [$match] as a bare string.  On a database that rejects a [$match]
    whose operand is not a document the handler never answers: every
    request is refused, and a request that names a user is refused with
    the error of the database, not with a 404. *)
Theorem channel_profile_needs_a_lenient_database :
  forall (env : Env) (w : World) (req : Request),
    (forall v, match_operand env v = None) ->
    (exists e, UserController.getUserChannelProfile env req w = (w, inl e))
    /\ (forall name, Js.prop (params req) "username" = VStr name -> name <> "" ->
          UserController.getUserChannelProfile env req w
          = (w, inl (MongoError "the match filter must be an expression in an object"))).
Proof.
  intros env w req Hstrict.
  assert (Hrun : forall name,
             User.aggregate env (UserController.channelPipeline (VStr name) (user__id req)) w
             = (w, inl (MongoError "the match filter must be an expression in an object"))).
  { intros name. unfold User.aggregate. simpl. now rewrite Hstrict. }
  unfold UserController.getUserChannelProfile. split.
  - destruct (Js.truthy (Js.prop (params req) "username")); simpl;
      [|eexists; reflexivity]. run_more.
    destruct (UserController.toLowerCase (Js.prop (params req) "username")) as [e|name];
      [eexists; reflexivity|].
    rewrite Hrun. eexists; reflexivity.
  - intros name Hn Hne. rewrite Hn. cbn [Js.truthy UserController.toLowerCase].
    destruct (String.eqb_spec name ""); [contradiction|]. run_more.
    now rewrite Hrun.
Qed.

Lemma channel_profile_needs_a_lenient_database_witness :
  exists e,
    UserController.getUserChannelProfile (Sample.env Sample.Like_unbound Sample.jwt_unbound)
      (Sample.request [("username", VStr "Alice")] [] (Some Sample.bob)) Sample.world
    = (Sample.world, inl e).
Proof.
  refine (proj1 (channel_profile_needs_a_lenient_database
                   (Sample.env Sample.Like_unbound Sample.jwt_unbound) Sample.world
                   (Sample.request [("username", VStr "Alice")] [] (Some Sample.bob)) _)).
  reflexivity.
Defined.
